(** * agent-cli: the turn loop, the model check and the Clearcut logger

    A shallow embedding of
      - core/turn.ts: Turn.run and handlePendingFunctionCall;
      - telemetry/types.ts: getDecisionFromOutcome and the event classes;
      - telemetry/clearcut-logger/clearcut-logger.ts: ClearcutLogger;
      - core/modelCheck.ts: getEffectiveModel and its probes;
      - config/models.ts: the default and fast model of each auth type.

    Conventions.  JavaScript strings are [string]s (code units below 256),
    integral JavaScript numbers are [Z], [undefined]/absent is [None].
    A generator is modelled by the list of events it yields together with
    how it ends; a promise by how it settles. *)

From Stdlib Require Import ZArith Lia Bool Ascii String List DecimalString.
From Stdlib Require Init.Byte DecimalPos DecimalZ.
From stdpp Require Import base option list gmap strings.

Local Set Warnings "-register-all".

Local Open Scope string_scope.
Local Open Scope list_scope.
Local Open Scope Z_scope.

(* ===================================================================== *)
(** ** JavaScript values shared by the components                         *)
(* ===================================================================== *)

(** JSON-like values: what tool arguments, error properties and request
    bodies are made of. *)
Inductive Json : Type :=
  | JNull
  | JBool (b : bool)
  | JNum (n : Z)
  | JStr (s : string)
  | JArr (items : list Json)
  | JObj (fields : list (string * Json)).

(** How an evaluation ends: normally with a value, or abruptly with a
    thrown value (a rejected promise is the abrupt completion of its
    [await]). *)
Inductive Completion (E A : Type) : Type :=
  | Normal (a : A)
  | Abrupt (e : E).
Arguments Normal {E A} a.
Arguments Abrupt {E A} e.

(** A JavaScript number that holds an integer, or an infinity. *)
Inductive JsNumber : Type :=
  | Finite (z : Z)
  | PosInfinity
  | NegInfinity.

(** [Number(b)] for a BigInt [b]: the double nearest to [b], ties to the
    even significand; 53 significant bits, overflow to an infinity from
    2^1024 on. *)
Definition round_to_double (n : Z) : option Z :=
  let bits := Z.log2 n + 1 in
  if bits <=? 53 then Some n
  else
    let e := bits - 53 in
    let q := Z.shiftr n e in
    let r := Z.land n (Z.ones e) in
    let half := Z.shiftl 1 (e - 1) in
    let q' := if (half <? r) || ((r =? half) && Z.odd q) then q + 1 else q in
    let v := Z.shiftl q' e in
    if Z.shiftl 1 1024 <=? v then None else Some v.

Definition Number_of_BigInt (b : Z) : JsNumber :=
  if b <? 0 then
    match round_to_double (- b) with
    | Some v => Finite (- v)
    | None => NegInfinity
    end
  else
    match round_to_double b with
    | Some v => Finite v
    | None => PosInfinity
    end.

(** Decimal rendering of an integer, as [String(n)] and template literals
    give it. *)
Definition Z_to_string (n : Z) : string :=
  NilZero.string_of_int (Z.to_int n).

(* ===================================================================== *)
(** ** telemetry/types.ts                                                  *)
(* ===================================================================== *)

Module Types.

(** tools.ts [ToolConfirmationOutcome]; [OtherOutcome] stands for a
    run-time value outside the enumeration. *)
Inductive ToolConfirmationOutcome : Type :=
  | ProceedOnce
  | ProceedAlways
  | ProceedAlwaysServer
  | ProceedAlwaysTool
  | ModifyWithEditor
  | Cancel
  | OtherOutcome (tag : string).

Inductive ToolCallDecision : Type :=
  | ACCEPT
  | REJECT
  | MODIFY.

Definition getDecisionFromOutcome (outcome : ToolConfirmationOutcome)
  : ToolCallDecision :=
  match outcome with
  | ProceedOnce
  | ProceedAlways
  | ProceedAlwaysServer
  | ProceedAlwaysTool => ACCEPT
  | ModifyWithEditor => MODIFY
  | Cancel => REJECT
  | OtherOutcome _ => REJECT
  end.

(** [status_code?: number | string] *)
Inductive StatusCode : Type :=
  | StatusNumber (n : Z)
  | StatusString (s : string).

(** @google/genai [GenerateContentResponseUsageMetadata], the counts the
    constructor reads. *)
Record UsageMetadata : Type := {
  promptTokenCount : option Z;
  candidatesTokenCount : option Z;
  cachedContentTokenCount : option Z;
  thoughtsTokenCount : option Z;
  toolUsePromptTokenCount : option Z;
  totalTokenCount : option Z
}.

Record UserPromptEvent : Type := {
  up_event_name : string;
  up_event_timestamp : string;
  prompt_length : Z;
  prompt : option string
}.

Definition new_UserPromptEvent (iso_now : string) (prompt_length : Z)
    (prompt : option string) : UserPromptEvent :=
  {| up_event_name := "user_prompt";
     up_event_timestamp := iso_now;
     prompt_length := prompt_length;
     prompt := prompt |}.

Record ApiRequestEvent : Type := {
  rq_event_name : string;
  rq_event_timestamp : string;
  rq_model : string;
  request_text : option string
}.

Definition new_ApiRequestEvent (iso_now : string) (model : string)
    (request_text : option string) : ApiRequestEvent :=
  {| rq_event_name := "api_request";
     rq_event_timestamp := iso_now;
     rq_model := model;
     request_text := request_text |}.

Record ApiErrorEvent : Type := {
  er_event_name : string;
  er_event_timestamp : string;
  er_model : string;
  er_error : string;
  er_error_type : option string;
  er_status_code : option StatusCode;
  er_duration_ms : Z
}.

Definition new_ApiErrorEvent (iso_now : string) (model error : string)
    (duration_ms : Z) (error_type : option string)
    (status_code : option StatusCode) : ApiErrorEvent :=
  {| er_event_name := "api_error";
     er_event_timestamp := iso_now;
     er_model := model;
     er_error := error;
     er_error_type := error_type;
     er_status_code := status_code;
     er_duration_ms := duration_ms |}.

Record ApiResponseEvent : Type := {
  event_name : string;
  event_timestamp : string;
  model : string;
  status_code : option StatusCode;
  duration_ms : Z;
  error : option string;
  input_token_count : Z;
  output_token_count : Z;
  cached_content_token_count : Z;
  thoughts_token_count : Z;
  tool_token_count : Z;
  total_token_count : Z;
  response_text : option string
}.

(** [usage_data?.field ?? 0] *)
Definition count_or_zero (usage_data : option UsageMetadata)
    (field : UsageMetadata -> option Z) : Z :=
  default 0 (usage_data ≫= field).

(** [new ApiResponseEvent(model, duration_ms, usage_data?, response_text?,
    error?)]; [iso_now] is [new Date().toISOString()]. *)
Definition new_ApiResponseEvent (iso_now : string) (model : string)
    (duration_ms : Z) (usage_data : option UsageMetadata)
    (response_text : option string) (error : option string)
  : ApiResponseEvent :=
  {| event_name := "api_response";
     event_timestamp := iso_now;
     model := model;
     duration_ms := duration_ms;
     status_code := Some (StatusNumber 200);
     input_token_count := count_or_zero usage_data promptTokenCount;
     output_token_count := count_or_zero usage_data candidatesTokenCount;
     cached_content_token_count :=
       count_or_zero usage_data cachedContentTokenCount;
     thoughts_token_count := count_or_zero usage_data thoughtsTokenCount;
     tool_token_count := count_or_zero usage_data toolUsePromptTokenCount;
     total_token_count := count_or_zero usage_data totalTokenCount;
     response_text := response_text;
     error := error |}.

Record EndSessionEvent : Type := {
  es_event_name : string;
  es_event_timestamp : string;
  session_id : option string
}.

(** [config?.getSessionId()] is passed as [session_id]. *)
Definition new_EndSessionEvent (iso_now : string)
    (session_id : option string) : EndSessionEvent :=
  {| es_event_name := "end_session";
     es_event_timestamp := iso_now;
     session_id := session_id |}.

(** The fields of [ToolCallEvent] and [StartSessionEvent] that the
    Clearcut logger reads. *)
Record ToolCallEvent : Type := {
  function_name : string;
  tc_duration_ms : Z;
  success : bool;
  decision : option ToolCallDecision;
  tc_error : option string;
  tc_error_type : option string
}.

Record StartSessionEvent : Type := {
  ss_model : string;
  embedding_model : string;
  sandbox_enabled : bool;
  core_tools_enabled : string;
  approval_mode : string;
  api_key_enabled : bool;
  vertex_ai_enabled : bool;
  debug_enabled : bool;
  mcp_servers : string;
  telemetry_enabled : bool;
  telemetry_log_user_prompts_enabled : bool
}.

End Types.

(* ===================================================================== *)
(** ** Thrown values                                                       *)
(* ===================================================================== *)

(** What a [throw] or a rejection carries: a primitive ([None] is
    [undefined]) or an object with its constructor's name and its own
    properties. *)
Inductive Thrown : Type :=
  | ThrownPrimitive (v : option Json)
  | ThrownObject (ctor : string) (props : gmap string Json).

Definition new_Error (ctor message : string) : Thrown :=
  ThrownObject ctor {[ "message" := JStr message ]}.

(* ===================================================================== *)
(** ** telemetry/clearcut-logger/clearcut-logger.ts                        *)
(* ===================================================================== *)

Module Clearcut.
Import Types.

Definition start_session_event_name := "start_session".
Definition new_prompt_event_name := "new_prompt".
Definition tool_call_event_name := "tool_call".
Definition api_request_event_name := "api_request".
Definition api_response_event_name := "api_response".
Definition api_error_event_name := "api_error".
Definition end_session_event_name := "end_session".

Record LogResponse : Type := {
  nextRequestWaitMs : option JsNumber
}.

(** The object literal [{}]. *)
Definition empty_LogResponse : LogResponse :=
  {| nextRequestWaitMs := None |}.

(** *** decodeLogResponse *)

Abbreviation Buffer := (list Byte.byte).

(** [buf.readUInt8(i)]; Node throws a RangeError outside the buffer. *)
Definition readUInt8 (buf : Buffer) (i : nat) : Completion Thrown Z :=
  match buf !! i with
  | Some b => Normal (Z.of_N (Byte.to_N b))
  | None => Abrupt (new_Error "RangeError" "ERR_OUT_OF_RANGE")
  end.

(** The loop [for (let i = 1; cont && i < buf.length; i++)]; [todo] is
    [buf.length - i], so [todo = 0] is the failing test [i < buf.length]. *)
Fixpoint decode_loop (buf : Buffer) (todo i : nat) (ms : Z) (cont : bool)
  : Completion Thrown (Z * bool) :=
  match todo with
  | O => Normal (ms, cont)
  | S todo' =>
      if cont then
        match readUInt8 buf i with
        | Abrupt e => Abrupt e
        | Normal byte =>
            decode_loop buf todo' (S i)
              (Z.lor ms (Z.shiftl (Z.land byte 127) (7 * (Z.of_nat i - 1))))
              (negb (Z.land byte 128 =? 0))
        end
      else Normal (ms, cont)
  end.

Definition decodeLogResponse (buf : Buffer)
  : Completion Thrown (option LogResponse) :=
  if (length buf <? 1)%nat then Normal None
  else
    match readUInt8 buf 0 with
    | Abrupt e => Abrupt e
    | Normal first =>
        if negb (first =? 8) then Normal None
        else
          match decode_loop buf (length buf - 1) 1 0 true with
          | Abrupt e => Abrupt e
          | Normal (ms, cont) =>
              if cont then Normal None
              else
                Normal (Some {| nextRequestWaitMs :=
                                  Some (Number_of_BigInt ms) |})
          end
    end.

(** *** The queue and the log events *)

(** The members of [EventMetadataKey] (event-metadata-key.ts) that the
    logger uses. *)
Inductive EventMetadataKey : Type :=
  | AGENT_CLI_START_SESSION_MODEL
  | AGENT_CLI_START_SESSION_EMBEDDING_MODEL
  | AGENT_CLI_START_SESSION_SANDBOX
  | AGENT_CLI_START_SESSION_CORE_TOOLS
  | AGENT_CLI_START_SESSION_APPROVAL_MODE
  | AGENT_CLI_START_SESSION_API_KEY_ENABLED
  | AGENT_CLI_START_SESSION_VERTEX_API_ENABLED
  | AGENT_CLI_START_SESSION_DEBUG_MODE_ENABLED
  | AGENT_CLI_START_SESSION_MCP_SERVERS
  | AGENT_CLI_START_SESSION_TELEMETRY_ENABLED
  | AGENT_CLI_START_SESSION_TELEMETRY_LOG_USER_PROMPTS_ENABLED
  | AGENT_CLI_USER_PROMPT_LENGTH
  | AGENT_CLI_TOOL_CALL_NAME
  | AGENT_CLI_TOOL_CALL_DECISION
  | AGENT_CLI_TOOL_CALL_SUCCESS
  | AGENT_CLI_TOOL_CALL_DURATION_MS
  | AGENT_CLI_TOOL_ERROR_MESSAGE
  | AGENT_CLI_TOOL_CALL_ERROR_TYPE
  | AGENT_CLI_API_REQUEST_MODEL
  | AGENT_CLI_API_RESPONSE_MODEL
  | AGENT_CLI_API_RESPONSE_STATUS_CODE
  | AGENT_CLI_API_RESPONSE_DURATION_MS
  | AGENT_CLI_API_ERROR_MESSAGE
  | AGENT_CLI_API_RESPONSE_INPUT_TOKEN_COUNT
  | AGENT_CLI_API_RESPONSE_OUTPUT_TOKEN_COUNT
  | AGENT_CLI_API_RESPONSE_CACHED_TOKEN_COUNT
  | AGENT_CLI_API_RESPONSE_THINKING_TOKEN_COUNT
  | AGENT_CLI_API_RESPONSE_TOOL_TOKEN_COUNT
  | AGENT_CLI_API_ERROR_MODEL
  | AGENT_CLI_API_ERROR_TYPE
  | AGENT_CLI_API_ERROR_STATUS_CODE
  | AGENT_CLI_API_ERROR_DURATION_MS
  | AGENT_CLI_END_SESSION_ID.

(** One entry [{ agent_cli_key, value }] of a data array; a [value] of
    [undefined] is [None]. *)
Record MetadataEntry : Type := {
  agent_cli_key : EventMetadataKey;
  value : option string
}.

(** What the logger takes from its runtime: [JSON.stringify] on a defined
    value, the numeric value of each metadata key, and
    [getInstallationId()]. *)
Record Runtime : Type := {
  JSON_stringify : Json -> string;
  key_code : EventMetadataKey -> Z;
  getInstallationId : string
}.

(** [JSON.stringify(v)] where [v] may be [undefined]: the result is then
    [undefined] too. *)
Definition stringify (rt : Runtime) (v : option Json) : option string :=
  JSON_stringify rt <$> v.

Definition json_of_status (c : StatusCode) : Json :=
  match c with
  | StatusNumber n => JNum n
  | StatusString s => JStr s
  end.

Definition decision_value (d : ToolCallDecision) : string :=
  match d with
  | ACCEPT => "accept"
  | REJECT => "reject"
  | MODIFY => "modify"
  end.

(** [b.toString()] *)
Definition bool_toString (b : bool) : string :=
  if b then "true" else "false".

Definition json_of_entry (rt : Runtime) (e : MetadataEntry) : Json :=
  JObj (("agent_cli_key", JNum (key_code rt (agent_cli_key e)))
        :: match value e with
           | Some v => [("value", JStr v)]
           | None => []
           end).

(** [createLogEvent(name, data)], as the JSON value that
    [enqueueLogEvent] serialises. *)
Definition createLogEvent (rt : Runtime) (name : string)
    (data : list MetadataEntry) : Json :=
  JObj [ ("console_type", JStr "AGENT_CLI");
         ("application", JNum 102);
         ("event_name", JStr name);
         ("client_install_id", JStr (getInstallationId rt));
         ("event_metadata", JArr [JArr (json_of_entry rt <$> data)]) ].

Record WrappedEvent : Type := {
  event_time_ms : Z;
  source_extension_json : string
}.

Record ClearcutLogger : Type := {
  debugMode : bool;
  events : list (list WrappedEvent);
  last_flush_time : Z;
  flush_interval_ms : Z
}.

(** [new ClearcutLogger(config)] at time [now]. *)
Definition new_ClearcutLogger (now : Z) (debug : bool) : ClearcutLogger :=
  {| debugMode := debug;
     events := [];
     last_flush_time := now;
     flush_interval_ms := 1000 * 60 |}.

Definition set_events (q : list (list WrappedEvent)) (l : ClearcutLogger)
  : ClearcutLogger :=
  {| debugMode := debugMode l;
     events := q;
     last_flush_time := last_flush_time l;
     flush_interval_ms := flush_interval_ms l |}.

Definition set_last_flush_time (t : Z) (l : ClearcutLogger)
  : ClearcutLogger :=
  {| debugMode := debugMode l;
     events := events l;
     last_flush_time := t;
     flush_interval_ms := flush_interval_ms l |}.

(** [enqueueLogEvent(event)]: push a one-element array. *)
Definition enqueueLogEvent (rt : Runtime) (now : Z) (event : Json)
    (l : ClearcutLogger) : ClearcutLogger :=
  set_events
    (events l ++ [[ {| event_time_ms := now;
                       source_extension_json := JSON_stringify rt event |} ]])
    l.

(** *** Flushing

    [flushToClearcut] is an async function: it runs up to its first
    [await], and is later resumed by the event loop.  A flush in flight is
    a task; the whole logger is the queue plus the tasks in flight. *)

Record PostRequest : Type := {
  log_source_name : string;
  request_time_ms : Z;
  log_event : list (list WrappedEvent);
  user_info : option string
}.

Inductive FlushTask : Type :=
  | AwaitingAccountId (eventsToSend : list (list WrappedEvent))
  | AwaitingResponse (eventsToSend : list (list WrappedEvent))
      (request : PostRequest).


Record System : Type := {
  logger : ClearcutLogger;
  tasks : gmap nat FlushTask;
  settled : gmap nat (Completion Thrown LogResponse);
  next_task : nat;
  posted : list PostRequest
}.

Definition new_System (now : Z) (debug : bool) : System :=
  {| logger := new_ClearcutLogger now debug;
     tasks := ∅;
     settled := ∅;
     next_task := O;
     posted := [] |}.

Definition with_logger (l : ClearcutLogger) (s : System) : System :=
  {| logger := l;
     tasks := tasks s;
     settled := settled s;
     next_task := next_task s;
     posted := posted s |}.

(** [flushToClearcut()] up to [await getGoogleAccountId()]: snapshot the
    queue, empty it, suspend. *)
Definition flushToClearcut (s : System) : System :=
  let eventsToSend := events (logger s) in
  {| logger := set_events [] (logger s);
     tasks := <[ next_task s := AwaitingAccountId eventsToSend ]> (tasks s);
     settled := settled s;
     next_task := S (next_task s);
     posted := posted s |}.

(** [getGoogleAccountId()] settles for task [id].  A rejection leaves the
    async function; with an id or without one the POST is issued. *)
Definition account_id_settles (id : nat)
    (r : Completion Thrown (option string)) (now : Z) (s : System) : System :=
  match tasks s !! id with
  | Some (AwaitingAccountId eventsToSend) =>
      match r with
      | Abrupt e =>
          {| logger := logger s;
             tasks := delete id (tasks s);
             settled := <[ id := Abrupt e ]> (settled s);
             next_task := next_task s;
             posted := posted s |}
      | Normal googleAccountId =>
          let request :=
            {| log_source_name := "CONCORD";
               request_time_ms := now;
               log_event := eventsToSend;
               user_info :=
                 match googleAccountId with
                 | Some a => if decide (a = EmptyString) then None else Some a
                 | None => None
                 end |} in
          {| logger := logger s;
             tasks :=
               <[ id := AwaitingResponse eventsToSend request ]> (tasks s);
             settled := settled s;
             next_task := next_task s;
             posted := posted s ++ [request] |}
      end
  | _ => s
  end.

(** The response of task [id] ends with body [buf]: the [.then] handler. *)
Definition post_ends (id : nat) (buf : Buffer) (now : Z) (s : System)
  : System :=
  match tasks s !! id with
  | Some (AwaitingResponse _ _) =>
      {| logger := set_last_flush_time now (logger s);
         tasks := delete id (tasks s);
         settled :=
           <[ id := Normal match decodeLogResponse buf with
                           | Normal (Some r) => r
                           | Normal None => empty_LogResponse
                           | Abrupt _ => empty_LogResponse
                           end ]> (settled s);
         next_task := next_task s;
         posted := posted s |}
  | _ => s
  end.

(** The request of task [id] emits ['error']: unshift the batch, reject;
    the final [.catch] turns the rejection into [{}]. *)
Definition post_errors (id : nat) (e : Thrown) (s : System) : System :=
  match tasks s !! id with
  | Some (AwaitingResponse eventsToSend _) =>
      {| logger := set_events (eventsToSend ++ events (logger s)) (logger s);
         tasks := delete id (tasks s);
         settled := <[ id := Normal empty_LogResponse ]> (settled s);
         next_task := next_task s;
         posted := posted s |}
  | _ => s
  end.

Definition flushIfNeeded (now : Z) (s : System) : System :=
  if now - last_flush_time (logger s) <? flush_interval_ms (logger s)
  then s
  else flushToClearcut s.

(** *** The log methods *)

Definition entry (k : EventMetadataKey) (v : option string) : MetadataEntry :=
  {| agent_cli_key := k; value := v |}.

Definition enqueue_and_flush (rt : Runtime) (now : Z) (name : string)
    (data : list MetadataEntry) (s : System) : System :=
  flushToClearcut
    (with_logger (enqueueLogEvent rt now (createLogEvent rt name data)
                    (logger s)) s).

Definition logStartSessionEvent (rt : Runtime) (now : Z)
    (event : StartSessionEvent) (s : System) : System :=
  let vertex := Some (bool_toString (vertex_ai_enabled event)) in
  enqueue_and_flush rt now start_session_event_name
    [ entry AGENT_CLI_START_SESSION_MODEL (Some (ss_model event));
      entry AGENT_CLI_START_SESSION_EMBEDDING_MODEL
        (Some (embedding_model event));
      entry AGENT_CLI_START_SESSION_SANDBOX
        (Some (bool_toString (sandbox_enabled event)));
      entry AGENT_CLI_START_SESSION_CORE_TOOLS
        (Some (core_tools_enabled event));
      entry AGENT_CLI_START_SESSION_APPROVAL_MODE (Some (approval_mode event));
      entry AGENT_CLI_START_SESSION_API_KEY_ENABLED
        (Some (bool_toString (api_key_enabled event)));
      entry AGENT_CLI_START_SESSION_VERTEX_API_ENABLED vertex;
      entry AGENT_CLI_START_SESSION_DEBUG_MODE_ENABLED
        (Some (bool_toString (debug_enabled event)));
      entry AGENT_CLI_START_SESSION_VERTEX_API_ENABLED vertex;
      entry AGENT_CLI_START_SESSION_MCP_SERVERS (Some (mcp_servers event));
      entry AGENT_CLI_START_SESSION_VERTEX_API_ENABLED vertex;
      entry AGENT_CLI_START_SESSION_TELEMETRY_ENABLED
        (Some (bool_toString (telemetry_enabled event)));
      entry AGENT_CLI_START_SESSION_TELEMETRY_LOG_USER_PROMPTS_ENABLED
        (Some (bool_toString (telemetry_log_user_prompts_enabled event))) ]
    s.

Definition logNewPromptEvent (rt : Runtime) (now : Z)
    (event : UserPromptEvent) (s : System) : System :=
  enqueue_and_flush rt now new_prompt_event_name
    [ entry AGENT_CLI_USER_PROMPT_LENGTH
        (stringify rt (Some (JNum (prompt_length event)))) ]
    s.

Definition logToolCallEvent (rt : Runtime) (now : Z)
    (event : ToolCallEvent) (s : System) : System :=
  enqueue_and_flush rt now tool_call_event_name
    [ entry AGENT_CLI_TOOL_CALL_NAME
        (stringify rt (Some (JStr (function_name event))));
      entry AGENT_CLI_TOOL_CALL_DECISION
        (stringify rt (JStr ∘ decision_value <$> decision event));
      entry AGENT_CLI_TOOL_CALL_SUCCESS
        (stringify rt (Some (JBool (success event))));
      entry AGENT_CLI_TOOL_CALL_DURATION_MS
        (stringify rt (Some (JNum (tc_duration_ms event))));
      entry AGENT_CLI_TOOL_ERROR_MESSAGE
        (stringify rt (JStr <$> tc_error event));
      entry AGENT_CLI_TOOL_CALL_ERROR_TYPE
        (stringify rt (JStr <$> tc_error_type event)) ]
    s.

Definition logApiRequestEvent (rt : Runtime) (now : Z)
    (event : ApiRequestEvent) (s : System) : System :=
  enqueue_and_flush rt now api_request_event_name
    [ entry AGENT_CLI_API_REQUEST_MODEL
        (stringify rt (Some (JStr (rq_model event)))) ]
    s.

(** The data array of [logApiResponseEvent]. *)
Definition api_response_data (rt : Runtime) (event : ApiResponseEvent)
  : list MetadataEntry :=
  [ entry AGENT_CLI_API_RESPONSE_MODEL
      (stringify rt (Some (JStr (model event))));
    entry AGENT_CLI_API_RESPONSE_STATUS_CODE
      (stringify rt (json_of_status <$> status_code event));
    entry AGENT_CLI_API_RESPONSE_DURATION_MS
      (stringify rt (Some (JNum (duration_ms event))));
    entry AGENT_CLI_API_ERROR_MESSAGE
      (stringify rt (JStr <$> error event));
    entry AGENT_CLI_API_RESPONSE_INPUT_TOKEN_COUNT
      (stringify rt (Some (JNum (input_token_count event))));
    entry AGENT_CLI_API_RESPONSE_OUTPUT_TOKEN_COUNT
      (stringify rt (Some (JNum (output_token_count event))));
    entry AGENT_CLI_API_RESPONSE_CACHED_TOKEN_COUNT
      (stringify rt (Some (JNum (cached_content_token_count event))));
    entry AGENT_CLI_API_RESPONSE_THINKING_TOKEN_COUNT
      (stringify rt (Some (JNum (thoughts_token_count event))));
    entry AGENT_CLI_API_RESPONSE_TOOL_TOKEN_COUNT
      (stringify rt (Some (JNum (tool_token_count event)))) ].

Definition logApiResponseEvent (rt : Runtime) (now : Z)
    (event : ApiResponseEvent) (s : System) : System :=
  enqueue_and_flush rt now api_response_event_name
    (api_response_data rt event) s.

Definition logApiErrorEvent (rt : Runtime) (now : Z)
    (event : ApiErrorEvent) (s : System) : System :=
  enqueue_and_flush rt now api_error_event_name
    [ entry AGENT_CLI_API_ERROR_MODEL
        (stringify rt (Some (JStr (er_model event))));
      entry AGENT_CLI_API_ERROR_TYPE
        (stringify rt (JStr <$> er_error_type event));
      entry AGENT_CLI_API_ERROR_STATUS_CODE
        (stringify rt (json_of_status <$> er_status_code event));
      entry AGENT_CLI_API_ERROR_DURATION_MS
        (stringify rt (Some (JNum (er_duration_ms event)))) ]
    s.

Definition logEndSessionEvent (rt : Runtime) (now : Z)
    (event : EndSessionEvent) (s : System) : System :=
  enqueue_and_flush rt now end_session_event_name
    [ entry AGENT_CLI_END_SESSION_ID
        (Some (default EmptyString (session_id event))) ]
    s.

(** *** The event loop around the logger

    What can happen to the logger, one atomic (non-suspending) piece of
    code at a time, each at its own [Date.now()]. *)

Inductive LogCall : Type :=
  | StartSession (e : StartSessionEvent)
  | NewPrompt (e : UserPromptEvent)
  | ToolCall (e : ToolCallEvent)
  | ApiRequest (e : ApiRequestEvent)
  | ApiResponse (e : ApiResponseEvent)
  | ApiError (e : ApiErrorEvent)
  | EndSession (e : EndSessionEvent).

Inductive Action : Type :=
  | Log (c : LogCall)
  | FlushIfNeeded
  | AccountIdSettles (id : nat) (r : Completion Thrown (option string))
  | PostEnds (id : nat) (buf : Buffer)
  | PostErrors (id : nat) (e : Thrown).

Definition log (rt : Runtime) (now : Z) (c : LogCall) (s : System) : System :=
  match c with
  | StartSession e => logStartSessionEvent rt now e s
  | NewPrompt e => logNewPromptEvent rt now e s
  | ToolCall e => logToolCallEvent rt now e s
  | ApiRequest e => logApiRequestEvent rt now e s
  | ApiResponse e => logApiResponseEvent rt now e s
  | ApiError e => logApiErrorEvent rt now e s
  | EndSession e => logEndSessionEvent rt now e s
  end.

Definition exec (rt : Runtime) (a : Z * Action) (s : System) : System :=
  let (now, act) := a in
  match act with
  | Log c => log rt now c s
  | FlushIfNeeded => flushIfNeeded now s
  | AccountIdSettles id r => account_id_settles id r now s
  | PostEnds id buf => post_ends id buf now s
  | PostErrors id e => post_errors id e s
  end.

Definition execs (rt : Runtime) (acts : list (Z * Action)) (s : System)
  : System :=
  foldl (fun s a => exec rt a s) s acts.

(** The task an action resumes, if any. *)
Definition resumes (a : Z * Action) : option nat :=
  match snd a with
  | AccountIdSettles id _ | PostEnds id _ | PostErrors id _ => Some id
  | Log _ | FlushIfNeeded => None
  end.

End Clearcut.

(* ===================================================================== *)
(** ** config/models.ts and core/modelCheck.ts                             *)
(* ===================================================================== *)

Module ModelCheck.

(** contentGenerator.ts [enum AuthType] and the string of each member. *)
Inductive AuthType : Type :=
  | LOGIN_WITH_GOOGLE
  | USE_AGENT
  | USE_VERTEX_AI
  | USE_OPENAI
  | USE_CUSTOM_API.

Definition AuthType_value (a : AuthType) : string :=
  match a with
  | LOGIN_WITH_GOOGLE => "oauth-personal"
  | USE_AGENT => "agent-api-key"
  | USE_VERTEX_AI => "vertex-ai"
  | USE_OPENAI => "openai-api-key"
  | USE_CUSTOM_API => "custom-api-key"
  end.

Definition DEFAULT_AGENT_MODEL := "agent-2.5-pro".
Definition DEFAULT_AGENT_FLASH_MODEL := "agent-2.5-flash".
Definition DEFAULT_OPENAI_MODEL := "gpt-4o".
Definition DEFAULT_OPENAI_FAST_MODEL := "gpt-4o-mini".
Definition DEFAULT_CUSTOM_MODEL := "gpt-4o".
Definition DEFAULT_CUSTOM_FAST_MODEL := "gpt-4o-mini".

Definition getDefaultModelForAuthType (authType : string) : string :=
  if String.eqb authType "openai-api-key" then DEFAULT_OPENAI_MODEL
  else if String.eqb authType "custom-api-key" then DEFAULT_CUSTOM_MODEL
  else DEFAULT_AGENT_MODEL.

Definition getFastModelForAuthType (authType : string) : string :=
  if String.eqb authType "openai-api-key" then DEFAULT_OPENAI_FAST_MODEL
  else if String.eqb authType "custom-api-key" then DEFAULT_CUSTOM_FAST_MODEL
  else DEFAULT_AGENT_FLASH_MODEL.

(** [fetch]: the request as the probes build it, and how the call
    settles.  A rejection covers a network failure and the abort that the
    2000 ms timer triggers. *)
Record FetchRequest : Type := {
  endpoint : string;
  method : string;
  headers : list (string * string);
  body : Json
}.

Record Response : Type := {
  status : Z
}.

Definition Network := FetchRequest -> Completion Thrown Response.

(** The result of a check together with the requests it sent. *)
Definition Probed := (Completion Thrown string * list FetchRequest)%type.

(** The [try { fetch ... } catch (_error) { ... }] block that the three
    checks share. *)
Definition try_fetch (net : Network) (request : FetchRequest)
    (modelToTest fallbackModel : string) : Probed :=
  (match net request with
   | Normal response =>
       if status response =? 429 then Normal fallbackModel
       else Normal modelToTest
   | Abrupt _error => Normal modelToTest
   end,
   [request]).

Definition checkGeminiModel (net : Network)
    (apiKey modelToTest fallbackModel : string) : Probed :=
  let endpoint :=
    "https://generativelanguage.googleapis.com/v1beta/models/" +:+
    modelToTest +:+ ":generateContent?key=" +:+ apiKey in
  let body :=
    JObj [ ("contents",
            JArr [JObj [("parts", JArr [JObj [("text", JStr "test")]])]]);
           ("generationConfig",
            JObj [ ("maxOutputTokens", JNum 1);
                   ("temperature", JNum 0);
                   ("topK", JNum 1);
                   ("thinkingConfig",
                    JObj [ ("thinkingBudget", JNum 0);
                           ("includeThoughts", JBool false) ]) ]) ] in
  try_fetch net
    {| endpoint := endpoint;
       method := "POST";
       headers := [("Content-Type", "application/json")];
       body := body |}
    modelToTest fallbackModel.

Definition chat_completions_body (modelToTest : string) : Json :=
  JObj [ ("model", JStr modelToTest);
         ("messages",
          JArr [JObj [("role", JStr "user"); ("content", JStr "test")]]);
         ("max_tokens", JNum 1);
         ("temperature", JNum 0) ].

Definition checkOpenAIModel (net : Network)
    (apiKey modelToTest fallbackModel : string) : Probed :=
  try_fetch net
    {| endpoint := "https://api.openai.com/v1/chat/completions";
       method := "POST";
       headers := [ ("Content-Type", "application/json");
                    ("Authorization", "Bearer " +:+ apiKey) ];
       body := chat_completions_body modelToTest |}
    modelToTest fallbackModel.

(** [s.endsWith(suffix)] *)
Definition endsWith (s suffix : string) : bool :=
  let n := String.length s in
  let k := String.length suffix in
  (k <=? n)%nat && String.eqb (substring (n - k) k s) suffix.

Definition checkCustomAPIModel (net : Network)
    (apiKey modelToTest fallbackModel : string) (baseUrl : option string)
  : Probed :=
  match baseUrl with
  | None => (Normal modelToTest, [])
  | Some baseUrl =>
      if String.eqb baseUrl EmptyString then (Normal modelToTest, [])
      else
        let normalizedBaseUrl :=
          if endsWith baseUrl "/v1" then baseUrl else baseUrl +:+ "/v1" in
        try_fetch net
          {| endpoint := normalizedBaseUrl +:+ "/chat/completions";
             method := "POST";
             headers := [ ("Content-Type", "application/json");
                          ("Authorization", "Bearer " +:+ apiKey) ];
             body := chat_completions_body modelToTest |}
          modelToTest fallbackModel
  end.

Definition getEffectiveModel (net : Network)
    (apiKey currentConfiguredModel : string) (authType : AuthType)
    (baseUrl : option string) : Probed :=
  let defaultModel := getDefaultModelForAuthType (AuthType_value authType) in
  let fallbackModel := getFastModelForAuthType (AuthType_value authType) in
  if negb (String.eqb currentConfiguredModel defaultModel)
  then (Normal currentConfiguredModel, [])
  else
    match authType with
    | USE_AGENT | USE_VERTEX_AI =>
        checkGeminiModel net apiKey currentConfiguredModel fallbackModel
    | USE_OPENAI =>
        checkOpenAIModel net apiKey currentConfiguredModel fallbackModel
    | USE_CUSTOM_API =>
        checkCustomAPIModel net apiKey currentConfiguredModel fallbackModel
          baseUrl
    | LOGIN_WITH_GOOGLE => (Normal currentConfiguredModel, [])
    end.

End ModelCheck.

(* ===================================================================== *)
(** ** core/turn.ts                                                        *)
(* ===================================================================== *)

Module Turn.

(** *** The provider's types (@google/genai), as far as [run] reads them *)

Record Part : Type := {
  thought : option bool;
  text : option string
}.

Record GenaiContent : Type := {
  role : option string;
  parts : option (list Part)
}.

Record Candidate : Type := {
  content : option GenaiContent
}.

Record FunctionCall : Type := {
  id : option string;
  name : option string;
  args : option (gmap string Json)
}.

Record GenerateContentResponse : Type := {
  candidates : option (list Candidate);
  functionCalls : option (list FunctionCall)
}.

Inductive PartUnion : Type :=
  | TextPart (s : string)
  | APart (p : Part).

Inductive PartListUnion : Type :=
  | OnePart (p : PartUnion)
  | ManyParts (ps : list PartUnion).

(** *** The events *)

Record StructuredError : Type := {
  message : string;
  status : option Z
}.

Record ToolCallRequestInfo : Type := {
  callId : string;
  rq_name : string;
  rq_args : gmap string Json;
  isClientInitiated : bool
}.

Record ThoughtSummary : Type := {
  subject : string;
  description : string
}.

Record ChatCompressionInfo : Type := {
  originalTokenCount : Z;
  newTokenCount : Z
}.

(** [ServerAgentStreamEvent], one constructor per [AgentEventType] whose
    payload this file declares. *)
Inductive ServerAgentStreamEvent : Type :=
  | Content (value : string)
  | ToolCallRequest (value : ToolCallRequestInfo)
  | UserCancelled
  | Error (value : StructuredError)
  | ChatCompressed (value : option ChatCompressionInfo)
  | Thought (value : ThoughtSummary).

Definition is_UserCancelled (e : ServerAgentStreamEvent) : bool :=
  match e with UserCancelled => true | _ => false end.

Definition is_Error (e : ServerAgentStreamEvent) : bool :=
  match e with Error _ => true | _ => false end.

Definition is_ToolCallRequest (e : ServerAgentStreamEvent) : bool :=
  match e with ToolCallRequest _ => true | _ => false end.

Definition request_of (e : ServerAgentStreamEvent)
  : option ToolCallRequestInfo :=
  match e with ToolCallRequest r => Some r | _ => None end.

(** *** Collaborators *)

(** One entry of the context array [[...history, req]]. *)
Inductive ContextItem : Type :=
  | HistoryItem (c : GenaiContent)
  | RequestItem (r : PartListUnion).

(** A call [reportError(error, baseMessage, context, type)]
    (utils/errorReporting); the call is recorded and taken to resolve. *)
Record Report : Type := {
  rp_error : Thrown;
  rp_baseMessage : string;
  rp_context : list ContextItem;
  rp_type : string
}.

(** What [run] imports or receives: utils/generateContentResponseUtilities
    ([getResponseText]), utils/errors ([toFriendlyError], [instanceof
    UnauthorizedError], [getErrorMessage]), the chat's curated history,
    and the clock and random source: [Date_now k] and [random_hex k] are
    [Date.now()] and [Math.random().toString(16).slice(2)] during the
    [k]-th call of [handlePendingFunctionCall] in the turn. *)
Record Collaborators : Type := {
  getResponseText : GenerateContentResponse -> option string;
  toFriendlyError : Thrown -> Thrown;
  instanceof_UnauthorizedError : Thrown -> bool;
  getErrorMessage : Thrown -> string;
  getHistory : list GenaiContent;
  Date_now : nat -> Z;
  random_hex : nat -> string
}.

(** What happens while [run] is suspended: the provider stream yields a
    chunk, the abort signal fires, or the stream call fails
    ([sendMessageStream] rejects, or the iteration throws).  The end of
    the list is the end of the stream. *)
Inductive StreamStep : Type :=
  | Yields (resp : GenerateContentResponse)
  | Aborts
  | Throws (e : Thrown).

(** *** The turn *)

Record Turn : Type := {
  pendingToolCalls : list ToolCallRequestInfo;
  debugResponses : list GenerateContentResponse
}.

Definition new_Turn : Turn :=
  {| pendingToolCalls := []; debugResponses := [] |}.

Definition getDebugResponses (t : Turn) : list GenerateContentResponse :=
  debugResponses t.

(** The turn, the signal, and what [run] has done so far. *)
Record RunState : Type := {
  turn : Turn;
  aborted : bool;
  yielded : list ServerAgentStreamEvent;
  reported : list Report
}.

Definition start (signal_aborted : bool) : RunState :=
  {| turn := new_Turn;
     aborted := signal_aborted;
     yielded := [];
     reported := [] |}.

Inductive Ending : Type :=
  | Returned
  | Threw (e : Thrown).

Inductive Progress : Type :=
  | Running (st : RunState)
  | Finished (st : RunState) (e : Ending).

Definition yield (ev : ServerAgentStreamEvent) (st : RunState) : RunState :=
  {| turn := turn st;
     aborted := aborted st;
     yielded := yielded st ++ [ev];
     reported := reported st |}.

Definition abort (st : RunState) : RunState :=
  {| turn := turn st;
     aborted := true;
     yielded := yielded st;
     reported := reported st |}.

Definition push_debugResponse (resp : GenerateContentResponse)
    (st : RunState) : RunState :=
  {| turn := {| pendingToolCalls := pendingToolCalls (turn st);
                debugResponses := debugResponses (turn st) ++ [resp] |};
     aborted := aborted st;
     yielded := yielded st;
     reported := reported st |}.

Definition push_pendingToolCall (r : ToolCallRequestInfo) (st : RunState)
  : RunState :=
  {| turn := {| pendingToolCalls := pendingToolCalls (turn st) ++ [r];
                debugResponses := debugResponses (turn st) |};
     aborted := aborted st;
     yielded := yielded st;
     reported := reported st |}.

Definition reportError (r : Report) (st : RunState) : RunState :=
  {| turn := turn st;
     aborted := aborted st;
     yielded := yielded st;
     reported := reported st ++ [r] |}.

(** The template [`${fnCall.name}-${Date.now()}-${random}`]; an undefined
    name prints as "undefined". *)
Definition synthesized_callId (name : option string) (now : Z)
    (random : string) : string :=
  default "undefined" name +:+ "-" +:+ Z_to_string now +:+ "-" +:+ random.

(** The request that [handlePendingFunctionCall] builds on its [k]-th
    call. *)
Definition toolCallRequest (env : Collaborators) (k : nat)
    (fnCall : FunctionCall) : ToolCallRequestInfo :=
  let callId :=
    match id fnCall with
    | Some i => i
    | None =>
        synthesized_callId (name fnCall) (Date_now env k) (random_hex env k)
    end in
  let name :=
    match name fnCall with
    | Some n => if String.eqb n EmptyString then "undefined_tool_name" else n
    | None => "undefined_tool_name"
    end in
  let args := default ∅ (args fnCall) in
  {| callId := callId;
     rq_name := name;
     rq_args := args;
     isClientInitiated := false |}.

(** [handlePendingFunctionCall] never returns null, so its caller always
    yields the event; both effects are done here. *)
Definition handlePendingFunctionCall (env : Collaborators)
    (fnCall : FunctionCall) (st : RunState) : RunState :=
  let toolCallRequest :=
    toolCallRequest env (length (pendingToolCalls (turn st))) fnCall in
  yield (ToolCallRequest toolCallRequest)
    (push_pendingToolCall toolCallRequest st).

(** *** Thought summaries *)

(** The white space that [trim] removes, among code units below 256. *)
Definition is_white_space (a : ascii) : bool :=
  let n := nat_of_ascii a in
  ((9 <=? n) && (n <=? 13) || (n =? 32) || (n =? 160))%nat.

Fixpoint trimStart (s : string) : string :=
  match s with
  | String a s' => if is_white_space a then trimStart s' else s
  | EmptyString => s
  end.

Fixpoint trimEnd (s : string) : string :=
  match s with
  | String a s' =>
      match trimEnd s' with
      | EmptyString => if is_white_space a then EmptyString
                       else String a EmptyString
      | t => String a t
      end
  | EmptyString => EmptyString
  end.

Definition trim (s : string) : string := trimEnd (trimStart s).

(** The first match of [/\*\*(.*?)\*\*/s] in [rawText]: where it starts
    and where its closing asterisks start. *)
Definition match_bold (rawText : string) : option (nat * nat) :=
  match index 0 "**" rawText with
  | Some i =>
      match index (i + 2) "**" rawText with
      | Some j => Some (i, j)
      | None => None
      end
  | None => None
  end.

Definition thoughtSummary (rawText : string) : ThoughtSummary :=
  match match_bold rawText with
  | Some (i, j) =>
      {| subject := trim (substring (i + 2) (j - (i + 2)) rawText);
         description :=
           trim (substring 0 i rawText +:+
                 substring (j + 2) (String.length rawText - (j + 2)) rawText) |}
  | None =>
      {| subject := EmptyString; description := trim rawText |}
  end.

(** [resp.candidates?.[0]?.content?.parts?.[0]] *)
Definition thoughtPart (resp : GenerateContentResponse) : option Part :=
  match candidates resp with
  | Some (candidate :: _) =>
      match content candidate with
      | Some c =>
          match parts c with
          | Some (part :: _) => Some part
          | _ => None
          end
      | None => None
      end
  | _ => None
  end.

(** *** run *)

(** The body of the [for await] loop once the signal has been checked. *)
Definition process_chunk (env : Collaborators)
    (resp : GenerateContentResponse) (st : RunState) : RunState :=
  let st := push_debugResponse resp st in
  match thoughtPart resp with
  | Some {| thought := Some true; text := rawText |} =>
      yield (Thought (thoughtSummary (default EmptyString rawText))) st
  | _ =>
      let st :=
        match getResponseText env resp with
        | Some text =>
            if String.eqb text EmptyString then st else yield (Content text) st
        | None => st
        end in
      foldl (fun st fnCall => handlePendingFunctionCall env fnCall st) st
        (default [] (functionCalls resp))
  end.

(** [typeof error === 'object' && error !== null && 'status' in error &&
    typeof error.status === 'number' ? error.status : undefined] *)
Definition status_of (error : Thrown) : option Z :=
  match error with
  | ThrownObject _ props =>
      match props !! "status" with
      | Some (JNum n) => Some n
      | _ => None
      end
  | ThrownPrimitive _ => None
  end.

(** The [catch (e)] block. *)
Definition catch_block (env : Collaborators) (req : PartListUnion)
    (e : Thrown) (st : RunState) : Progress :=
  let error := toFriendlyError env e in
  if instanceof_UnauthorizedError env error then Finished st (Threw error)
  else if aborted st then Finished (yield UserCancelled st) Returned
  else
    let contextForReport :=
      (HistoryItem <$> getHistory env) ++ [RequestItem req] in
    let st :=
      reportError {| rp_error := error;
                     rp_baseMessage := "Error when talking to Agent API";
                     rp_context := contextForReport;
                     rp_type := "Turn.run-sendMessageStream" |} st in
    let structuredError :=
      {| message := getErrorMessage env error; status := status_of error |} in
    Finished (yield (Error structuredError) st) Returned.

(** What [run] does when it is resumed by one step of its environment. *)
Definition step (env : Collaborators) (req : PartListUnion)
    (s : StreamStep) (st : RunState) : Progress :=
  match s with
  | Aborts => Running (abort st)
  | Yields resp =>
      if aborted st then Finished (yield UserCancelled st) Returned
      else Running (process_chunk env resp st)
  | Throws e => catch_block env req e st
  end.

(** [run] over a stream prefix: still in the loop, or finished. *)
Fixpoint feed (env : Collaborators) (req : PartListUnion)
    (steps : list StreamStep) (st : RunState) : Progress :=
  match steps with
  | [] => Running st
  | s :: steps' =>
      match step env req s st with
      | Running st' => feed env req steps' st'
      | Finished st' e => Finished st' e
      end
  end.

(** [run(req, signal)] over the whole stream: when the stream ends the
    generator returns. *)
Definition run_from (env : Collaborators) (req : PartListUnion)
    (steps : list StreamStep) (st : RunState) : RunState * Ending :=
  match feed env req steps st with
  | Running st' => (st', Returned)
  | Finished st' e => (st', e)
  end.

Definition run (env : Collaborators) (req : PartListUnion)
    (signal_aborted : bool) (steps : list StreamStep) : RunState * Ending :=
  run_from env req steps (start signal_aborted).

End Turn.

(* ===================================================================== *)
(** ** core/contentGenerator.ts                                            *)
(* ===================================================================== *)

Module ContentGenerator.
Import ModelCheck.

Record ContentGeneratorConfig : Type := {
  model : string;
  apiKey : option string;
  baseURL : option string;
  vertexai : option bool;
  authType : option AuthType
}.

(** The variables of [process.env] that the two functions read. *)
Record ProcessEnv : Type := {
  AGENT_API_KEY : option string;
  GOOGLE_API_KEY : option string;
  GOOGLE_CLOUD_PROJECT : option string;
  GOOGLE_CLOUD_LOCATION : option string;
  OPENAI_API_KEY : option string;
  CUSTOM_API_KEY : option string;
  CUSTOM_API_BASE_URL : option string;
  CLI_VERSION : option string
}.

(** [process.version], [process.platform], [process.arch]. *)
Record Process : Type := {
  version : string;
  platform : string;
  arch : string
}.

(** A string in a condition, or on the left of [||]: defined and not
    empty. *)
Definition truthy (s : option string) : bool :=
  match s with
  | Some s => negb (String.eqb s EmptyString)
  | None => false
  end.

(** [authType === AuthType.X] *)
Definition is_authType (authType : option AuthType) (x : AuthType) : bool :=
  match authType with
  | Some a => String.eqb (AuthType_value a) (AuthType_value x)
  | None => false
  end.

Definition set_model (m : string) (c : ContentGeneratorConfig)
  : ContentGeneratorConfig :=
  {| model := m;
     apiKey := apiKey c;
     baseURL := baseURL c;
     vertexai := vertexai c;
     authType := authType c |}.

Definition set_apiKey (k : option string) (c : ContentGeneratorConfig)
  : ContentGeneratorConfig :=
  {| model := model c;
     apiKey := k;
     baseURL := baseURL c;
     vertexai := vertexai c;
     authType := authType c |}.

Definition set_baseURL (u : option string) (c : ContentGeneratorConfig)
  : ContentGeneratorConfig :=
  {| model := model c;
     apiKey := apiKey c;
     baseURL := u;
     vertexai := vertexai c;
     authType := authType c |}.

Definition set_vertexai (v : option bool) (c : ContentGeneratorConfig)
  : ContentGeneratorConfig :=
  {| model := model c;
     apiKey := apiKey c;
     baseURL := baseURL c;
     vertexai := v;
     authType := authType c |}.

(** The result of an async function together with the requests sent
    while it ran. *)
Definition Probing (A : Type) :=
  (Completion Thrown A * list FetchRequest)%type.

(** [contentGeneratorConfig.model = await getEffectiveModel(...); return
    contentGeneratorConfig]. *)
Definition await_effective_model (c : ContentGeneratorConfig)
    (probed : Probed) : Probing ContentGeneratorConfig :=
  (match fst probed with
   | Normal m => Normal (set_model m c)
   | Abrupt e => Abrupt e
   end,
   snd probed).

(** [createContentGeneratorConfig(model, authType, config)];
    [config_model] is [config?.getModel?.()].  In each branch the key is
    the variable just tested, so it is a string. *)
Definition createContentGeneratorConfig (net : Network) (env : ProcessEnv)
    (model : option string) (authType : option AuthType)
    (config_model : option string) : Probing ContentGeneratorConfig :=
  let agentApiKey := AGENT_API_KEY env in
  let googleApiKey := GOOGLE_API_KEY env in
  let googleCloudProject := GOOGLE_CLOUD_PROJECT env in
  let googleCloudLocation := GOOGLE_CLOUD_LOCATION env in
  let openaiApiKey := OPENAI_API_KEY env in
  let customApiKey := CUSTOM_API_KEY env in
  let effectiveModel :=
    if truthy config_model then default EmptyString config_model
    else if truthy model then default EmptyString model
    else DEFAULT_AGENT_MODEL in
  let contentGeneratorConfig :=
    {| model := effectiveModel;
       apiKey := None;
       baseURL := None;
       vertexai := None;
       authType := authType |} in
  if is_authType authType LOGIN_WITH_GOOGLE then
    (Normal contentGeneratorConfig, [])
  else if is_authType authType USE_AGENT && truthy agentApiKey then
    let contentGeneratorConfig :=
      set_apiKey agentApiKey contentGeneratorConfig in
    await_effective_model contentGeneratorConfig
      (getEffectiveModel net (default EmptyString agentApiKey)
         effectiveModel USE_AGENT None)
  else if is_authType authType USE_OPENAI && truthy openaiApiKey then
    let contentGeneratorConfig :=
      set_apiKey openaiApiKey contentGeneratorConfig in
    await_effective_model contentGeneratorConfig
      (getEffectiveModel net (default EmptyString openaiApiKey)
         effectiveModel USE_OPENAI None)
  else if is_authType authType USE_CUSTOM_API && truthy customApiKey then
    let customApiBaseUrl := CUSTOM_API_BASE_URL env in
    let contentGeneratorConfig :=
      set_baseURL customApiBaseUrl
        (set_apiKey customApiKey contentGeneratorConfig) in
    await_effective_model contentGeneratorConfig
      (getEffectiveModel net (default EmptyString customApiKey)
         effectiveModel USE_CUSTOM_API customApiBaseUrl)
  else if is_authType authType USE_VERTEX_AI && truthy googleApiKey &&
          truthy googleCloudProject && truthy googleCloudLocation then
    let contentGeneratorConfig :=
      set_vertexai (Some true)
        (set_apiKey googleApiKey contentGeneratorConfig) in
    await_effective_model contentGeneratorConfig
      (getEffectiveModel net (default EmptyString googleApiKey)
         effectiveModel USE_VERTEX_AI None)
  else (Normal contentGeneratorConfig, []).

(** What [createContentGenerator] returns: the Code Assist generator
    (code_assist/codeAssist.ts), the models of a [GoogleGenAI] client, or
    an [OpenAIContentGenerator], each with what it was constructed from. *)
Inductive ContentGenerator : Type :=
  | CodeAssistContentGenerator (userAgent : string) (authType : AuthType)
      (sessionId : option string)
  | GoogleGenAIModels (apiKey : option string) (vertexai : option bool)
      (userAgent : string)
  | OpenAIContentGenerator (apiKey : string) (baseURL : string)
      (model : string).

(** [new OpenAIContentGenerator({ apiKey, baseURL, model })]: the client
    gets [config.baseURL || 'https://api.openai.com/v1']. *)
Definition new_OpenAIContentGenerator (apiKey : string)
    (baseURL : option string) (model : string) : ContentGenerator :=
  OpenAIContentGenerator apiKey
    (if truthy baseURL then default EmptyString baseURL
     else "https://api.openai.com/v1")
    model.

(** [`${config.authType}`] *)
Definition authType_toString (authType : option AuthType) : string :=
  match authType with
  | Some a => AuthType_value a
  | None => "undefined"
  end.

Definition createContentGenerator (proc : Process) (env : ProcessEnv)
    (config : ContentGeneratorConfig) (sessionId : option string)
  : Completion Thrown ContentGenerator :=
  let version :=
    if truthy (CLI_VERSION env) then default EmptyString (CLI_VERSION env)
    else version proc in
  let userAgent :=
    "AgentCLI/" +:+ version +:+ " (" +:+ platform proc +:+ "; " +:+
    arch proc +:+ ")" in
  if is_authType (authType config) LOGIN_WITH_GOOGLE then
    Normal (CodeAssistContentGenerator userAgent LOGIN_WITH_GOOGLE sessionId)
  else if is_authType (authType config) USE_AGENT ||
          is_authType (authType config) USE_VERTEX_AI then
    Normal (GoogleGenAIModels
              (match apiKey config with
               | Some k => if String.eqb k EmptyString then None else Some k
               | None => None
               end)
              (vertexai config) userAgent)
  else if is_authType (authType config) USE_OPENAI then
    if negb (truthy (apiKey config)) then
      Abrupt (new_Error "Error" "OpenAI API key is required")
    else
      Normal (new_OpenAIContentGenerator
                (default EmptyString (apiKey config)) None (model config))
  else if is_authType (authType config) USE_CUSTOM_API then
    if negb (truthy (apiKey config)) then
      Abrupt (new_Error "Error" "Custom API key is required")
    else
      let baseURL := CUSTOM_API_BASE_URL env in
      if negb (truthy baseURL) then
        Abrupt (new_Error "Error"
                  "CUSTOM_API_BASE_URL environment variable is required")
      else
        Normal (new_OpenAIContentGenerator
                  (default EmptyString (apiKey config)) baseURL
                  (model config))
  else
    Abrupt (new_Error "Error"
              ("Error creating contentGenerator: Unsupported authType: " +:+
               authType_toString (authType config))).

End ContentGenerator.

(* ===================================================================== *)
(** ** The static side of ClearcutLogger, and StartSessionEvent            *)
(* ===================================================================== *)

Module Session.
Import Types Clearcut.

(** [getSandbox()]: a sandbox configuration, or a string. *)
Inductive Sandbox : Type :=
  | SandboxString (s : string)
  | SandboxConfig (command image : string).

(** What the getters of [Config] (config/config.ts) return when the
    constructors and the logger call them. *)
Record Config : Type := {
  getUsageStatisticsEnabled : bool;
  getDebugMode : bool;
  getSessionId : string;
  getContentGeneratorConfig : option ContentGenerator.ContentGeneratorConfig;
  getMcpServers : option (list string);
  getModel : string;
  getEmbeddingModel : string;
  getSandbox : option Sandbox;
  getCoreTools : option (list string);
  getApprovalMode : string;
  getTelemetryEnabled : bool;
  getTelemetryLogPromptsEnabled : bool;
  getFileFilteringRespectGitIgnore : bool
}.



(** The logger that [ClearcutLogger.instance] holds: its config and its
    state. *)
Record Instance : Type := {
  config : Config;
  system : System
}.

(** [ClearcutLogger.getInstance(config)] at time [now]: what it returns,
    and the static [instance] afterwards. *)
Definition getInstance (now : Z) (config : option Config)
    (instance : option Instance) : option Instance * option Instance :=
  match config with
  | None => (None, instance)
  | Some c =>
      if negb (getUsageStatisticsEnabled c) then (None, instance)
      else
        match instance with
        | None =>
            let created :=
              {| config := c;
                 system := new_System now (getDebugMode c) |} in
            (Some created, Some created)
        | Some i => (Some i, Some i)
        end
  end.

(** [shutdown()]: log an end-session event made from the logger's own
    config. *)
Definition shutdown (rt : Runtime) (now : Z) (iso_now : string)
    (i : Instance) : Instance :=
  {| config := config i;
     system :=
       logEndSessionEvent rt now
         (new_EndSessionEvent iso_now (Some (getSessionId (config i))))
         (system i) |}.

End Session.

(* ===================================================================== *)
(** ** core/openaiContentGenerator.ts                                      *)
(* ===================================================================== *)

Module OpenAI.

(** *** The @google/genai side, as the adapter reads and builds it *)

Record FunctionCall : Type := {
  id : option string;
  name : option string;
  args : option Json
}.

Record FunctionResponse : Type := {
  fr_name : option string;
  response : option Json
}.

Record Part : Type := {
  text : option string;
  functionCall : option FunctionCall;
  functionResponse : option FunctionResponse
}.

Record Content : Type := {
  role : option string;
  parts : option (list Part)
}.

Record UsageMetadata : Type := {
  promptTokenCount : Z;
  candidatesTokenCount : Z;
  totalTokenCount : Z
}.

Record Candidate : Type := {
  content : Content;
  finishReason : option string
}.

Record GenerateContentResponse : Type := {
  candidates : list Candidate;
  usageMetadata : option UsageMetadata;
  functionCalls : option (list FunctionCall)
}.

(** [ContentListUnion]: a string, a part, a content, or an array of
    contents or of parts. *)
Inductive ContentListUnion : Type :=
  | OneString (s : string)
  | OnePart (p : Part)
  | OneContent (c : Content)
  | Contents (cs : list Content)
  | Parts (ps : list Part).

(** *** The OpenAI side *)

(** A tool call of a message: [{ id, type: 'function', function: { name,
    arguments } }]. *)
Record ToolCall : Type := {
  tc_id : string;
  tc_name : option string;
  tc_arguments : string
}.

(** The messages that [convertContentsToMessages] builds. *)
Inductive Message : Type :=
  | ToolMessage (tool_call_id : string) (content : string)
  | UserMessage (content : string)
  | AssistantMessage (content : string)
  | AssistantToolCalls (tool_calls : list ToolCall).

Record Usage : Type := {
  prompt_tokens : option Z;
  completion_tokens : option Z;
  total_tokens : option Z
}.

(** The message of a choice; a hole of a sparse [tool_calls] array is
    [None]. *)
Record ChoiceMessage : Type := {
  msg_content : option string;
  msg_tool_calls : option (list (option ToolCall))
}.

Record Choice : Type := {
  message : option ChoiceMessage;
  finish_reason : option string
}.

Record ChatCompletion : Type := {
  choices : option (list Choice);
  usage : option Usage
}.

(** One entry of [delta.tool_calls] in a streamed chunk. *)
Record ToolCallDelta : Type := {
  index : option nat;
  d_id : option string;
  d_name : option string;
  d_arguments : option string
}.

Record Delta : Type := {
  d_content : option string;
  d_tool_calls : option (list ToolCallDelta)
}.

Record StreamChoice : Type := {
  delta : option Delta;
  s_finish_reason : option string
}.

Record Chunk : Type := {
  s_choices : option (list StreamChoice);
  s_usage : option Usage
}.

(** *** What the adapter takes from its runtime *)

(** [JSON.stringify], [JSON.parse], [String(error)] in a template, and
    the clock: [Date_now k] is the [k]-th reading of [Date.now()] made by
    this generator. *)
Record Runtime : Type := {
  JSON_stringify : Json -> string;
  JSON_parse : string -> Completion Thrown Json;
  error_toString : Thrown -> string;
  Date_now : nat -> Z
}.

(** The generator's mutable state: [toolCallIdMap] (a key may be
    [undefined]) and the number of clock readings made. *)
Record State : Type := {
  toolCallIdMap : gmap (option string) string;
  clock_reads : nat
}.

Definition new_State : State :=
  {| toolCallIdMap := ∅; clock_reads := O |}.

(** [this.toolCallIdMap.set(key, id)] *)
Definition set_id (key : option string) (tool_id : string) (st : State)
  : State :=
  {| toolCallIdMap := <[ key := tool_id ]> (toolCallIdMap st);
     clock_reads := clock_reads st |}.

(** [Date.now()] *)
Definition read_clock (rt : Runtime) (st : State) : Z * State :=
  (Date_now rt (clock_reads st),
   {| toolCallIdMap := toolCallIdMap st;
      clock_reads := S (clock_reads st) |}).

(** *** Truthiness *)

(** A string in a condition: defined and not empty. *)
Definition truthy (s : option string) : bool :=
  match s with
  | Some s => negb (String.eqb s EmptyString)
  | None => false
  end.

(** [s || fallback] *)
Definition string_or (s : option string) (fallback : string) : string :=
  match s with
  | Some s => if String.eqb s EmptyString then fallback else s
  | None => fallback
  end.

(** [n || 0] for a count. *)
Definition count_or_0 (n : option Z) : Z := default 0 n.

(** A JSON value in a condition. *)
Definition json_truthy (j : Json) : bool :=
  match j with
  | JNull => false
  | JBool b => b
  | JNum n => negb (n =? 0)
  | JStr s => negb (String.eqb s EmptyString)
  | JArr _ => true
  | JObj _ => true
  end.

(** [v || {}] *)
Definition json_or_empty (v : option Json) : Json :=
  match v with
  | Some j => if json_truthy j then j else JObj []
  | None => JObj []
  end.

(** [`${name}`] for a name that may be undefined. *)
Definition name_toString (name : option string) : string :=
  default "undefined" name.

(** *** The private helpers *)

Definition extractTextFromParts (parts : list Part) : string :=
  String.concat EmptyString
    (omap (fun part => if truthy (text part) then text part else None) parts).

Definition extractTextFromContents (contents : list Content) : string :=
  String.concat (String (ascii_of_nat 10) EmptyString)
    (map (fun content => extractTextFromParts (default [] (parts content)))
       contents).

Definition extractFunctionCallsFromParts (parts : list Part)
  : list FunctionCall :=
  omap functionCall parts.

Definition isFunctionResponseContent (content : Content) : bool :=
  match role content with
  | Some r => String.eqb r "user"
  | None => false
  end &&
  match parts content with
  | Some ps => forallb (fun part => bool_decide (is_Some (functionResponse part))) ps
  | None => false
  end.

Definition mapFinishReason (reason : option string) : string :=
  match reason with
  | Some r =>
      if String.eqb r "stop" then "STOP"
      else if String.eqb r "length" then "MAX_TOKENS"
      else if String.eqb r "tool_calls" then "STOP"
      else if String.eqb r "content_filter" then "SAFETY"
      else "OTHER"
  | None => "OTHER"
  end.

(** A content read as a part: it has none of the keys a part is asked
    for. *)
Definition content_as_part (c : Content) : Part :=
  {| text := None; functionCall := None; functionResponse := None |}.

(** ['role' in c]: the record holds the key when its value is defined. *)
Definition has_role (c : Content) : bool :=
  bool_decide (is_Some (role c)).

Definition wrap_parts (ps : list Part) : list Content :=
  [ {| role := Some "user"; parts := Some ps |} ].

Definition normalizeContents (contents : ContentListUnion) : list Content :=
  match contents with
  | Contents [] => []
  | Contents (firstItem :: rest) =>
      if has_role firstItem then firstItem :: rest
      else wrap_parts (map content_as_part (firstItem :: rest))
  | Parts [] => []
  | Parts ps => wrap_parts ps
  | OneString s =>
      wrap_parts [ {| text := Some s; functionCall := None;
                      functionResponse := None |} ]
  | OneContent c =>
      if has_role c then [c] else wrap_parts [content_as_part c]
  | OnePart p => wrap_parts [p]
  end.

(** [Math.ceil(text.length / 4)] *)
Definition countTokens (contents : ContentListUnion) : Z :=
  let text := extractTextFromContents (normalizeContents contents) in
  (Z.of_nat (String.length text) + 3) / 4.

(** *** Contents to messages *)

Definition nat_to_string (n : nat) : string := Z_to_string (Z.of_nat n).

(** [this.toolCallIdMap.get(functionName) || `call_${functionName}_${Date.now()}`] *)
Definition toolCallId_of_response (rt : Runtime) (functionName : option string)
    (st : State) : string * State :=
  if truthy (toolCallIdMap st !! functionName) then
    (default EmptyString (toolCallIdMap st !! functionName), st)
  else
    let '(now, st') := read_clock rt st in
    ("call_" +:+ name_toString functionName +:+ "_" +:+ Z_to_string now, st').

(** The loop over the parts of a function response content. *)
Fixpoint tool_messages (rt : Runtime) (ps : list Part) (st : State)
  : list Message * State :=
  match ps with
  | [] => ([], st)
  | part :: rest =>
      match functionResponse part with
      | Some fr =>
          let '(toolCallId, st1) :=
            toolCallId_of_response rt (fr_name fr) st in
          let m :=
            ToolMessage toolCallId
              (JSON_stringify rt (json_or_empty (response fr))) in
          let '(ms, st2) := tool_messages rt rest st1 in
          (m :: ms, st2)
      | None => tool_messages rt rest st
      end
  end.

(** [fc.id || `call_${fc.name}_${Date.now()}_${index}`] *)
Definition toolCallId_of_call (rt : Runtime) (fc : FunctionCall) (i : nat)
    (st : State) : string * State :=
  if truthy (id fc) then (default EmptyString (id fc), st)
  else
    let '(now, st') := read_clock rt st in
    ("call_" +:+ name_toString (name fc) +:+ "_" +:+ Z_to_string now +:+
     "_" +:+ nat_to_string i, st').

(** The callback of [functionCalls.map], from index [i] on. *)
Fixpoint tool_calls_from (rt : Runtime) (i : nat) (fcs : list FunctionCall)
    (st : State) : list ToolCall * State :=
  match fcs with
  | [] => ([], st)
  | fc :: rest =>
      let '(toolCallId, st1) := toolCallId_of_call rt fc i st in
      let st2 := set_id (Some (string_or (name fc) "unknown")) toolCallId st1 in
      let tc :=
        {| tc_id := toolCallId;
           tc_name := name fc;
           tc_arguments := JSON_stringify rt (json_or_empty (args fc)) |} in
      let '(tcs, st3) := tool_calls_from rt (S i) rest st2 in
      (tc :: tcs, st3)
  end.

Definition is_blank (s : string) : bool :=
  String.eqb (Turn.trim s) EmptyString.

(** The body of the loop of [convertContentsToMessages]: the messages
    one content adds. *)
Definition messages_of_content (rt : Runtime) (content : Content) (st : State)
  : list Message * State :=
  if bool_decide (role content = Some "user") then
    if isFunctionResponseContent content then
      tool_messages rt (default [] (parts content)) st
    else
      let textContent := extractTextFromParts (default [] (parts content)) in
      if is_blank textContent then ([], st)
      else ([UserMessage textContent], st)
  else if bool_decide (role content = Some "model") then
    let text := extractTextFromParts (default [] (parts content)) in
    let functionCalls :=
      extractFunctionCallsFromParts (default [] (parts content)) in
    let spoken :=
      if negb (String.eqb text EmptyString) && negb (is_blank text)
      then [AssistantMessage text] else [] in
    match functionCalls with
    | [] => (spoken, st)
    | _ :: _ =>
        let '(toolCalls, st') := tool_calls_from rt O functionCalls st in
        (spoken ++ [AssistantToolCalls toolCalls], st')
    end
  else ([], st).

Fixpoint convertContentsToMessages (rt : Runtime) (contents : list Content)
    (st : State) : list Message * State :=
  match contents with
  | [] => ([], st)
  | content :: rest =>
      let '(ms, st1) := messages_of_content rt content st in
      let '(ms', st2) := convertContentsToMessages rt rest st1 in
      (ms ++ ms', st2)
  end.

(** The request, as far as it is followed here: the model, the messages
    and the stream flag. *)
Record OpenAIRequest : Type := {
  rq_model : string;
  rq_messages : list Message;
  rq_stream : bool
}.

Record GenerateContentParameters : Type := {
  p_model : option string;
  p_contents : ContentListUnion
}.

Definition convertToOpenAIRequest (rt : Runtime) (self_model : string)
    (request : GenerateContentParameters) (st : State)
  : OpenAIRequest * State :=
  let contentArray := normalizeContents (p_contents request) in
  let '(messages, st') := convertContentsToMessages rt contentArray st in
  ({| rq_model := string_or (p_model request) self_model;
      rq_messages := messages;
      rq_stream := false |}, st').

(** *** Optional chaining *)

(** [response.choices?.[0]] *)
Definition first_choice (response : ChatCompletion) : option Choice :=
  match choices response with
  | Some (choice :: _) => Some choice
  | _ => None
  end.

(** [choice.message?.content] and [choice.message?.tool_calls] *)
Definition message_content (choice : Choice) : option string :=
  match message choice with
  | Some m => msg_content m
  | None => None
  end.

Definition message_tool_calls (choice : Choice)
  : option (list (option ToolCall)) :=
  match message choice with
  | Some m => msg_tool_calls m
  | None => None
  end.

(** [chunk.choices?.[0]] *)
Definition first_stream_choice (chunk : Chunk) : option StreamChoice :=
  match s_choices chunk with
  | Some (choice :: _) => Some choice
  | _ => None
  end.

(** [delta?.content] and [delta?.tool_calls] *)
Definition delta_content (choice : StreamChoice) : option string :=
  match delta choice with
  | Some d => d_content d
  | None => None
  end.

Definition delta_tool_calls (choice : StreamChoice)
  : option (list ToolCallDelta) :=
  match delta choice with
  | Some d => d_tool_calls d
  | None => None
  end.

(** [response.usage?.prompt_tokens] and the like *)
Definition usage_field (u : option Usage) (field : Usage -> option Z)
  : option Z :=
  match u with
  | Some u => field u
  | None => None
  end.

(** *** Responses to [GenerateContentResponse] *)

Definition function_call_part (fc : FunctionCall) : Part :=
  {| text := None; functionCall := Some fc; functionResponse := None |}.

Definition text_part (s : string) : Part :=
  {| text := Some s; functionCall := None; functionResponse := None |}.

(** Reading [toolCall.function] of a hole of the array. *)
Definition hole_TypeError : Thrown :=
  new_Error "TypeError"
    "Cannot read properties of undefined (reading 'function')".

(** The loop over [choice.message.tool_calls]; what it has set in the
    map before a throw stays set. *)
Fixpoint convert_tool_calls (rt : Runtime) (tool_calls : list (option ToolCall))
    (st : State) (parts : list Part) (functionCalls : list FunctionCall)
  : Completion Thrown (list Part * list FunctionCall) * State :=
  match tool_calls with
  | [] => (Normal (parts, functionCalls), st)
  | None :: _ => (Abrupt hole_TypeError, st)
  | Some toolCall :: rest =>
      let st' := set_id (tc_name toolCall) (tc_id toolCall) st in
      match JSON_parse rt (string_or (Some (tc_arguments toolCall)) "{}") with
      | Abrupt e => (Abrupt e, st')
      | Normal a =>
          let functionCall :=
            {| id := Some (tc_id toolCall);
               name := tc_name toolCall;
               args := Some a |} in
          convert_tool_calls rt rest st'
            (parts ++ [function_call_part functionCall])
            (functionCalls ++ [functionCall])
      end
  end.

Definition usage_of (u : option Usage) : UsageMetadata :=
  {| promptTokenCount := count_or_0 (usage_field u prompt_tokens);
     candidatesTokenCount := count_or_0 (usage_field u completion_tokens);
     totalTokenCount := count_or_0 (usage_field u total_tokens) |}.

Definition model_content (ps : list Part) : Content :=
  {| role := Some "model"; parts := Some ps |}.

Definition convertFromOpenAIResponse (rt : Runtime) (response : ChatCompletion)
    (st : State) : Completion Thrown GenerateContentResponse * State :=
  match first_choice response with
  | None => (Abrupt (new_Error "Error" "No choices in OpenAI response"), st)
  | Some choice =>
      let parts0 :=
        if truthy (message_content choice)
        then [text_part (default EmptyString (message_content choice))]
        else [] in
      match
        convert_tool_calls rt
          (default [] (message_tool_calls choice)) st parts0 []
      with
      | (Abrupt e, st') => (Abrupt e, st')
      | (Normal (parts, functionCalls), st') =>
          (Normal
             {| candidates :=
                  [ {| content := model_content parts;
                       finishReason :=
                         Some (mapFinishReason (finish_reason choice)) |} ];
                usageMetadata := Some (usage_of (usage response));
                functionCalls :=
                  match functionCalls with
                  | [] => None
                  | _ :: _ => Some functionCalls
                  end |}, st')
      end
  end.

Definition convertFromOpenAIStreamChunk (chunk : Chunk)
  : GenerateContentResponse :=
  let choice := first_stream_choice chunk in
  let content :=
    string_or (match choice with
               | Some c => delta_content c
               | None => None
               end) EmptyString in
  let reason :=
    match choice with
    | Some c => s_finish_reason c
    | None => None
    end in
  {| candidates :=
       [ {| content :=
              model_content
                (if String.eqb content EmptyString then []
                 else [text_part content]);
            finishReason :=
              if truthy reason then Some (mapFinishReason reason)
              else None |} ];
     usageMetadata := None;
     functionCalls := None |}.

(** *** generateContent *)

Definition api_error (rt : Runtime) (e : Thrown) : Thrown :=
  new_Error "Error" ("OpenAI API error: " +:+ error_toString rt e).

(** [reply] is how [client.chat.completions.create] settles. *)
Definition generateContent (rt : Runtime) (self_model : string)
    (request : GenerateContentParameters)
    (reply : Completion Thrown ChatCompletion) (st : State)
  : OpenAIRequest * Completion Thrown GenerateContentResponse * State :=
  let '(openaiRequest, st1) := convertToOpenAIRequest rt self_model request st in
  match reply with
  | Abrupt e => (openaiRequest, Abrupt (api_error rt e), st1)
  | Normal response =>
      match convertFromOpenAIResponse rt response st1 with
      | (Normal r, st2) => (openaiRequest, Normal r, st2)
      | (Abrupt e, st2) => (openaiRequest, Abrupt (api_error rt e), st2)
      end
  end.

(** *** generateContentStream *)

(** What the generator meets while it runs: a chunk of the stream, or a
    failure (the rejection of [create], or of the iteration).  The end
    of the list is the end of the stream. *)
Inductive StreamStep : Type :=
  | Delivers (chunk : Chunk)
  | Fails (e : Thrown).

Inductive Ending : Type :=
  | Returned
  | Threw (e : Thrown).

(** The generator's locals, the generator's state and what it has
    yielded. *)
Record Generation : Type := {
  g_state : State;
  accumulatedContent : string;
  accumulatedToolCalls : list (option ToolCall);
  g_yielded : list GenerateContentResponse
}.

Definition new_Generation (st : State) : Generation :=
  {| g_state := st; accumulatedContent := EmptyString;
     accumulatedToolCalls := []; g_yielded := [] |}.

(** [a[index] = x] on an array with holes. *)
Definition array_set {A : Type} (i : nat) (x : A) (a : list (option A))
  : list (option A) :=
  if decide (i < length a)%nat then <[ i := Some x ]> a
  else a ++ replicate (i - length a) None ++ [Some x].

(** The body of the loop over [delta.tool_calls]. *)
Definition accumulate (rt : Runtime) (toolCall : ToolCallDelta)
    (acc : list (option ToolCall)) (st : State)
  : list (option ToolCall) * State :=
  let index := default O (index toolCall) in
  match mjoin (acc !! index) with
  | None =>
      let '(tool_id, st') :=
        if truthy (d_id toolCall)
        then (default EmptyString (d_id toolCall), st)
        else
          let '(now, st') := read_clock rt st in
          ("call_" +:+ nat_to_string index +:+ "_" +:+ Z_to_string now, st') in
      (array_set index
         {| tc_id := tool_id;
            tc_name := Some (string_or (d_name toolCall) EmptyString);
            tc_arguments := string_or (d_arguments toolCall) EmptyString |}
         acc, st')
  | Some entry =>
      let entry1 :=
        if truthy (d_arguments toolCall)
        then {| tc_id := tc_id entry; tc_name := tc_name entry;
                tc_arguments :=
                  tc_arguments entry +:+
                  default EmptyString (d_arguments toolCall) |}
        else entry in
      let entry2 :=
        if truthy (d_name toolCall)
        then {| tc_id := tc_id entry1; tc_name := d_name toolCall;
                tc_arguments := tc_arguments entry1 |}
        else entry1 in
      (<[ index := Some entry2 ]> acc, st)
  end.

Fixpoint accumulate_all (rt : Runtime) (tool_calls : list ToolCallDelta)
    (acc : list (option ToolCall)) (st : State)
  : list (option ToolCall) * State :=
  match tool_calls with
  | [] => (acc, st)
  | toolCall :: rest =>
      let '(acc', st') := accumulate rt toolCall acc st in
      accumulate_all rt rest acc' st'
  end.

Definition mockResponse (acc : list (option ToolCall))
    (reason : option string) (u : option Usage) : ChatCompletion :=
  {| choices :=
       Some [ {| message :=
                   Some {| msg_content := None; msg_tool_calls := Some acc |};
                 finish_reason := reason |} ];
     usage := u |}.

(** One turn of the [for await] loop; [Some e] is a throw inside it. *)
Definition stream_chunk (rt : Runtime) (chunk : Chunk) (g : Generation)
  : Generation * option Thrown :=
  match first_stream_choice chunk with
  | None => (g, None)
  | Some choice =>
      let g1 :=
        if truthy (delta_content choice) then
          {| g_state := g_state g;
             accumulatedContent :=
               accumulatedContent g +:+
               default EmptyString (delta_content choice);
             accumulatedToolCalls := accumulatedToolCalls g;
             g_yielded := g_yielded g ++ [convertFromOpenAIStreamChunk chunk] |}
        else g in
      let '(acc, st2) :=
        accumulate_all rt (default [] (delta_tool_calls choice))
          (accumulatedToolCalls g1) (g_state g1) in
      let g2 :=
        {| g_state := st2; accumulatedContent := accumulatedContent g1;
           accumulatedToolCalls := acc; g_yielded := g_yielded g1 |} in
      if truthy (s_finish_reason choice) && negb (Nat.eqb (length acc) O) then
        match
          convertFromOpenAIResponse rt
            (mockResponse acc (s_finish_reason choice) (s_usage chunk)) st2
        with
        | (Normal r, st3) =>
            ({| g_state := st3; accumulatedContent := accumulatedContent g2;
                accumulatedToolCalls := acc;
                g_yielded := g_yielded g2 ++ [r] |}, None)
        | (Abrupt e, st3) =>
            ({| g_state := st3; accumulatedContent := accumulatedContent g2;
                accumulatedToolCalls := acc;
                g_yielded := g_yielded g2 |}, Some e)
        end
      else (g2, None)
  end.

Definition streaming_api_error (rt : Runtime) (e : Thrown) : Thrown :=
  new_Error "Error" ("OpenAI streaming API error: " +:+ error_toString rt e).

Fixpoint stream_from (rt : Runtime) (steps : list StreamStep) (g : Generation)
  : Generation * Ending :=
  match steps with
  | [] => (g, Returned)
  | Fails e :: _ => (g, Threw (streaming_api_error rt e))
  | Delivers chunk :: rest =>
      match stream_chunk rt chunk g with
      | (g', None) => stream_from rt rest g'
      | (g', Some e) => (g', Threw (streaming_api_error rt e))
      end
  end.

(** The request is converted when [generateContentStream] is called; the
    generator it returns is then run to its end against [steps]. *)
Definition generateContentStream (rt : Runtime) (self_model : string)
    (request : GenerateContentParameters) (steps : list StreamStep)
    (st : State) : OpenAIRequest * (Generation * Ending) :=
  let '(openaiRequest, st1) := convertToOpenAIRequest rt self_model request st in
  ({| rq_model := rq_model openaiRequest;
      rq_messages := rq_messages openaiRequest;
      rq_stream := true |},
   stream_from rt steps (new_Generation st1)).

End OpenAI.

Section ClearcutVocabulary.
Import Types Clearcut.

(** The double quote as a string. *)
Definition quote : string := String (ascii_of_nat 34) EmptyString.

(** A [JSON.stringify] for values whose strings need no escaping, and a
    runtime built on it, for concrete runs of the logger. *)
Fixpoint print_json (j : Json) : string :=
  match j with
  | JNull => "null"
  | JBool b => bool_toString b
  | JNum n => Z_to_string n
  | JStr s => quote +:+ s +:+ quote
  | JArr items =>
      "[" +:+ String.concat "," (map print_json items) +:+ "]"
  | JObj fields =>
      "{" +:+
      String.concat ","
        (map (fun kv => quote +:+ fst kv +:+ quote +:+ ":" +:+
                         print_json (snd kv))
           fields) +:+
      "}"
  end.

Definition sample_runtime : Runtime :=
  {| JSON_stringify := print_json;
     key_code := fun _ => 0;
     getInstallationId := "install-1" |}.

(** A logger created at time 0 with one event waiting in its queue. *)
Definition one_waiting : System :=
  with_logger
    (enqueueLogEvent sample_runtime 10 (JStr "waiting")
       (new_ClearcutLogger 0 false))
    (new_System 0 false).

(** While flush 0 is in flight: a prompt is logged (flush 1 drains it),
    flush 1 gets its account id and its POST fails. *)
Definition overlapping_failure : list (Z * Action) :=
  [ (30, Log (NewPrompt
                (new_UserPromptEvent "2025-01-01T00:00:00.000Z" 5 None)));
    (31, AccountIdSettles 1 (Normal None));
    (32, PostErrors 1 (new_Error "Error" "ECONNRESET")) ].

End ClearcutVocabulary.

Section ClearcutVocabularyMore.
Import Types Clearcut.






End ClearcutVocabularyMore.

Section DecodeVocabulary.
Import Clearcut Byte.

(** The continuation flag of a byte: its high bit. *)
Definition has_continuation (b : byte) : bool :=
  negb (Z.land (Z.of_N (Byte.to_N b)) 128 =? 0).

(** The integer that a run of varint bytes spells: the low 7 bits of each
    byte, the first byte being the least significant group. *)
Fixpoint varint_value (bytes : list byte) : Z :=
  match bytes with
  | [] => 0
  | b :: rest =>
      Z.lor (Z.land (Z.of_N (Byte.to_N b)) 127)
            (Z.shiftl (varint_value rest) 7)
  end.

(** A properly terminated varint: every byte but the last has the
    continuation flag, the last has not. *)
Fixpoint terminated_varint (bytes : list byte) : bool :=
  match bytes with
  | [] => false
  | [b] => negb (has_continuation b)
  | b :: rest => has_continuation b && terminated_varint rest
  end.

(** The loop as a scan of the bytes that are left. *)
Fixpoint scan (rest : list byte) (i : Z) (ms : Z) (cont : bool) : Z * bool :=
  match rest with
  | [] => (ms, cont)
  | b :: rest' =>
      if cont then
        scan rest' (i + 1)
          (Z.lor ms (Z.shiftl (Z.land (Z.of_N (Byte.to_N b)) 127)
                       (7 * (i - 1))))
          (has_continuation b)
      else (ms, cont)
  end.

End DecodeVocabulary.

Section GeneratorVocabulary.
Import ModelCheck ContentGenerator Session.

(** The environment variable that holds the key of an auth type. *)
Definition key_of_authType (env : ProcessEnv) (a : AuthType) : option string :=
  match a with
  | LOGIN_WITH_GOOGLE => None
  | USE_AGENT => AGENT_API_KEY env
  | USE_VERTEX_AI => GOOGLE_API_KEY env
  | USE_OPENAI => OPENAI_API_KEY env
  | USE_CUSTOM_API => CUSTOM_API_KEY env
  end.

(** The model that [createContentGeneratorConfig] starts from: the
    runtime model of the config, else the parameter, else the default. *)
Definition effective_model (config_model model : option string) : string :=
  if truthy config_model then default EmptyString config_model
  else if truthy model then default EmptyString model
  else DEFAULT_AGENT_MODEL.

(** Everything that the auth type needs is in the environment. *)
Definition credentials_present (env : ProcessEnv) (a : AuthType) : bool :=
  match a with
  | LOGIN_WITH_GOOGLE => false
  | USE_AGENT => truthy (AGENT_API_KEY env)
  | USE_OPENAI => truthy (OPENAI_API_KEY env)
  | USE_CUSTOM_API => truthy (CUSTOM_API_KEY env)
  | USE_VERTEX_AI =>
      truthy (GOOGLE_API_KEY env) && truthy (GOOGLE_CLOUD_PROJECT env) &&
      truthy (GOOGLE_CLOUD_LOCATION env)
  end.

(** The User-Agent header that [createContentGenerator] builds. *)
Definition user_agent (proc : Process) (env : ProcessEnv) : string :=
  "AgentCLI/" +:+
  (if truthy (CLI_VERSION env) then default EmptyString (CLI_VERSION env)
   else version proc) +:+
  " (" +:+ platform proc +:+ "; " +:+ arch proc +:+ ")".

(** Statistics are enabled in the config of a call. *)
Definition statistics_enabled (c : option Config) : bool :=
  match c with
  | Some c => getUsageStatisticsEnabled c
  | None => false
  end.

(** The static instance after a series of [getInstance] calls. *)
Definition after_calls (calls : list (Z * option Config))
    (instance : option Instance) : option Instance :=
  foldl (fun st call => snd (getInstance (fst call) (snd call) st))
    instance calls.

(** The first call of a series whose config has statistics enabled. *)
Fixpoint first_enabled (calls : list (Z * option Config))
  : option (Z * Config) :=
  match calls with
  | [] => None
  | (now, Some c) :: calls' =>
      if getUsageStatisticsEnabled c then Some (now, c)
      else first_enabled calls'
  | (_, None) :: calls' => first_enabled calls'
  end.

End GeneratorVocabulary.

Section ModelCheckVocabulary.
Import ModelCheck.

(** A backend that answers every probe with 429, and the probe that
    [checkOpenAIModel] sends for "gpt-4o" with the key "key". *)
Definition busy_network : Network :=
  fun _ => Normal {| status := 429 |}.

Definition openai_probe : FetchRequest :=
  {| endpoint := "https://api.openai.com/v1/chat/completions";
     method := "POST";
     headers := [ ("Content-Type", "application/json");
                  ("Authorization", "Bearer key") ];
     body := chat_completions_body "gpt-4o" |}.

End ModelCheckVocabulary.

Section OpenAIVocabulary.
Import OpenAI.

(** The entry of an array with holes at an index: a hole and an index
    past the end both read as [undefined]. *)
Definition entry_at {A : Type} (a : list (option A)) (i : nat) : option A :=
  mjoin (a !! i).

(** The index a streamed tool call delta is filed under. *)
Definition call_index (d : ToolCallDelta) : nat := default O (index d).

(** The deltas of a stream that are filed under [i], in order. *)
Definition deltas_at (i : nat) (ds : list ToolCallDelta) : list ToolCallDelta :=
  filter (fun d => call_index d = i) ds.

(** The argument fragments of some deltas, joined in order. *)
Definition fragments (ds : list ToolCallDelta) : string :=
  foldr (fun d rest => default EmptyString (d_arguments d) +:+ rest)
    EmptyString ds.

(** The last name that some deltas carry, [n0] when none does. *)
Definition last_name (n0 : option string) (ds : list ToolCallDelta)
  : option string :=
  fold_left (fun n d => if truthy (d_name d) then d_name d else n) ds n0.

(** All tool call deltas of a chunk's first choice. *)
Definition chunk_deltas (chunk : Chunk) : list ToolCallDelta :=
  match first_stream_choice chunk with
  | Some choice => default [] (delta_tool_calls choice)
  | None => []
  end.

(** The text a step of the stream carries. *)
Definition step_text (step : StreamStep) : string :=
  match step with
  | Delivers chunk =>
      match first_stream_choice chunk with
      | Some choice => string_or (delta_content choice) EmptyString
      | None => EmptyString
      end
  | Fails _ => EmptyString
  end.

(** Whether a step is a chunk whose first choice has a finish reason. *)
Definition finishes (step : StreamStep) : bool :=
  match step with
  | Delivers chunk =>
      match first_stream_choice chunk with
      | Some choice => truthy (s_finish_reason choice)
      | None => false
      end
  | Fails _ => false
  end.

(** The text of the parts of a response. *)
Definition response_text (r : GenerateContentResponse) : string :=
  foldr (fun c rest =>
           extractTextFromParts (default [] (parts (content c))) +:+ rest)
    EmptyString (candidates r).

Definition yielded_text (rs : list GenerateContentResponse) : string :=
  foldr (fun r rest => response_text r +:+ rest) EmptyString rs.

Definition calls_of (r : GenerateContentResponse) : list FunctionCall :=
  default [] (functionCalls r).

(** The key [convertContentsToMessages] files a call of the history
    under. *)
Definition history_key (fc : FunctionCall) : option string :=
  Some (string_or (name fc) "unknown").

(** The id of the last pair filed under [key], if any. *)
Fixpoint last_id (key : option string) (filed : list (option string * string))
  : option string :=
  match filed with
  | [] => None
  | (k, i) :: rest =>
      match last_id key rest with
      | Some j => Some j
      | None => if decide (k = key) then Some i else None
      end
  end.

Definition response_part (fr : FunctionResponse) : Part :=
  {| text := None; functionCall := None; functionResponse := Some fr |}.

(** A user content made of function responses only. *)
Definition responses_content (frs : list FunctionResponse) : Content :=
  {| role := Some "user"; parts := Some (map response_part frs) |}.

(** A model content made of function calls only. *)
Definition calls_content (fcs : list FunctionCall) : Content :=
  {| role := Some "model"; parts := Some (map function_call_part fcs) |}.

Definition is_tool_message (m : Message) : bool :=
  match m with
  | ToolMessage _ _ => true
  | _ => false
  end.

(** The text and the tool call deltas that the steps of a stream
    carry. *)
Definition stream_text (steps : list StreamStep) : string :=
  foldr (fun step rest => step_text step +:+ rest) EmptyString steps.

Definition step_deltas (step : StreamStep) : list ToolCallDelta :=
  match step with
  | Delivers chunk => chunk_deltas chunk
  | Fails _ => []
  end.

Definition stream_deltas (steps : list StreamStep) : list ToolCallDelta :=
  flat_map step_deltas steps.

(** A step that is a chunk without a finish reason. *)
Definition quiet (step : StreamStep) : bool :=
  match step with
  | Delivers _ => negb (finishes step)
  | Fails _ => false
  end.

(** The responses that the text of some steps is yielded as. *)
Definition text_responses (steps : list StreamStep)
  : list GenerateContentResponse :=
  flat_map (fun step =>
              match step with
              | Delivers chunk =>
                  if String.eqb (step_text step) EmptyString then []
                  else [convertFromOpenAIStreamChunk chunk]
              | Fails _ => []
              end) steps.

(** What [convertFromOpenAIResponse] files in the id map for the calls
    it returns, and what [convertContentsToMessages] files for the tool
    calls it builds from the history: key and id, in order. *)
Definition filed_by_response (calls : list FunctionCall)
  : list (option string * string) :=
  map (fun fc => (name fc, default EmptyString (id fc))) calls.

Definition filed_by_history (tcs : list ToolCall)
  : list (option string * string) :=
  map (fun tc => (Some (string_or (tc_name tc) "unknown"), tc_id tc)) tcs.

(** The tool message that answers with [fr] under the id [i]. *)
Definition tool_message_for (rt : Runtime) (i : option string)
    (fr : FunctionResponse) : Message :=
  ToolMessage (default EmptyString i)
    (JSON_stringify rt (json_or_empty (response fr))).

Definition has_response (part : Part) : bool :=
  bool_decide (is_Some (functionResponse part)).

(** What the id map holds under [key] once [filed] has been filed, in
    order, into [m]. *)
Definition lookup_after (m : gmap (option string) string)
    (filed : list (option string * string)) (key : option string)
  : option string :=
  match last_id key filed with
  | Some i => Some i
  | None => m !! key
  end.

(** *** Sample data *)

(** A runtime double: every value serializes to [{}], every text parses
    to a string holding it, and the clock advances by one at each
    reading. *)
Definition plain_runtime : Runtime :=
  {| JSON_stringify := fun _ => "{}";
     JSON_parse := fun s => Normal (JStr s);
     error_toString := fun _ => "Error";
     Date_now := fun k => 1700000000000 + Z.of_nat k |}.

Definition content_chunk (s : string) : Chunk :=
  {| s_choices :=
       Some [ {| delta := Some {| d_content := Some s; d_tool_calls := None |};
                 s_finish_reason := None |} ];
     s_usage := None |}.

Definition tool_call_chunk (d : ToolCallDelta) : Chunk :=
  {| s_choices :=
       Some [ {| delta := Some {| d_content := None; d_tool_calls := Some [d] |};
                 s_finish_reason := None |} ];
     s_usage := None |}.

Definition finish_choice (reason : string) : StreamChoice :=
  {| delta := Some {| d_content := None; d_tool_calls := None |};
     s_finish_reason := Some reason |}.

Definition finish_chunk (reason : string) : Chunk :=
  {| s_choices := Some [finish_choice reason]; s_usage := None |}.

(** A text, then one tool call whose arguments come in two fragments. *)
Definition weather_stream : list StreamStep :=
  [ Delivers (content_chunk "Checking.");
    Delivers (tool_call_chunk
                {| index := Some O; d_id := Some "call_1";
                   d_name := Some "get_weather"; d_arguments := Some "[1," |});
    Delivers (tool_call_chunk
                {| index := None; d_id := None; d_name := None;
                   d_arguments := Some "2]" |}) ].

(** A tool call filed under index 1, none under index 0. *)
Definition gapped_stream : list StreamStep :=
  [ Delivers (tool_call_chunk
                {| index := Some 1%nat; d_id := Some "call_b";
                   d_name := Some "lookup"; d_arguments := Some "[]" |}) ].

Definition weather_response : ChatCompletion :=
  {| choices :=
       Some [ {| message :=
                   Some {| msg_content := None;
                           msg_tool_calls :=
                             Some [ Some {| tc_id := "call_1";
                                            tc_name := Some "get_weather";
                                            tc_arguments := "[1,2]" |} ] |};
                 finish_reason := Some "tool_calls" |} ];
     usage := None |}.

Definition weather_result : FunctionResponse :=
  {| fr_name := Some "get_weather"; response := Some (JStr "sunny") |}.

Definition time_result : FunctionResponse :=
  {| fr_name := Some "get_time"; response := None |}.

Definition history_calls : list FunctionCall :=
  [ {| id := Some "call_1"; name := Some "get_weather"; args := None |};
    {| id := None; name := Some "get_time"; args := None |} ].

(** A user content that mixes text with a function response. *)
Definition mixed_content : Content :=
  {| role := Some "user";
     parts := Some [ text_part "see the result";
                     response_part weather_result ] |}.

End OpenAIVocabulary.

Section TurnVocabulary.
Import Turn.

(** A chunk whose first part is a thought: [run] yields a Thought for it
    and skips the rest of the loop body. *)
Definition is_thought_chunk (resp : GenerateContentResponse) : bool :=
  match thoughtPart resp with
  | Some {| thought := Some true |} => true
  | _ => false
  end.

(** The function-call entries of a chunk that reach
    [handlePendingFunctionCall]. *)
Definition chunk_calls (resp : GenerateContentResponse) : list FunctionCall :=
  if is_thought_chunk resp then [] else default [] (functionCalls resp).

(** The function-call entries that a run processes, in the order in which
    they appear in their chunks: those of the chunks read before the
    first chunk that finds the signal set, and before a failure. *)
Fixpoint processed_calls (steps : list StreamStep) (signal_aborted : bool)
  : list FunctionCall :=
  match steps with
  | [] => []
  | Aborts :: steps' => processed_calls steps' true
  | Throws _ :: _ => []
  | Yields resp :: steps' =>
      if signal_aborted then []
      else chunk_calls resp ++ processed_calls steps' false
  end.

(** The requests that a list of entries produces when the turn already
    holds [n] pending calls. *)
Definition requests_from (env : Collaborators) (n : nat)
    (calls : list FunctionCall)
  : list ToolCallRequestInfo :=
  imap (fun i => toolCallRequest env (n + i)) calls.

(** Events that do not end a run. *)
Definition nonterminal (e : ServerAgentStreamEvent) : Prop :=
  is_UserCancelled e = false /\ is_Error e = false.

(** A run that is still in its loop has reported nothing and has yielded
    no terminal event. *)
Definition in_loop (st : RunState) : Prop :=
  reported st = [] /\ Forall nonterminal (yielded st).

(** Strings without the separator of synthesized call ids. *)
Fixpoint no_dash (s : string) : bool :=
  match s with
  | EmptyString => true
  | String a s' => negb (Ascii.eqb a "-") && no_dash s'
  end.

(** Lower-case hexadecimal digits: what [toString(16)] prints. *)
Definition is_hex_digit (a : ascii) : bool :=
  let n := nat_of_ascii a in
  ((48 <=? n) && (n <=? 57) || (97 <=? n) && (n <=? 102))%nat.

Fixpoint hex_string (s : string) : bool :=
  match s with
  | EmptyString => true
  | String a s' => is_hex_digit a && hex_string s'
  end.

(** The clock and random source give what JavaScript's do: a time since
    the epoch, and hexadecimal digits. *)
Definition plausible_draw (env : Collaborators) (k : nat) : Prop :=
  0 <= Date_now env k /\ hex_string (random_hex env k) = true.

(** Concrete collaborators: the response text as the joined part texts,
    errors left as they are, unauthorized errors recognised by their
    constructor, the message read from the error object. *)
Definition joined_text (resp : GenerateContentResponse) : option string :=
  match candidates resp with
  | Some (candidate :: _) =>
      match content candidate with
      | Some c =>
          match parts c with
          | Some ps =>
              Some (String.concat EmptyString
                      (map (fun p => default EmptyString (text p)) ps))
          | None => None
          end
      | None => None
      end
  | _ => None
  end.

Definition sample_env : Collaborators :=
  {| getResponseText := joined_text;
     toFriendlyError := fun e => e;
     instanceof_UnauthorizedError := fun e =>
       match e with
       | ThrownObject ctor _ => String.eqb ctor "UnauthorizedError"
       | ThrownPrimitive _ => false
       end;
     getErrorMessage := fun e =>
       match e with
       | ThrownObject _ props =>
           match props !! "message" with
           | Some (JStr m) => m
           | _ => "unknown"
           end
       | ThrownPrimitive _ => "unknown"
       end;
     getHistory :=
       [ {| role := Some "model";
            parts := Some [ {| thought := None;
                               text := Some "Previous history" |} ] |} ];
     Date_now := fun k => 1700000000000 + Z.of_nat k;
     random_hex := fun k => "8c3f1a2b9d" +:+ Z_to_string (Z.of_nat k) |}.

(** The same collaborators with a clock and a random source that give
    the same values at every call. *)
Definition frozen_env : Collaborators :=
  {| getResponseText := getResponseText sample_env;
     toFriendlyError := toFriendlyError sample_env;
     instanceof_UnauthorizedError := instanceof_UnauthorizedError sample_env;
     getErrorMessage := getErrorMessage sample_env;
     getHistory := getHistory sample_env;
     Date_now := fun _ => 1700000000000;
     random_hex := fun _ => "8c3f1a2b9d" |}.

Definition text_chunk (s : string) : GenerateContentResponse :=
  {| candidates :=
       Some [ {| content :=
                   Some {| role := Some "model";
                           parts := Some [ {| thought := None;
                                              text := Some s |} ] |} |} ];
     functionCalls := None |}.

Definition calls_chunk (calls : list FunctionCall) : GenerateContentResponse :=
  {| candidates := None; functionCalls := Some calls |}.

Definition sample_req : PartListUnion := ManyParts [TextPart "Use tools"].

(** Two entries of one chunk that carry the same provider id. *)
Definition repeated_id_chunk : GenerateContentResponse :=
  calls_chunk
    [ {| id := Some "fc1"; name := Some "tool1"; args := None |};
      {| id := Some "fc1"; name := Some "tool1"; args := None |} ].

(** Two entries of one chunk with the same name and no id, then one with
    neither name nor args. *)
Definition same_name_chunk : GenerateContentResponse :=
  calls_chunk
    [ {| id := None; name := Some "tool2";
         args := Some {[ "arg2" := JStr "val2" ]} |};
      {| id := None; name := Some "tool2"; args := None |};
      {| id := Some "fc3"; name := None; args := None |} ].

End TurnVocabulary.

Section TurnVocabularyMore.
Import Turn.

(** The chunks that a run processes, in arrival order: those read before
    the first chunk that finds the signal set, and before a failure. *)
Fixpoint processed_chunks (steps : list StreamStep) (signal_aborted : bool)
  : list GenerateContentResponse :=
  match steps with
  | [] => []
  | Aborts :: steps' => processed_chunks steps' true
  | Throws _ :: _ => []
  | Yields resp :: steps' =>
      if signal_aborted then []
      else resp :: processed_chunks steps' false
  end.

(** Events that end a run. *)
Definition terminal (e : ServerAgentStreamEvent) : bool :=
  is_UserCancelled e || is_Error e.

(** How a run that started in its loop can have ended. *)
Inductive ended_from (env : Collaborators)
  : RunState -> RunState -> Ending -> Prop :=
  | ended_threw st error :
      instanceof_UnauthorizedError env error = true ->
      ended_from env st st (Threw error)
  | ended_cancelled st :
      aborted st = true ->
      ended_from env st (yield UserCancelled st) Returned
  | ended_error st report err :
      aborted st = false ->
      ended_from env st (yield (Error err) (reportError report st)) Returned.

(** The Content event of a chunk, if its text is not empty. *)
Definition content_events (env : Collaborators)
    (resp : GenerateContentResponse) : list ServerAgentStreamEvent :=
  match getResponseText env resp with
  | Some text => if String.eqb text EmptyString then [] else [Content text]
  | None => []
  end.

(** A chunk that is not a thought and carries no function call. *)
Definition text_only (resp : GenerateContentResponse) : Prop :=
  is_thought_chunk resp = false /\ default [] (functionCalls resp) = [].

(** The text of the first part of a chunk, as the thought branch reads
    it: [thoughtPart.text ?? ''] . *)
Definition thought_text (resp : GenerateContentResponse) : string :=
  match thoughtPart resp with
  | Some part => default EmptyString (text part)
  | None => EmptyString
  end.

(** Strings without an asterisk. *)
Fixpoint no_asterisk (s : string) : bool :=
  match s with
  | EmptyString => true
  | String a s' => negb (Ascii.eqb a "*") && no_asterisk s'
  end.

(** A string that [trim] leaves alone: empty, or with a first and a last
    character that are not white space. *)
Definition trimmed (s : string) : Prop :=
  trimStart s = s /\ trimEnd s = s.

(** A thought chunk that also carries text and a function call. *)
Definition thought_with_call : GenerateContentResponse :=
  {| candidates :=
       Some [ {| content :=
                   Some {| role := Some "model";
                           parts :=
                             Some [ {| thought := Some true;
                                       text := Some "**Plan** call a tool" |} ]
                        |} |} ];
     functionCalls :=
       Some [ {| id := Some "fc9"; name := Some "tool9"; args := None |} ] |}.

End TurnVocabularyMore.

(* ===================================================================== *)
(** * Properties                                                           *)
(* ===================================================================== *)

(** ** Confirmation outcomes and the api_response event *)

Section TelemetryTypes.
Import Types Clearcut.

(** C9. [getDecisionFromOutcome] is a function on every outcome: the four
    Proceed outcomes give ACCEPT, ModifyWithEditor gives MODIFY (which is
    not REJECT), Cancel and any value outside the enumeration give
    REJECT; so every outcome has exactly one of the three decisions. *)
Theorem C9_getDecisionFromOutcome_table :
  getDecisionFromOutcome ProceedOnce = ACCEPT /\
  getDecisionFromOutcome ProceedAlways = ACCEPT /\
  getDecisionFromOutcome ProceedAlwaysServer = ACCEPT /\
  getDecisionFromOutcome ProceedAlwaysTool = ACCEPT /\
  getDecisionFromOutcome ModifyWithEditor = MODIFY /\
  getDecisionFromOutcome ModifyWithEditor <> REJECT /\
  getDecisionFromOutcome Cancel = REJECT /\
  (forall tag, getDecisionFromOutcome (OtherOutcome tag) = REJECT) /\
  (forall o,
     (getDecisionFromOutcome o = ACCEPT <->
      o = ProceedOnce \/ o = ProceedAlways \/ o = ProceedAlwaysServer \/
      o = ProceedAlwaysTool) /\
     (getDecisionFromOutcome o = MODIFY <-> o = ModifyWithEditor) /\
     (getDecisionFromOutcome o = REJECT <->
      o = Cancel \/ exists tag, o = OtherOutcome tag)).
Proof.
  repeat split; try reflexivity; try discriminate.
  all: destruct o; cbn; intros; try discriminate; try tauto; eauto.
  all: try (destruct H as [H | [H | [H | H]]]; discriminate).
  all: try (destruct H as [H | [t H]]; discriminate).
Qed.

(** C10. Whatever the constructor of [ApiResponseEvent] is given, an error
    string included, the event's [status_code] is 200; the status entry
    that [logApiResponseEvent] ships for it is [JSON.stringify(200)]. *)
Theorem C10_ApiResponseEvent_status_200 :
  forall (rt : Runtime) (iso_now model : string) (duration_ms : Z)
         (usage_data : option UsageMetadata)
         (response_text error : option string),
    let event :=
      new_ApiResponseEvent iso_now model duration_ms usage_data
        response_text error in
    status_code event = Some (StatusNumber 200) /\
    Types.error event = error /\
    api_response_data rt event !! 1%nat =
      Some (entry AGENT_CLI_API_RESPONSE_STATUS_CODE
              (Some (JSON_stringify rt (JNum 200)))).
Proof. intros. repeat split. Qed.

End TelemetryTypes.

(** ** decodeLogResponse *)

Section DecodeLogResponse.
Import Clearcut Byte.

Lemma decode_loop_scan (rest done : list byte) (ms : Z) (cont : bool) :
  decode_loop (done ++ rest) (length rest) (length done) ms cont =
  Normal (scan rest (Z.of_nat (length done)) ms cont).
Proof.
  revert done ms cont.
  induction rest as [|b rest IH]; intros done ms cont;
    cbn [decode_loop scan length].
  - reflexivity.
  - destruct cont; [|reflexivity].
    unfold readUInt8. rewrite list_lookup_middle by reflexivity.
    specialize (IH (done ++ [b])).
    rewrite <- app_assoc in IH. cbn [app] in IH.
    rewrite length_app in IH. cbn [length] in IH.
    replace (length done + 1)%nat with (S (length done)) in IH by lia.
    rewrite IH. unfold has_continuation.
    do 3 f_equal. lia.
Qed.

Lemma scan_all_continue (body : list byte) (i ms : Z) :
  Forall (fun b => has_continuation b = true) body ->
  snd (scan body i ms true) = true.
Proof.
  revert i ms. induction body as [|b body IH]; intros i ms Hall; cbn.
  - reflexivity.
  - inversion Hall as [|? ? Hb Hrest]; subst. rewrite Hb. apply IH, Hrest.
Qed.

Lemma scan_terminated (v trailing : list byte) (i ms : Z) :
  1 <= i ->
  terminated_varint v = true ->
  scan (v ++ trailing) i ms true =
  (Z.lor ms (Z.shiftl (varint_value v) (7 * (i - 1))), false).
Proof.
  revert i ms. induction v as [|b v IH]; intros i ms Hi Hv.
  - discriminate.
  - cbn [app scan]. destruct v as [|b' v].
    + cbn in Hv. apply negb_true_iff in Hv. rewrite Hv.
      cbn [app varint_value]. rewrite Z.shiftl_0_l, Z.lor_0_r.
      destruct trailing; reflexivity.
    + cbn [terminated_varint] in Hv. apply andb_true_iff in Hv as [Hb Hv].
      rewrite Hb. rewrite IH by (lia || exact Hv).
      f_equal. cbn [varint_value].
      rewrite <- Z.lor_assoc. f_equal.
      rewrite (Z.shiftl_lor _ _ (7 * (i - 1))). f_equal.
      rewrite Z.shiftl_shiftl by lia. f_equal. lia.
Qed.

Lemma varint_value_nonneg (v : list byte) : 0 <= varint_value v.
Proof.
  induction v as [|b v IH]; cbn; [lia|].
  apply Z.lor_nonneg. split.
  - apply Z.land_nonneg. right. lia.
  - apply Z.shiftl_nonneg. exact IH.
Qed.

Lemma Number_of_BigInt_safe (n : Z) :
  0 <= n < 2 ^ 53 -> Number_of_BigInt n = Finite n.
Proof.
  intros [H0 H1]. unfold Number_of_BigInt.
  destruct (Z.ltb_spec n 0); [lia|].
  unfold round_to_double.
  assert (Z.log2 n + 1 <= 53) as Hlog.
  { destruct (Z.eq_dec n 0) as [->|]; [cbn; lia|].
    assert (Z.log2 n < 53) by (apply Z.log2_lt_pow2; lia). lia. }
  destruct (Z.leb_spec (Z.log2 n + 1) 53); [reflexivity|lia].
Qed.

Lemma decodeLogResponse_cons (b : byte) (rest : list byte) :
  decodeLogResponse (b :: rest) =
  if negb (Z.of_N (Byte.to_N b) =? 8) then Normal None
  else
    let '(ms, cont) := scan rest 1 0 true in
    if cont then Normal None
    else Normal (Some {| nextRequestWaitMs := Some (Number_of_BigInt ms) |}).
Proof.
  unfold decodeLogResponse. cbn [length Nat.ltb Nat.leb readUInt8 lookup].
  cbn -[decode_loop Z.of_N Byte.to_N Z.eqb negb].
  destruct (negb _); [reflexivity|].
  rewrite Nat.sub_0_r.
  change (b :: rest) with ([b] ++ rest).
  change 1%nat with (length [b]).
  rewrite decode_loop_scan. reflexivity.
Qed.

(** The bytes after the marker either all ask for more, or start with a
    properly terminated varint. *)
Lemma varint_or_truncated (body : list byte) :
  Forall (fun c => has_continuation c = true) body \/
  exists v trailing, body = v ++ trailing /\ terminated_varint v = true.
Proof.
  induction body as [|b body IH]; [left; constructor|].
  destruct (has_continuation b) eqn:Hb.
  - destruct IH as [Hall | (v & trailing & -> & Hv)].
    + left. constructor; assumption.
    + right. exists (b :: v), trailing. split; [reflexivity|].
      destruct v as [|c v]; [discriminate|].
      cbn [terminated_varint]. rewrite Hb. exact Hv.
  - right. exists [b], body. split; [reflexivity|].
    cbn. rewrite Hb. reflexivity.
Qed.

Lemma first_byte_8 (b : byte) : Z.of_N (Byte.to_N b) = 8 -> b = x08.
Proof.
  intros H. assert (Byte.to_N b = 8%N) as H' by lia.
  apply (f_equal Byte.of_N) in H'. rewrite Byte.of_to_N in H'.
  cbn in H'. congruence.
Qed.

End DecodeLogResponse.

Section DecodeLogResponseProperties.
Import Clearcut Byte.

(** C3 (as amended). [decodeLogResponse] gives no value on the empty
    buffer, on a buffer whose first byte is not 8, and, after the marker
    8, exactly when every byte has its continuation flag set (the loop
    then falls off the buffer, the flag of the last byte it read being
    set); on 08 96 01 it gives 150; on the marker
    followed by a properly terminated varint (and anything after it) it
    gives [Number] of the integer spelled by the low 7 bits of the varint
    bytes, least significant group first, which is that integer itself
    whenever it is below 2^53; and it never throws. *)
Theorem C3_decodeLogResponse
    (b : byte) (rest body v trailing buf : list byte) :
  decodeLogResponse [] = Normal None /\
  (b <> x08 -> decodeLogResponse (b :: rest) = Normal None) /\
  (Forall (fun c => has_continuation c = true) body <->
   decodeLogResponse (x08 :: body) = Normal None) /\
  decodeLogResponse [x08; x96; x01] =
    Normal (Some {| nextRequestWaitMs := Some (Finite 150) |}) /\
  (terminated_varint v = true ->
   decodeLogResponse (x08 :: v ++ trailing) =
     Normal (Some {| nextRequestWaitMs :=
                       Some (Number_of_BigInt (varint_value v)) |}) /\
   (varint_value v < 2 ^ 53 ->
    decodeLogResponse (x08 :: v ++ trailing) =
      Normal (Some {| nextRequestWaitMs :=
                        Some (Finite (varint_value v)) |}))) /\
  (exists r, decodeLogResponse buf = Normal r).
Proof.
  split; [reflexivity|].
  split.
  { intros Hb. rewrite decodeLogResponse_cons.
    destruct (Z.eqb_spec (Z.of_N (to_N b)) 8) as [Heq|]; [|reflexivity].
    apply first_byte_8 in Heq. contradiction. }
  split.
  { rewrite decodeLogResponse_cons.
    change (negb (Z.of_N (to_N x08) =? 8)) with false. cbv iota.
    split.
    - intros Hall. pose proof (scan_all_continue body 1 0 Hall) as Hc.
      destruct (scan body 1 0 true) as [ms cont]. cbn in Hc. subst cont.
      reflexivity.
    - intros Hnone.
      destruct (varint_or_truncated body)
        as [Hall | (w & rest' & -> & Hw)]; [exact Hall|].
      rewrite scan_terminated in Hnone by (lia || exact Hw).
      discriminate Hnone. }
  split; [reflexivity|].
  split.
  { intros Hv.
    assert (decodeLogResponse (x08 :: v ++ trailing) =
            Normal (Some {| nextRequestWaitMs :=
                              Some (Number_of_BigInt (varint_value v)) |}))
      as Hdec.
    { rewrite decodeLogResponse_cons.
      change (negb (Z.of_N (to_N x08) =? 8)) with false. cbv iota.
      rewrite scan_terminated by (lia || exact Hv).
      cbn [Z.sub Z.mul Z.add Z.opp Z.pos_sub].
      rewrite Z.shiftl_0_r, Z.lor_0_l. reflexivity. }
    split; [exact Hdec|].
    intros Hsafe. rewrite Hdec.
    rewrite Number_of_BigInt_safe; [reflexivity|].
    split; [apply varint_value_nonneg | exact Hsafe]. }
  destruct buf as [|c buf']; [eexists; reflexivity|].
  rewrite decodeLogResponse_cons.
  destruct (negb _); [eexists; reflexivity|].
  destruct (scan buf' 1 0 true) as [ms [|]]; eexists; reflexivity.
Qed.

Lemma C3_decodeLogResponse_witness :
  x00 <> x08 /\
  Forall (fun c => has_continuation c = true) [x96] /\
  terminated_varint [x96; x01] = true /\
  varint_value [x96; x01] < 2 ^ 53 /\
  decodeLogResponse (x00 :: [x01]) = Normal None /\
  decodeLogResponse (x08 :: [x96]) = Normal None /\
  decodeLogResponse (x08 :: [x96; x01] ++ []) =
    Normal (Some {| nextRequestWaitMs :=
                      Some (Finite (varint_value [x96; x01])) |}).
Proof.
  pose proof (C3_decodeLogResponse x00 [x01] [x96] [x96; x01] []
                [x08; x96; x01]) as (_ & Hmark & Hcont & _ & Hval & _).
  assert (x00 <> x08) as H1 by discriminate.
  assert (Forall (fun c => has_continuation c = true) [x96]) as H2
    by (repeat constructor).
  assert (terminated_varint [x96; x01] = true) as H3 by reflexivity.
  assert (varint_value [x96; x01] < 2 ^ 53) as H4 by reflexivity.
  exact (conj H1 (conj H2 (conj H3 (conj H4
           (conj (Hmark H1) (conj (proj1 Hcont H2) (proj2 (Hval H3) H4))))))).
Defined.

(** C3 as stated fails on a long varint: the eight bytes 81 80 80 80 80
    80 80 10 are a properly terminated varint spelling 2^53 + 1, and
    [decodeLogResponse] returns 2^53. *)
Lemma C3_counterexample_long_varint :
  terminated_varint [x81; x80; x80; x80; x80; x80; x80; x10] = true /\
  varint_value [x81; x80; x80; x80; x80; x80; x80; x10] = 2 ^ 53 + 1 /\
  decodeLogResponse [x08; x81; x80; x80; x80; x80; x80; x80; x10] =
    Normal (Some {| nextRequestWaitMs := Some (Finite (2 ^ 53)) |}) /\
  decodeLogResponse [x08; x81; x80; x80; x80; x80; x80; x80; x10] <>
    Normal (Some {| nextRequestWaitMs :=
       Some (Finite
               (varint_value [x81; x80; x80; x80; x80; x80; x80; x10])) |}).
Proof.
  split; [reflexivity|]. split; [reflexivity|]. split; [reflexivity|].
  vm_compute. discriminate.
Qed.

End DecodeLogResponseProperties.

(** ** getEffectiveModel *)

Section ModelCheckProperties.
Import ModelCheck.

Lemma try_fetch_result (net : Network) (request : FetchRequest)
    (modelToTest fallbackModel : string) :
  try_fetch net request modelToTest fallbackModel =
  (Normal (match net request with
           | Normal response =>
               if status response =? 429 then fallbackModel else modelToTest
           | Abrupt _ => modelToTest
           end),
   [request]).
Proof.
  unfold try_fetch. destruct (net request) as [response|e]; [|reflexivity].
  destruct (status response =? 429); reflexivity.
Qed.

(** Every check returns a model and sends at most one request; when it
    sends one, the model is decided by that request's outcome. *)
Lemma getEffectiveModel_cases (net : Network) (apiKey configured : string)
    (authType : AuthType) (baseUrl : option string) :
  getEffectiveModel net apiKey configured authType baseUrl =
    (Normal configured, []) \/
  exists request,
    configured = getDefaultModelForAuthType (AuthType_value authType) /\
    getEffectiveModel net apiKey configured authType baseUrl =
      (Normal (match net request with
               | Normal response =>
                   if status response =? 429
                   then getFastModelForAuthType (AuthType_value authType)
                   else configured
               | Abrupt _ => configured
               end),
       [request]).
Proof.
  unfold getEffectiveModel.
  destruct (String.eqb_spec configured
              (getDefaultModelForAuthType (AuthType_value authType)))
    as [Heq|Hne]; cbn [negb]; [|left; reflexivity].
  destruct authType; cbn match.
  - left; reflexivity.
  - right. unfold checkGeminiModel. rewrite try_fetch_result. eauto.
  - right. unfold checkGeminiModel. rewrite try_fetch_result. eauto.
  - right. unfold checkOpenAIModel. rewrite try_fetch_result. eauto.
  - unfold checkCustomAPIModel.
    destruct baseUrl as [url|]; [|left; reflexivity].
    destruct (String.eqb url EmptyString); [left; reflexivity|].
    right. rewrite try_fetch_result. eauto.
Qed.

Lemma fast_model_is_not_default (authType : AuthType) :
  getFastModelForAuthType (AuthType_value authType) <>
  getDefaultModelForAuthType (AuthType_value authType).
Proof. destruct authType; discriminate. Qed.

(** C7. [getEffectiveModel] returns the configured model and sends no
    request when the configured model is not the auth type's default;
    it never raises; it sends at most one request, and when it sends one
    it returns the auth type's fast model if the response status is 429
    and the configured model on any other status and on a rejected
    request (network failure, timeout), so that the fast model is
    returned exactly when the probe answered 429. *)
Theorem C7_getEffectiveModel
    (net : Network) (apiKey configured : string) (authType : AuthType)
    (baseUrl : option string) :
  let result := getEffectiveModel net apiKey configured authType baseUrl in
  let fallback := getFastModelForAuthType (AuthType_value authType) in
  (configured <> getDefaultModelForAuthType (AuthType_value authType) ->
   result = (Normal configured, [])) /\
  (exists model, fst result = Normal model) /\
  (snd result = [] -> fst result = Normal configured) /\
  (forall request, In request (snd result) ->
     snd result = [request] /\
     (fst result = Normal fallback <->
      exists response,
        net request = Normal response /\ status response = 429) /\
     ((forall response,
         net request = Normal response -> status response <> 429) ->
      fst result = Normal configured)).
Proof.
  cbv zeta.
  pose proof (fast_model_is_not_default authType) as Hfast.
  split.
  { intros Hne. unfold getEffectiveModel.
    destruct (String.eqb_spec configured
                (getDefaultModelForAuthType (AuthType_value authType)));
      [contradiction|reflexivity]. }
  destruct (getEffectiveModel_cases net apiKey configured authType baseUrl)
    as [-> | (request & Hdef & ->)]; cbn [fst snd].
  - split; [eauto|]. split; [reflexivity|]. intros request [].
  - split; [eauto|]. split; [discriminate|].
    intros request' [<- | []]. split; [reflexivity|].
    destruct (net request) as [response|e].
    + destruct (Z.eqb_spec (status response) 429) as [H429|Hnot].
      * split; [split; eauto|].
        intros Hall. exfalso. exact (Hall response eq_refl H429).
      * split; [|reflexivity]. split.
        -- intros Heq. injection Heq as Heq. subst configured.
           exfalso. apply Hfast. symmetry. exact Heq.
        -- intros (response' & Heq & H429). injection Heq as <-.
           contradiction.
    + split; [|reflexivity]. split.
      * intros Heq. injection Heq as Heq. subst configured.
        exfalso. apply Hfast. symmetry. exact Heq.
      * intros (response & Heq & _). discriminate.
Qed.

Lemma C7_getEffectiveModel_witness :
  ("my-model" <> getDefaultModelForAuthType (AuthType_value USE_OPENAI) /\
   getEffectiveModel busy_network "key" "my-model" USE_OPENAI None =
     (Normal "my-model", [])) /\
  (In openai_probe
      (snd (getEffectiveModel busy_network "key" "gpt-4o" USE_OPENAI None)) /\
   fst (getEffectiveModel busy_network "key" "gpt-4o" USE_OPENAI None) =
     Normal "gpt-4o-mini").
Proof.
  assert ("my-model" <> getDefaultModelForAuthType (AuthType_value USE_OPENAI))
    as Hne by discriminate.
  assert (In openai_probe
            (snd (getEffectiveModel busy_network "key" "gpt-4o" USE_OPENAI
                    None))) as Hin by (left; reflexivity).
  split.
  - exact (conj Hne
             (proj1 (C7_getEffectiveModel busy_network "key" "my-model"
                       USE_OPENAI None) Hne)).
  - split; [exact Hin|].
    pose proof (C7_getEffectiveModel busy_network "key" "gpt-4o" USE_OPENAI
                  None) as (_ & _ & _ & Hprobe).
    destruct (Hprobe openai_probe Hin) as (_ & Hiff & _).
    apply (proj2 Hiff).
    exists {| status := 429 |}. split; reflexivity.
Defined.

End ModelCheckProperties.

(** ** The Clearcut queue and its flushes *)

Section ClearcutProperties.
Import Types Clearcut.

Lemma log_is_enqueue_and_flush (rt : Runtime) (now : Z) (c : LogCall)
    (s : System) :
  exists name data, log rt now c s = enqueue_and_flush rt now name data s.
Proof. destruct c; cbn [log]; eexists _, _; reflexivity. Qed.

Lemma enqueue_and_flush_tasks (rt : Runtime) (now : Z) (name : string)
    (data : list MetadataEntry) (s : System) :
  tasks (enqueue_and_flush rt now name data s) =
    <[ next_task s :=
         AwaitingAccountId
           (events (logger s) ++
            [[ {| event_time_ms := now;
                  source_extension_json :=
                    JSON_stringify rt (createLogEvent rt name data) |} ]]) ]>
      (tasks s) /\
  next_task (enqueue_and_flush rt now name data s) = S (next_task s) /\
  events (logger (enqueue_and_flush rt now name data s)) = [].
Proof. repeat split. Qed.

(** Task ids are handed out in increasing order. *)
Lemma exec_next_task (rt : Runtime) (a : Z * Action) (s : System) :
  (next_task s <= next_task (exec rt a s))%nat.
Proof.
  destruct a as [now [c | | id r | id buf | id e]]; cbn [exec].
  - destruct (log_is_enqueue_and_flush rt now c s) as (name & data & ->).
    cbn. lia.
  - unfold flushIfNeeded. destruct (_ <? _); cbn; lia.
  - unfold account_id_settles.
    destruct (tasks s !! id) as [[b | b q]|]; try destruct r; cbn; lia.
  - unfold post_ends. destruct (tasks s !! id) as [[b | b q]|]; cbn; lia.
  - unfold post_errors. destruct (tasks s !! id) as [[b | b q]|]; cbn; lia.
Qed.

(** An action that does not resume task [id] leaves that task as it is. *)
Lemma exec_other_task (rt : Runtime) (a : Z * Action) (s : System)
    (id : nat) :
  (id < next_task s)%nat -> resumes a <> Some id ->
  tasks (exec rt a s) !! id = tasks s !! id.
Proof.
  intros Hid Hres.
  destruct a as [now [c | | id' r | id' buf | id' e]];
    cbn [exec]; cbn [resumes snd] in Hres.
  - destruct (log_is_enqueue_and_flush rt now c s) as (name & data & ->).
    destruct (enqueue_and_flush_tasks rt now name data s) as (-> & _).
    apply lookup_insert_ne. lia.
  - unfold flushIfNeeded. destruct (_ <? _); [reflexivity|].
    cbn. apply lookup_insert_ne. lia.
  - assert (id' <> id) by congruence. unfold account_id_settles.
    destruct (tasks s !! id') as [[b | b q]|]; try destruct r; cbn;
      try reflexivity.
    + by apply lookup_insert_ne.
    + by apply lookup_delete_ne.
  - assert (id' <> id) by congruence. unfold post_ends.
    destruct (tasks s !! id') as [[b | b q]|]; cbn; try reflexivity.
    by apply lookup_delete_ne.
  - assert (id' <> id) by congruence. unfold post_errors.
    destruct (tasks s !! id') as [[b | b q]|]; cbn; try reflexivity.
    by apply lookup_delete_ne.
Qed.

Lemma execs_other_task (rt : Runtime) (acts : list (Z * Action))
    (s : System) (id : nat) :
  (id < next_task s)%nat ->
  Forall (fun a => resumes a <> Some id) acts ->
  tasks (execs rt acts s) !! id = tasks s !! id /\
  (id < next_task (execs rt acts s))%nat.
Proof.
  revert s. induction acts as [|a acts IH]; intros s Hid Hall.
  - split; [reflexivity|exact Hid].
  - inversion Hall as [|? ? Ha Hrest]; subst.
    cbn [execs foldl]. fold (execs rt acts (exec rt a s)).
    pose proof (exec_next_task rt a s) as Hmono.
    destruct (IH (exec rt a s)) as [Htask Hlt]; [lia|exact Hrest|].
    rewrite Htask. split; [|exact Hlt].
    by apply exec_other_task.
Qed.

(** What the failing POST of a task does to the queue. *)
Lemma post_errors_restores (id : nat) (e : Thrown) (s : System)
    (batch : list (list WrappedEvent)) (request : PostRequest) :
  tasks s !! id = Some (AwaitingResponse batch request) ->
  events (logger (post_errors id e s)) = batch ++ events (logger s) /\
  settled (post_errors id e s) !! id = Some (Normal empty_LogResponse) /\
  tasks (post_errors id e s) !! id = None.
Proof.
  intros Htask. unfold post_errors. rewrite Htask. cbn.
  split; [reflexivity|]. split.
  - apply lookup_insert_eq.
  - apply lookup_delete_eq.
Qed.

(** C4. A flush drains the queue of [s0]; whatever else the event loop
    runs while the account id is fetched ([before]) and while the POST is
    in flight ([during]), when the POST fails the queue becomes the
    drained batch, in its order, followed by what the queue held at that
    moment; the drained batch is what was posted, and the promise of
    [flushToClearcut] is fulfilled with an empty response, not rejected. *)
Theorem C4_failed_post_restores_batch
    (rt : Runtime) (s0 : System) (before during : list (Z * Action))
    (t_account t_error : Z) (account : option string) (e : Thrown) :
  let id := next_task s0 in
  let batch := events (logger s0) in
  let s1 := flushToClearcut s0 in
  let s2 := execs rt before s1 in
  let s3 := exec rt (t_account, AccountIdSettles id (Normal account)) s2 in
  let s4 := execs rt during s3 in
  let s5 := exec rt (t_error, PostErrors id e) s4 in
  Forall (fun a => resumes a <> Some id) before ->
  Forall (fun a => resumes a <> Some id) during ->
  events (logger s1) = [] /\
  (exists request,
     tasks s4 !! id = Some (AwaitingResponse batch request) /\
     log_event request = batch /\
     posted s3 = posted s2 ++ [request]) /\
  events (logger s5) = batch ++ events (logger s4) /\
  settled s5 !! id = Some (Normal empty_LogResponse) /\
  tasks s5 !! id = None.
Proof.
  intros id batch s1 s2 s3 s4 s5 Hbefore Hduring.
  split; [reflexivity|].
  assert (tasks s1 !! id = Some (AwaitingAccountId batch)) as H1
    by apply lookup_insert_eq.
  assert (id < next_task s1)%nat as Hlt1 by (cbn; lia).
  destruct (execs_other_task rt before s1 id Hlt1 Hbefore) as [H2 Hlt2].
  fold s2 in H2, Hlt2. rewrite H1 in H2.
  set (request :=
         {| log_source_name := "CONCORD";
            request_time_ms := t_account;
            log_event := batch;
            user_info :=
              match account with
              | Some a => if decide (a = EmptyString) then None else Some a
              | None => None
              end |}).
  assert (s3 =
          {| logger := logger s2;
             tasks := <[ id := AwaitingResponse batch request ]> (tasks s2);
             settled := settled s2;
             next_task := next_task s2;
             posted := posted s2 ++ [request] |}) as Hs3.
  { subst s3. cbn [exec]. unfold account_id_settles. rewrite H2.
    reflexivity. }
  assert (tasks s3 !! id = Some (AwaitingResponse batch request)) as H3.
  { rewrite Hs3. cbn. apply lookup_insert_eq. }
  assert (id < next_task s3)%nat as Hlt3 by (rewrite Hs3; exact Hlt2).
  destruct (execs_other_task rt during s3 id Hlt3 Hduring) as [H4 _].
  fold s4 in H4. rewrite H3 in H4.
  split.
  { exists request. split; [exact H4|]. split; [reflexivity|].
    rewrite Hs3. reflexivity. }
  subst s5. cbn [exec].
  exact (post_errors_restores id e s4 batch request H4).
Qed.

Lemma C4_failed_post_restores_batch_witness :
  let s4 :=
    execs sample_runtime overlapping_failure
      (exec sample_runtime (20, AccountIdSettles 0 (Normal None))
         (execs sample_runtime [] (flushToClearcut one_waiting))) in
  let s5 :=
    exec sample_runtime (40, PostErrors 0 (new_Error "Error" "ETIMEDOUT")) s4 in
  Forall (fun a => resumes a <> Some (next_task one_waiting)) [] /\
  Forall (fun a => resumes a <> Some (next_task one_waiting))
    overlapping_failure /\
  events (logger s5) = events (logger one_waiting) ++ events (logger s4) /\
  settled s5 !! next_task one_waiting = Some (Normal empty_LogResponse).
Proof.
  cbv zeta.
  assert (Forall (fun a => resumes a <> Some (next_task one_waiting)) [])
    as Hbefore by constructor.
  assert (Forall (fun a => resumes a <> Some (next_task one_waiting))
            overlapping_failure) as Hduring
    by (repeat constructor; discriminate).
  pose proof (C4_failed_post_restores_batch sample_runtime one_waiting []
                overlapping_failure 20 40 None
                (new_Error "Error" "ETIMEDOUT") Hbefore Hduring)
    as (_ & _ & Hqueue & Hsettled & _).
  exact (conj Hbefore (conj Hduring (conj Hqueue Hsettled))).
Defined.

(** The restored batch goes in front of what the queue holds. *)
Example overlapping_failure_queue :
  events (logger
    (exec sample_runtime (40, PostErrors 0 (new_Error "Error" "ETIMEDOUT"))
       (execs sample_runtime overlapping_failure
          (exec sample_runtime (20, AccountIdSettles 0 (Normal None))
             (flushToClearcut one_waiting))))) =
  [ [ {| event_time_ms := 10;
         source_extension_json := quote +:+ "waiting" +:+ quote |} ];
    [ {| event_time_ms := 30;
         source_extension_json :=
           JSON_stringify sample_runtime
             (createLogEvent sample_runtime new_prompt_event_name
                [entry AGENT_CLI_USER_PROMPT_LENGTH (Some "5")]) |} ] ].
Proof. vm_compute. reflexivity. Qed.

(** [flushIfNeeded] waits: it starts no flush before the interval has
    elapsed. *)
Lemma flushIfNeeded_gated (now : Z) (s : System) :
  now - last_flush_time (logger s) < flush_interval_ms (logger s) ->
  flushIfNeeded now s = s.
Proof.
  intros Hgate. unfold flushIfNeeded.
  destruct (Z.ltb_spec (now - last_flush_time (logger s))
              (flush_interval_ms (logger s))); [reflexivity|lia].
Qed.

(** The log methods do not call [flushIfNeeded]: each starts a flush of
    the whole queue, whatever the time. *)
Lemma log_flushes_at_once (rt : Runtime) (now : Z) (c : LogCall)
    (s : System) :
  exists wrapped,
    tasks (log rt now c s) !! next_task s =
      Some (AwaitingAccountId (events (logger s) ++ [[wrapped]])) /\
    event_time_ms wrapped = now /\
    events (logger (log rt now c s)) = [].
Proof.
  destruct (log_is_enqueue_and_flush rt now c s) as (name & data & ->).
  eexists. split; [apply lookup_insert_eq|]. split; reflexivity.
Qed.

(** C5. The log methods do not wait for the flush interval: one second
    after the logger was created, when [flushIfNeeded] still does
    nothing, a new-prompt event and an api-request event each start a
    flush of the queue, and the POST goes out as soon as the account id
    is there. *)
Theorem C5_prompt_and_request_flush_inside_the_interval
    (rt : Runtime) (prompt : UserPromptEvent) (request : ApiRequestEvent) :
  let s0 := new_System 0 false in
  flushIfNeeded 1000 s0 = s0 /\
  (exists batch,
     tasks (logNewPromptEvent rt 1000 prompt s0) !! 0%nat =
       Some (AwaitingAccountId batch) /\
     length batch = 1%nat /\
     posted (account_id_settles 0 (Normal None) 1001
               (logNewPromptEvent rt 1000 prompt s0)) =
       [ {| log_source_name := "CONCORD";
            request_time_ms := 1001;
            log_event := batch;
            user_info := None |} ]) /\
  (exists batch,
     tasks (logApiRequestEvent rt 1000 request s0) !! 0%nat =
       Some (AwaitingAccountId batch) /\
     length batch = 1%nat /\
     posted (account_id_settles 0 (Normal None) 1001
               (logApiRequestEvent rt 1000 request s0)) =
       [ {| log_source_name := "CONCORD";
            request_time_ms := 1001;
            log_event := batch;
            user_info := None |} ]).
Proof.
  cbv zeta. split; [reflexivity|].
  split; eexists; (split; [apply lookup_insert_eq|]);
    (split; [reflexivity|]).
  - unfold account_id_settles, logNewPromptEvent.
    destruct (enqueue_and_flush_tasks rt 1000 new_prompt_event_name
                [entry AGENT_CLI_USER_PROMPT_LENGTH
                   (stringify rt (Some (JNum (prompt_length prompt))))]
                (new_System 0 false)) as (-> & _).
    cbn [next_task new_System]. rewrite lookup_insert_eq. reflexivity.
  - unfold account_id_settles, logApiRequestEvent.
    destruct (enqueue_and_flush_tasks rt 1000 api_request_event_name
                [entry AGENT_CLI_API_REQUEST_MODEL
                   (stringify rt (Some (JStr (rq_model request))))]
                (new_System 0 false)) as (-> & _).
    cbn [next_task new_System]. rewrite lookup_insert_eq. reflexivity.
Qed.

End ClearcutProperties.

(** ** Turn.run *)

Section TurnLemmas.
Import Turn.

Variable env : Collaborators.
Variable req : PartListUnion.

Lemma feed_app (pre rest : list StreamStep) (st : RunState) :
  feed env req (pre ++ rest) st =
  match feed env req pre st with
  | Running st' => feed env req rest st'
  | Finished st' e => Finished st' e
  end.
Proof.
  revert st. induction pre as [|s pre IH]; intros st; cbn [app feed].
  - reflexivity.
  - destruct (step env req s st) as [st'|st' e]; [apply IH|reflexivity].
Qed.

Lemma requests_from_cons (n : nat) (f : FunctionCall)
    (calls : list FunctionCall) :
  requests_from env n (f :: calls) =
  toolCallRequest env n f :: requests_from env (S n) calls.
Proof.
  unfold requests_from. rewrite imap_cons. f_equal.
  - f_equal. lia.
  - apply imap_ext. intros i x _. cbn. f_equal. lia.
Qed.

Lemma requests_from_app (n : nat) (l1 l2 : list FunctionCall) :
  requests_from env n (l1 ++ l2) =
  requests_from env n l1 ++ requests_from env (n + length l1) l2.
Proof.
  unfold requests_from. rewrite imap_app. f_equal.
  apply imap_ext. intros i x _. f_equal. lia.
Qed.

Lemma length_requests_from (n : nat) (calls : list FunctionCall) :
  length (requests_from env n calls) = length calls.
Proof. apply length_imap. Qed.

(** The inner loop over the function calls of a chunk. *)
Lemma handle_calls (calls : list FunctionCall) (st : RunState) :
  let st' :=
    foldl (fun st fnCall => handlePendingFunctionCall env fnCall st) st calls in
  pendingToolCalls (turn st') =
    pendingToolCalls (turn st) ++
    requests_from env (length (pendingToolCalls (turn st))) calls /\
  yielded st' =
    yielded st ++
    (ToolCallRequest <$>
       requests_from env (length (pendingToolCalls (turn st))) calls) /\
  debugResponses (turn st') = debugResponses (turn st) /\
  aborted st' = aborted st /\
  reported st' = reported st.
Proof.
  revert st. induction calls as [|f calls IH]; intros st; cbn [foldl].
  - cbn. rewrite !app_nil_r. repeat split.
  - destruct (IH (handlePendingFunctionCall env f st))
      as (Hp & Hy & Hd & Ha & Hr).
    cbv zeta. rewrite Hp, Hy, Hd, Ha, Hr.
    rewrite requests_from_cons. cbn [handlePendingFunctionCall
      push_pendingToolCall yield turn yielded pendingToolCalls
      debugResponses aborted reported].
    rewrite length_app. cbn [length].
    replace (length (pendingToolCalls (turn st)) + 1)%nat
      with (S (length (pendingToolCalls (turn st)))) by lia.
    rewrite <- !app_assoc. cbn [app fmap list_fmap]. repeat split.
Qed.

(** What one chunk does to a run whose signal is not set. *)
Lemma process_chunk_effect (resp : GenerateContentResponse) (st : RunState) :
  let st' := process_chunk env resp st in
  exists evs,
    yielded st' = yielded st ++ evs /\
    Forall nonterminal evs /\
    omap request_of evs =
      requests_from env (length (pendingToolCalls (turn st)))
        (chunk_calls resp) /\
    pendingToolCalls (turn st') =
      pendingToolCalls (turn st) ++
      requests_from env (length (pendingToolCalls (turn st)))
        (chunk_calls resp) /\
    debugResponses (turn st') = debugResponses (turn st) ++ [resp] /\
    aborted st' = aborted st /\
    reported st' = reported st.
Proof.
  cbv zeta. unfold process_chunk, chunk_calls, is_thought_chunk.
  assert (forall calls n,
            omap request_of (ToolCallRequest <$> requests_from env n calls) =
            requests_from env n calls) as Hreq.
  { intros calls n. induction (requests_from env n calls) as [|r l IHl];
      [reflexivity|]. cbn. f_equal. exact IHl. }
  assert (forall l : list ToolCallRequestInfo,
            Forall nonterminal (ToolCallRequest <$> l)) as Hnt.
  { intros l. induction l; constructor; [split; reflexivity|assumption]. }
  assert (forall st0,
    let st' :=
      foldl (fun st fnCall => handlePendingFunctionCall env fnCall st)
        (match getResponseText env resp with
         | Some text =>
             if String.eqb text EmptyString then st0
             else yield (Content text) st0
         | None => st0
         end) (default [] (functionCalls resp)) in
    exists evs,
      yielded st' = yielded st0 ++ evs /\
      Forall nonterminal evs /\
      omap request_of evs =
        requests_from env (length (pendingToolCalls (turn st0)))
          (default [] (functionCalls resp)) /\
      pendingToolCalls (turn st') =
        pendingToolCalls (turn st0) ++
        requests_from env (length (pendingToolCalls (turn st0)))
          (default [] (functionCalls resp)) /\
      debugResponses (turn st') = debugResponses (turn st0) /\
      aborted st' = aborted st0 /\
      reported st' = reported st0) as Hplain.
  { intros st0. cbv zeta.
    set (calls := default [] (functionCalls resp)).
    destruct (getResponseText env resp) as [text|];
      [destruct (String.eqb text EmptyString)|].
    1, 3: destruct (handle_calls calls st0) as (Hp & Hy & Hd & Ha & Hr);
      eexists; split; [exact Hy|]; rewrite Hreq; auto 10.
    destruct (handle_calls calls (yield (Content text) st0))
      as (Hp & Hy & Hd & Ha & Hr).
    cbn [yield turn yielded aborted reported] in Hp, Hy, Hd, Ha, Hr.
    exists (Content text ::
            (ToolCallRequest <$>
               requests_from env (length (pendingToolCalls (turn st0))) calls)).
    split; [rewrite Hy, <- app_assoc; reflexivity|].
    split; [constructor; [split; reflexivity|apply Hnt]|].
    split; [cbn [omap list_omap request_of]; apply Hreq|].
    auto. }
  destruct (thoughtPart resp) as [[[[|]|] rawText]|].
  2-4: destruct (Hplain (push_debugResponse resp st))
         as (evs & Hy & Hn & Ho & Hp & Hd & Ha & Hr);
       exists evs; auto 10.
  exists [Thought (thoughtSummary (default EmptyString rawText))].
  cbn. rewrite app_nil_r.
  repeat split. constructor; [split; reflexivity|constructor].
Qed.

Lemma run_from_cons (s : StreamStep) (steps : list StreamStep)
    (st : RunState) :
  run_from env req (s :: steps) st =
  match step env req s st with
  | Running st' => run_from env req steps st'
  | Finished st' e => (st', e)
  end.
Proof.
  unfold run_from. cbn [feed].
  destruct (step env req s st); reflexivity.
Qed.

Lemma step_running (s : StreamStep) (st st' : RunState) :
  step env req s st = Running st' ->
  (s = Aborts /\ st' = abort st) \/
  (exists resp,
     s = Yields resp /\ aborted st = false /\
     st' = process_chunk env resp st).
Proof.
  destruct s as [resp| |e]; cbn [step].
  - destruct (aborted st) eqn:Ha; [discriminate|].
    intros [= <-]. right. eauto.
  - intros [= <-]. left. split; reflexivity.
  - unfold catch_block.
    destruct (instanceof_UnauthorizedError env _); [discriminate|].
    destruct (aborted st); discriminate.
Qed.

Lemma step_in_loop (s : StreamStep) (st st' : RunState) :
  in_loop st -> step env req s st = Running st' -> in_loop st'.
Proof.
  intros [Hrep Hyld] Hstep.
  destruct (step_running s st st' Hstep)
    as [[_ ->] | (resp & _ & _ & ->)].
  - split; assumption.
  - destruct (process_chunk_effect resp st)
      as (evs & Hy & Hn & _ & _ & _ & _ & Hr).
    split; [congruence|]. rewrite Hy. apply Forall_app. split; assumption.
Qed.

Lemma feed_in_loop (steps : list StreamStep) (st st' : RunState) :
  in_loop st -> feed env req steps st = Running st' -> in_loop st'.
Proof.
  revert st. induction steps as [|s steps IH]; intros st Hin; cbn [feed].
  - intros [= <-]. exact Hin.
  - destruct (step env req s st) as [st1|st1 e] eqn:Hstep; [|discriminate].
    apply IH. exact (step_in_loop s st st1 Hin Hstep).
Qed.

Lemma start_in_loop (signal_aborted : bool) : in_loop (start signal_aborted).
Proof. split; [reflexivity|constructor]. Qed.

Lemma filter_nonterminal (l : list ServerAgentStreamEvent) :
  Forall nonterminal l ->
  List.filter is_UserCancelled l = [] /\ List.filter is_Error l = [].
Proof.
  induction 1 as [|ev l [Hc He] _ [IHc IHe]]; [split; reflexivity|].
  cbn [List.filter]. rewrite Hc, He. split; assumption.
Qed.

(** The pending calls and the requests yielded by a run are those of the
    entries it processes, in their order. *)
Lemma run_from_calls (steps : list StreamStep) (st : RunState) :
  let final := fst (run_from env req steps st) in
  let made :=
    requests_from env (length (pendingToolCalls (turn st)))
      (processed_calls steps (aborted st)) in
  pendingToolCalls (turn final) = pendingToolCalls (turn st) ++ made /\
  omap request_of (yielded final) = omap request_of (yielded st) ++ made.
Proof.
  cbv zeta. revert st.
  induction steps as [|s steps IH]; intros st.
  - cbn. rewrite !app_nil_r. split; reflexivity.
  - rewrite run_from_cons. destruct s as [resp| |e]; cbn [step processed_calls].
    + destruct (aborted st) eqn:Ha.
      * cbn. rewrite omap_app, !app_nil_r. split; reflexivity.
      * destruct (process_chunk_effect resp st)
          as (evs & Hy & _ & Ho & Hp & _ & Hab & _).
        destruct (IH (process_chunk env resp st)) as [IHp IHy].
        rewrite IHp, IHy, Hab, Ha, Hp, Hy, omap_app, Ho.
        rewrite requests_from_app, length_app, length_requests_from.
        rewrite <- !app_assoc. split; reflexivity.
    + destruct (IH (abort st)) as [IHp IHy]. rewrite IHp, IHy.
      split; reflexivity.
    + unfold catch_block.
      destruct (instanceof_UnauthorizedError env _);
        [|destruct (aborted st)]; cbn;
        rewrite ?omap_app, !app_nil_r; split; reflexivity.
Qed.

End TurnLemmas.

(** ** Synthesized call ids *)

Section CallIds.
Import Turn.

Lemma append_nil (b : string) : EmptyString +:+ b = b.
Proof. reflexivity. Qed.

Lemma append_cons (x : ascii) (a b : string) :
  String x a +:+ b = String x (a +:+ b).
Proof. reflexivity. Qed.

Lemma string_app_assoc (a b c : string) :
  (a +:+ b) +:+ c = a +:+ (b +:+ c).
Proof.
  induction a as [|x a IH]; [reflexivity|].
  rewrite !append_cons. f_equal. exact IH.
Qed.

Lemma no_dash_app (a b : string) :
  no_dash (a +:+ b) = no_dash a && no_dash b.
Proof.
  induction a as [|x a IH]; [reflexivity|].
  rewrite append_cons. cbn [no_dash]. rewrite IH. apply andb_assoc.
Qed.

(** A string that holds a dash is not dash-free. *)
Lemma no_dash_with_dash (x a : string) :
  no_dash (x +:+ String "-" a) = false.
Proof.
  rewrite no_dash_app. cbn [no_dash].
  change (Ascii.eqb "-" "-") with true. cbn [negb andb].
  apply andb_false_r.
Qed.

Lemma cut_at_dash (x y a b : string) :
  no_dash a = true -> no_dash b = true ->
  x +:+ String "-" a = y +:+ String "-" b ->
  x = y /\ a = b.
Proof.
  intros Ha Hb. revert y.
  induction x as [|c x IH]; intros [|d y];
    rewrite ?append_nil, ?append_cons; intros Heq.
  - injection Heq as ->. split; reflexivity.
  - injection Heq as <- ->.
    rewrite no_dash_with_dash in Ha. discriminate.
  - injection Heq as -> <-.
    rewrite no_dash_with_dash in Hb. discriminate.
  - injection Heq as -> Heq. destruct (IH y Heq) as [-> ->].
    split; reflexivity.
Qed.

(** Cutting at the last dash: the part after it is dash-free. *)
Lemma cut_at_last_dash (x y a b : string) :
  no_dash a = true -> no_dash b = true ->
  x +:+ "-" +:+ a = y +:+ "-" +:+ b ->
  x = y /\ a = b.
Proof. exact (cut_at_dash x y a b). Qed.

Lemma hex_string_no_dash (s : string) :
  hex_string s = true -> no_dash s = true.
Proof.
  induction s as [|a s IH]; cbn; [reflexivity|].
  intros [Ha Hs]%andb_true_iff. rewrite (IH Hs), andb_true_r.
  destruct (Ascii.eqb_spec a "-") as [->|]; [discriminate Ha|reflexivity].
Qed.

Lemma uint_digits_no_dash (d : Decimal.uint) :
  no_dash (NilEmpty.string_of_uint d) = true.
Proof. induction d; cbn; auto. Qed.

Lemma Z_to_string_no_dash (n : Z) :
  0 <= n -> no_dash (Z_to_string n) = true.
Proof.
  intros Hn. unfold Z_to_string.
  destruct n as [|p|p]; [reflexivity| |lia].
  cbn [Z.to_int NilZero.string_of_int]. unfold NilZero.string_of_uint.
  destruct (Pos.to_uint p); try reflexivity; apply uint_digits_no_dash.
Qed.

Lemma Z_to_string_inj (n m : Z) :
  Z_to_string n = Z_to_string m -> n = m.
Proof.
  unfold Z_to_string. intros Heq.
  assert (forall z, Z.to_int z <> Decimal.Pos Decimal.Nil /\
                    Z.to_int z <> Decimal.Neg Decimal.Nil) as Hnil.
  { intros [|p|p]; cbn; split; try discriminate;
      intros [= H]; exact (DecimalPos.Unsigned.to_uint_nonnil p H). }
  apply (f_equal NilZero.int_of_string) in Heq.
  rewrite !NilZero.isi in Heq by apply Hnil.
  injection Heq as Heq.
  rewrite <- (DecimalZ.of_to n), <- (DecimalZ.of_to m). by rewrite Heq.
Qed.

(** A synthesized id determines the name, the time and the suffix it was
    made of. *)
Lemma synthesized_callId_inj (n1 n2 : option string) (t1 t2 : Z)
    (r1 r2 : string) :
  0 <= t1 -> 0 <= t2 -> hex_string r1 = true -> hex_string r2 = true ->
  synthesized_callId n1 t1 r1 = synthesized_callId n2 t2 r2 ->
  default "undefined" n1 = default "undefined" n2 /\ t1 = t2 /\ r1 = r2.
Proof.
  intros Ht1 Ht2 Hr1 Hr2. unfold synthesized_callId.
  set (a1 := default "undefined" n1). set (a2 := default "undefined" n2).
  intros Heq.
  rewrite <- (string_app_assoc a1 "-" (Z_to_string t1 +:+ "-" +:+ r1)) in Heq.
  rewrite <- (string_app_assoc (a1 +:+ "-") (Z_to_string t1)) in Heq.
  rewrite <- (string_app_assoc a2 "-" (Z_to_string t2 +:+ "-" +:+ r2)) in Heq.
  rewrite <- (string_app_assoc (a2 +:+ "-") (Z_to_string t2)) in Heq.
  apply cut_at_last_dash in Heq as [Heq ->];
    [|by apply hex_string_no_dash..].
  rewrite !string_app_assoc in Heq.
  apply cut_at_last_dash in Heq as [-> Heq];
    [|by apply Z_to_string_no_dash..].
  apply Z_to_string_inj in Heq. auto.
Qed.

End CallIds.

(** ** Properties of Turn.run *)

Section TurnProperties.
Import Turn.

(** C1. If the signal is set when [run] is about to process a chunk,
    [run] yields UserCancelled after the events of the earlier chunks
    and returns: nothing is yielded for that chunk or a later one
    (whatever [rest] is), there is exactly one UserCancelled event, and
    [debugResponses], [pendingToolCalls] and the events yielded so far
    are as the earlier chunks left them. *)
Theorem C1_cancelled_before_chunk
    (env : Collaborators) (req : PartListUnion) (signal_aborted : bool)
    (pre rest : list StreamStep) (resp : GenerateContentResponse)
    (st1 : RunState) :
  feed env req pre (start signal_aborted) = Running st1 ->
  aborted st1 = true ->
  let final := run env req signal_aborted (pre ++ Yields resp :: rest) in
  snd final = Returned /\
  yielded (fst final) = yielded st1 ++ [UserCancelled] /\
  length (List.filter is_UserCancelled (yielded (fst final))) = 1%nat /\
  List.filter is_Error (yielded (fst final)) = [] /\
  getDebugResponses (turn (fst final)) = getDebugResponses (turn st1) /\
  pendingToolCalls (turn (fst final)) = pendingToolCalls (turn st1) /\
  reported (fst final) = [] /\
  run env req signal_aborted pre = (st1, Returned).
Proof.
  intros Hfeed Hab. cbv zeta. unfold run, run_from.
  rewrite feed_app, Hfeed. cbn [feed step]. rewrite Hab.
  destruct (feed_in_loop env req pre _ st1 (start_in_loop signal_aborted)
              Hfeed) as [Hrep Hyld].
  destruct (filter_nonterminal _ Hyld) as [Hc He].
  cbn [fst snd yield yielded turn reported].
  rewrite !List.filter_app, Hc, He.
  repeat split; assumption.
Qed.

Lemma C1_cancelled_before_chunk_witness :
  let st1 :=
    abort (process_chunk sample_env (text_chunk "First part") (start false)) in
  let final :=
    run sample_env sample_req false
      ([Yields (text_chunk "First part"); Aborts] ++
       Yields (text_chunk "Second part - should not be processed") :: []) in
  feed sample_env sample_req [Yields (text_chunk "First part"); Aborts]
    (start false) = Running st1 /\
  aborted st1 = true /\
  yielded (fst final) = [Content "First part"] ++ [UserCancelled] /\
  getDebugResponses (turn (fst final)) = [text_chunk "First part"].
Proof.
  cbv zeta.
  assert (feed sample_env sample_req
            [Yields (text_chunk "First part"); Aborts] (start false) =
          Running
            (abort (process_chunk sample_env (text_chunk "First part")
                      (start false)))) as Hfeed by reflexivity.
  assert (aborted
            (abort (process_chunk sample_env (text_chunk "First part")
                      (start false))) = true) as Hab by reflexivity.
  pose proof (C1_cancelled_before_chunk sample_env sample_req false
                [Yields (text_chunk "First part"); Aborts] []
                (text_chunk "Second part - should not be processed")
                _ Hfeed Hab) as (_ & Hy & _ & _ & Hd & _).
  exact (conj Hfeed (conj Hab (conj Hy Hd))).
Defined.

Lemma status_of_number (error : Thrown) (n : Z) :
  status_of error = Some n <->
  exists ctor props,
    error = ThrownObject ctor props /\ props !! "status" = Some (JNum n).
Proof.
  split.
  - destruct error as [v|ctor props]; cbn; [discriminate|].
    destruct (props !! "status") as [[| | m | | |]|] eqn:Hs; try discriminate.
    intros [= ->]. eauto.
  - intros (ctor & props & -> & Hs). cbn. rewrite Hs. reflexivity.
Qed.

(** C2. When the stream call fails after the steps [pre], with [error]
    the translated error: if [error] is an UnauthorizedError, [run]
    throws it and yields nothing more; otherwise, if the signal is not
    set, [run] reports once, with the curated history followed by the
    request, yields one Error event with the error's message and its
    numeric status if it has one, and returns; otherwise (signal set) it
    yields UserCancelled instead, reports nothing, and returns. *)
Theorem C2_stream_call_fails
    (env : Collaborators) (req : PartListUnion) (signal_aborted : bool)
    (pre rest : list StreamStep) (e : Thrown) (st1 : RunState) :
  feed env req pre (start signal_aborted) = Running st1 ->
  let error := toFriendlyError env e in
  let final := run env req signal_aborted (pre ++ Throws e :: rest) in
  (instanceof_UnauthorizedError env error = true ->
   final = (st1, Threw error) /\
   List.filter is_Error (yielded (fst final)) = [] /\
   reported (fst final) = []) /\
  (instanceof_UnauthorizedError env error = false ->
   aborted st1 = false ->
   snd final = Returned /\
   reported (fst final) =
     [ {| rp_error := error;
          rp_baseMessage := "Error when talking to Agent API";
          rp_context := (HistoryItem <$> getHistory env) ++ [RequestItem req];
          rp_type := "Turn.run-sendMessageStream" |} ] /\
   yielded (fst final) =
     yielded st1 ++
     [Error {| message := getErrorMessage env error;
               status := status_of error |}] /\
   length (List.filter is_Error (yielded (fst final))) = 1%nat /\
   List.filter is_UserCancelled (yielded (fst final)) = [] /\
   (forall n,
      status_of error = Some n <->
      exists ctor props,
        error = ThrownObject ctor props /\
        props !! "status" = Some (JNum n))) /\
  (instanceof_UnauthorizedError env error = false ->
   aborted st1 = true ->
   snd final = Returned /\
   yielded (fst final) = yielded st1 ++ [UserCancelled] /\
   List.filter is_Error (yielded (fst final)) = [] /\
   reported (fst final) = []).
Proof.
  intros Hfeed. cbv zeta. unfold run, run_from.
  rewrite feed_app, Hfeed. cbn [feed step]. unfold catch_block.
  destruct (feed_in_loop env req pre _ st1 (start_in_loop signal_aborted)
              Hfeed) as [Hrep Hyld].
  destruct (filter_nonterminal _ Hyld) as [Hc He].
  split; [|split].
  - intros ->. cbn. auto.
  - intros -> ->. cbn [fst snd yield reportError yielded reported].
    rewrite !List.filter_app, Hc, He, Hrep.
    repeat split; try apply status_of_number.
  - intros -> ->. cbn [fst snd yield yielded reported].
    rewrite !List.filter_app, He.
    repeat split. exact Hrep.
Qed.

Lemma C2_stream_call_fails_witness :
  let e := new_Error "Error" "API Error" in
  let st1 := process_chunk sample_env (text_chunk "Hello") (start false) in
  let final :=
    run sample_env sample_req false
      ([Yields (text_chunk "Hello")] ++ Throws e :: []) in
  feed sample_env sample_req [Yields (text_chunk "Hello")] (start false) =
    Running st1 /\
  instanceof_UnauthorizedError sample_env (toFriendlyError sample_env e) =
    false /\
  aborted st1 = false /\
  yielded (fst final) =
    yielded st1 ++
    [Error {| message :=
                getErrorMessage sample_env (toFriendlyError sample_env e);
              status := status_of (toFriendlyError sample_env e) |}] /\
  length (reported (fst final)) = 1%nat.
Proof.
  cbv zeta.
  assert (feed sample_env sample_req [Yields (text_chunk "Hello")]
            (start false) =
          Running (process_chunk sample_env (text_chunk "Hello")
                     (start false))) as Hfeed by reflexivity.
  assert (instanceof_UnauthorizedError sample_env
            (toFriendlyError sample_env (new_Error "Error" "API Error")) =
          false) as Hauth by reflexivity.
  assert (aborted (process_chunk sample_env (text_chunk "Hello")
                     (start false)) = false) as Hab by reflexivity.
  pose proof (C2_stream_call_fails sample_env sample_req false
                [Yields (text_chunk "Hello")] []
                (new_Error "Error" "API Error") _ Hfeed)
    as (_ & Herr & _).
  destruct (Herr Hauth Hab) as (_ & Hrep & Hy & _).
  refine (conj Hfeed (conj Hauth (conj Hab (conj Hy _)))).
  rewrite Hrep. reflexivity.
Defined.

(** Every processed entry has its request, at the same position, in
    [pendingToolCalls] and among the yielded ToolCallRequest events. *)
Lemma run_requests (env : Collaborators) (req : PartListUnion)
    (signal_aborted : bool) (steps : list StreamStep) :
  let final := fst (run env req signal_aborted steps) in
  let calls := processed_calls steps signal_aborted in
  pendingToolCalls (turn final) = imap (toolCallRequest env) calls /\
  omap request_of (yielded final) = pendingToolCalls (turn final).
Proof.
  cbv zeta. unfold run.
  destruct (run_from_calls env req steps (start signal_aborted)) as [Hp Hy].
  cbn in Hp, Hy. rewrite Hp, Hy. split; reflexivity.
Qed.

(** C8. Every function-call entry that [run] processes has a request, in
    [pendingToolCalls] and in a yielded ToolCallRequest event; if the
    entry has no name the request's name is "undefined_tool_name", and if
    it has no args the request's args are the empty mapping. *)
Theorem C8_missing_name_and_args
    (env : Collaborators) (req : PartListUnion) (signal_aborted : bool)
    (steps : list StreamStep) (k : nat) (fnCall : FunctionCall) :
  let final := fst (run env req signal_aborted steps) in
  processed_calls steps signal_aborted !! k = Some fnCall ->
  exists r,
    pendingToolCalls (turn final) !! k = Some r /\
    omap request_of (yielded final) !! k = Some r /\
    (name fnCall = None -> rq_name r = "undefined_tool_name") /\
    (args fnCall = None -> rq_args r = ∅).
Proof.
  cbv zeta. intros Hk.
  destruct (run_requests env req signal_aborted steps) as [Hp Hy].
  cbv zeta in Hp, Hy. rewrite Hy, Hp, list_lookup_imap, Hk.
  exists (toolCallRequest env k fnCall).
  split; [reflexivity|]. split; [reflexivity|].
  unfold toolCallRequest. cbn [rq_name rq_args].
  split; intros ->; reflexivity.
Qed.

Lemma C8_missing_name_and_args_witness :
  let final :=
    fst (run sample_env sample_req false [Yields same_name_chunk]) in
  let fnCall := {| id := Some "fc3"; name := None; args := None |} in
  processed_calls [Yields same_name_chunk] false !! 2%nat = Some fnCall /\
  name fnCall = None /\
  args fnCall = None /\
  exists r,
    pendingToolCalls (turn final) !! 2%nat = Some r /\
    rq_name r = "undefined_tool_name" /\
    rq_args r = ∅.
Proof.
  cbv zeta.
  assert (processed_calls [Yields same_name_chunk] false !! 2%nat =
          Some {| id := Some "fc3"; name := None; args := None |}) as Hk
    by reflexivity.
  destruct (C8_missing_name_and_args sample_env sample_req false
              [Yields same_name_chunk] 2
              {| id := Some "fc3"; name := None; args := None |} Hk)
    as (r & Hp & _ & Hname & Hargs).
  refine (conj Hk (conj eq_refl (conj eq_refl _))).
  exists r. exact (conj Hp (conj (Hname eq_refl) (Hargs eq_refl))).
Defined.

(** C6 (as amended). The requests of a run are appended to
    [pendingToolCalls], and yielded, in the order in which the entries
    appear in their chunks; an entry's call id is the provider's id when
    there is one and the synthesized name-time-suffix otherwise; so two
    requests have different call ids when their entries carry different
    provider ids, and when both entries carry none and differ in name,
    clock reading or random suffix (two calls of one name in one chunk:
    in clock reading or suffix). *)
Theorem C6_callIds_and_order
    (env : Collaborators) (req : PartListUnion) (signal_aborted : bool)
    (steps : list StreamStep) :
  let final := fst (run env req signal_aborted steps) in
  let calls := processed_calls steps signal_aborted in
  pendingToolCalls (turn final) = imap (toolCallRequest env) calls /\
  omap request_of (yielded final) = pendingToolCalls (turn final) /\
  forall i j fi fj,
    calls !! i = Some fi -> calls !! j = Some fj ->
    exists ri rj,
      pendingToolCalls (turn final) !! i = Some ri /\
      pendingToolCalls (turn final) !! j = Some rj /\
      (forall a b,
         id fi = Some a -> id fj = Some b -> a <> b ->
         callId ri <> callId rj) /\
      (id fi = None -> id fj = None ->
       plausible_draw env i -> plausible_draw env j ->
       (default "undefined" (name fi), Date_now env i, random_hex env i) <>
       (default "undefined" (name fj), Date_now env j, random_hex env j) ->
       callId ri <> callId rj) /\
      (id fi = None -> id fj = None -> name fi = name fj ->
       plausible_draw env i -> plausible_draw env j ->
       (Date_now env i, random_hex env i) <>
       (Date_now env j, random_hex env j) ->
       callId ri <> callId rj).
Proof.
  cbv zeta.
  destruct (run_requests env req signal_aborted steps) as [Hp Hy].
  cbv zeta in Hp, Hy.
  split; [exact Hp|]. split; [exact Hy|].
  intros i j fi fj Hi Hj.
  exists (toolCallRequest env i fi), (toolCallRequest env j fj).
  rewrite Hp, !list_lookup_imap, Hi, Hj.
  split; [reflexivity|]. split; [reflexivity|].
  assert (id fi = None -> id fj = None ->
          plausible_draw env i -> plausible_draw env j ->
          (default "undefined" (name fi), Date_now env i, random_hex env i) <>
          (default "undefined" (name fj), Date_now env j, random_hex env j) ->
          callId (toolCallRequest env i fi) <>
          callId (toolCallRequest env j fj)) as Hsynth.
  { intros Hfi Hfj [Hti Hri] [Htj Hrj] Hne Heq.
    unfold toolCallRequest in Heq. cbn [callId] in Heq.
    rewrite Hfi, Hfj in Heq.
    apply synthesized_callId_inj in Heq as (Hn & Ht & Hr); try assumption.
    apply Hne. congruence. }
  split; [|split].
  - intros a b Ha Hb Hab. unfold toolCallRequest. cbn [callId].
    rewrite Ha, Hb. exact Hab.
  - exact Hsynth.
  - intros Hfi Hfj Hname Hdi Hdj Hne.
    apply Hsynth; try assumption.
    intros Heq. apply Hne. congruence.
Qed.

Lemma C6_callIds_and_order_witness :
  let final :=
    fst (run sample_env sample_req false [Yields same_name_chunk]) in
  let f0 :=
    {| id := None; name := Some "tool2";
       args := Some {[ "arg2" := JStr "val2" ]} |} in
  let f1 := {| id := None; name := Some "tool2"; args := None |} in
  processed_calls [Yields same_name_chunk] false !! 0%nat = Some f0 /\
  processed_calls [Yields same_name_chunk] false !! 1%nat = Some f1 /\
  plausible_draw sample_env 0 /\
  plausible_draw sample_env 1 /\
  (Date_now sample_env 0, random_hex sample_env 0) <>
  (Date_now sample_env 1, random_hex sample_env 1) /\
  exists r0 r1,
    pendingToolCalls (turn final) !! 0%nat = Some r0 /\
    pendingToolCalls (turn final) !! 1%nat = Some r1 /\
    callId r0 <> callId r1.
Proof.
  cbv zeta.
  assert (processed_calls [Yields same_name_chunk] false !! 0%nat =
          Some {| id := None; name := Some "tool2";
                  args := Some {[ "arg2" := JStr "val2" ]} |}) as H0
    by reflexivity.
  assert (processed_calls [Yields same_name_chunk] false !! 1%nat =
          Some {| id := None; name := Some "tool2"; args := None |}) as H1
    by reflexivity.
  assert (plausible_draw sample_env 0) as Hd0
    by (split; [vm_compute; discriminate|reflexivity]).
  assert (plausible_draw sample_env 1) as Hd1
    by (split; [vm_compute; discriminate|reflexivity]).
  assert ((Date_now sample_env 0, random_hex sample_env 0) <>
          (Date_now sample_env 1, random_hex sample_env 1)) as Hne
    by (vm_compute; discriminate).
  destruct (C6_callIds_and_order sample_env sample_req false
              [Yields same_name_chunk]) as (_ & _ & Hpair).
  destruct (Hpair 0%nat 1%nat _ _ H0 H1) as (r0 & r1 & Hp0 & Hp1 & _ & _ & Hs).
  refine (conj H0 (conj H1 (conj Hd0 (conj Hd1 (conj Hne _))))).
  exists r0, r1.
  exact (conj Hp0 (conj Hp1 (Hs eq_refl eq_refl eq_refl Hd0 Hd1 Hne))).
Defined.

(** C6 as stated fails: two entries of one chunk with the provider id
    "fc1" give two ToolCallRequest events, and two pending calls, with
    the same call id. *)
Lemma C6_counterexample_repeated_provider_id :
  let final :=
    fst (run sample_env sample_req false [Yields repeated_id_chunk]) in
  exists r0 r1,
    yielded final = [ToolCallRequest r0; ToolCallRequest r1] /\
    pendingToolCalls (turn final) = [r0; r1] /\
    callId r0 = "fc1" /\
    callId r1 = "fc1" /\
    callId r0 = callId r1.
Proof.
  cbv zeta. eexists _, _. repeat split.
Qed.

End TurnProperties.

(** ** The cases of the repository's tests, replayed on the model *)

Section ReplayedTests.
Import Turn.

Example run_yields_content_for_text_parts :
  let r :=
    run sample_env sample_req false
      [Yields (text_chunk "Hello"); Yields (text_chunk " world")] in
  yielded (fst r) = [Content "Hello"; Content " world"] /\
  length (getDebugResponses (turn (fst r))) = 2%nat /\
  snd r = Returned.
Proof. repeat split. Qed.

Example run_yields_requests_for_function_calls :
  let r := run sample_env sample_req false [Yields same_name_chunk] in
  callId <$> pendingToolCalls (turn (fst r)) =
    [ "tool2-1700000000000-8c3f1a2b9d0";
      "tool2-1700000000001-8c3f1a2b9d1";
      "fc3" ] /\
  rq_name <$> pendingToolCalls (turn (fst r)) =
    [ "tool2"; "tool2"; "undefined_tool_name" ] /\
  length (getDebugResponses (turn (fst r))) = 1%nat.
Proof. vm_compute. repeat split. Qed.

(** With equal clock readings and equal random suffixes, two calls of one
    name without id get one call id: the synthesized ids differ only as
    far as the draws do. *)
Example equal_draws_give_equal_callIds :
  callId <$>
    pendingToolCalls
      (turn (fst (run frozen_env sample_req false [Yields same_name_chunk]))) =
  [ "tool2-1700000000000-8c3f1a2b9d";
    "tool2-1700000000000-8c3f1a2b9d";
    "fc3" ].
Proof. vm_compute. reflexivity. Qed.

Example run_reports_when_sendMessageStream_throws :
  let r :=
    run sample_env sample_req false [Throws (new_Error "Error" "API Error")] in
  yielded (fst r) = [Error {| message := "API Error"; status := None |}] /\
  rp_context <$> reported (fst r) =
    [ (HistoryItem <$> getHistory sample_env) ++ [RequestItem sample_req] ] /\
  getDebugResponses (turn (fst r)) = [].
Proof. repeat split. Qed.

Example run_rethrows_unauthorized :
  snd (run sample_env sample_req false
         [Throws (new_Error "UnauthorizedError" "401")]) =
  Threw (new_Error "UnauthorizedError" "401").
Proof. reflexivity. Qed.

Example thought_chunk_subject_and_description :
  thoughtSummary "**Plan** read the file first " =
  {| subject := "Plan"; description := "read the file first" |}.
Proof. reflexivity. Qed.

Example rate_limited_default_model_falls_back :
  fst (ModelCheck.getEffectiveModel busy_network "key" "agent-2.5-pro"
         ModelCheck.USE_AGENT None) = Normal "agent-2.5-flash".
Proof. reflexivity. Qed.

End ReplayedTests.

(** ** More on Turn.run: what a run logs, yields and leaves out *)

Section TurnRunStructure.
Import Turn.

Variable env : Collaborators.
Variable req : PartListUnion.

Lemma step_finished (s : StreamStep) (st st' : RunState) (e : Ending) :
  step env req s st = Finished st' e -> ended_from env st st' e.
Proof.
  destruct s as [resp| |thrown]; cbn [step].
  - destruct (aborted st) eqn:Ha; [|discriminate].
    intros [= <- <-]. by constructor.
  - discriminate.
  - unfold catch_block.
    destruct (instanceof_UnauthorizedError env _) eqn:Hu.
    + intros [= <- <-]. by constructor.
    + destruct (aborted st) eqn:Ha; intros [= <- <-]; by constructor.
Qed.

Lemma feed_finished (steps : list StreamStep) (st st' : RunState)
    (e : Ending) :
  in_loop st -> feed env req steps st = Finished st' e ->
  exists st1, in_loop st1 /\ ended_from env st1 st' e.
Proof.
  revert st. induction steps as [|s steps IH]; intros st Hin; cbn [feed].
  - discriminate.
  - destruct (step env req s st) as [st1|st1 e1] eqn:Hstep.
    + apply IH. exact (step_in_loop env req s st st1 Hin Hstep).
    + intros [= <- <-]. exists st. split; [exact Hin|].
      exact (step_finished s st st1 e1 Hstep).
Qed.

(** The chunks logged by a run are the chunks it processed. *)
Lemma run_from_debugResponses (steps : list StreamStep) (st : RunState) :
  debugResponses (turn (fst (run_from env req steps st))) =
  debugResponses (turn st) ++ processed_chunks steps (aborted st).
Proof.
  revert st. induction steps as [|s steps IH]; intros st.
  - cbn. by rewrite app_nil_r.
  - rewrite run_from_cons.
    destruct s as [resp| |e]; cbn [step processed_chunks].
    + destruct (aborted st) eqn:Ha.
      * cbn. by rewrite app_nil_r.
      * destruct (process_chunk_effect env resp st)
          as (evs & _ & _ & _ & _ & Hd & Hab & _).
        rewrite IH, Hd, Hab, Ha, <- app_assoc. reflexivity.
    + rewrite IH. reflexivity.
    + unfold catch_block.
      destruct (instanceof_UnauthorizedError env _);
        [|destruct (aborted st)]; cbn; by rewrite app_nil_r.
Qed.

End TurnRunStructure.

Section TurnRunProperties.
Import Turn.

(** X1. [getDebugResponses] after a run is the list of the chunks the run
    processed, in arrival order: every chunk read while the signal was
    not set, up to the first failure; the chunk that meets the set signal
    and the chunks after it are not in it. *)
Theorem X1_debugResponses_are_processed_chunks
    (env : Collaborators) (req : PartListUnion) (signal_aborted : bool)
    (steps : list StreamStep) :
  getDebugResponses (turn (fst (run env req signal_aborted steps))) =
  processed_chunks steps signal_aborted.
Proof.
  unfold run, getDebugResponses.
  rewrite run_from_debugResponses. reflexivity.
Qed.

(** X2. In every run a UserCancelled or Error event can only be the last
    event yielded; there are as many Error events as reports, at most
    one; a UserCancelled is yielded only with the signal set; and a run
    that throws has yielded no terminal event and reported nothing. *)
Theorem X2_terminal_event_is_last
    (env : Collaborators) (req : PartListUnion) (signal_aborted : bool)
    (steps : list StreamStep) :
  let final := fst (run env req signal_aborted steps) in
  let ending := snd (run env req signal_aborted steps) in
  (forall i ev,
     yielded final !! i = Some ev -> terminal ev = true ->
     S i = length (yielded final)) /\
  length (List.filter is_Error (yielded final)) = length (reported final) /\
  (length (reported final) <= 1)%nat /\
  (List.filter is_UserCancelled (yielded final) <> [] ->
   aborted final = true) /\
  (ending <> Returned ->
   Forall nonterminal (yielded final) /\ reported final = []).
Proof.
  cbv zeta. unfold run, run_from.
  pose proof (start_in_loop signal_aborted) as Hstart.
  assert (forall l i ev,
            Forall nonterminal l -> l !! i = Some ev -> terminal ev = false)
    as Hnt.
  { intros l i ev Hall Hi.
    destruct (proj1 (Forall_lookup _ _) Hall i ev Hi) as [Hc He].
    unfold terminal. by rewrite Hc, He. }
  assert (forall l ev' i ev,
            Forall nonterminal l -> (l ++ [ev']) !! i = Some ev ->
            terminal ev = true -> S i = length (l ++ [ev'])) as Hlast.
  { intros l ev' i ev Hall Hi Ht. rewrite length_app. cbn [length].
    destruct (lookup_app_Some l [ev'] i ev) as [Hcases _].
    destruct (Hcases Hi) as [Hl | [Hge Hr]].
    - rewrite (Hnt l i ev Hall Hl) in Ht. discriminate.
    - destruct (i - length l)%nat eqn:Hd; [lia|].
      destruct n; discriminate Hr. }
  destruct (feed env req steps (start signal_aborted)) as [st|st e] eqn:Hfeed.
  - destruct (feed_in_loop env req steps _ st Hstart Hfeed) as [Hrep Hyld].
    destruct (filter_nonterminal _ Hyld) as [Hc He].
    cbn [fst snd]. rewrite Hc, He, Hrep. repeat split; try done; try (cbn [length]; lia).
    intros i ev Hi Ht. rewrite (Hnt _ i ev Hyld Hi) in Ht. discriminate.
  - destruct (feed_finished env req steps _ st e Hstart Hfeed)
      as (st1 & [Hrep Hyld] & Hend).
    destruct (filter_nonterminal _ Hyld) as [Hc He].
    cbn [fst snd].
    destruct Hend as [st1 error Hu | st1 Hab | st1 report err Hab];
      cbn [yield reportError yielded reported aborted].
    + rewrite Hc, He, Hrep. repeat split; try done; try (cbn [length]; lia).
      intros i ev Hi Ht. rewrite (Hnt _ i ev Hyld Hi) in Ht. discriminate.
    + rewrite !List.filter_app, Hc, He, Hrep. cbn.
      repeat split; try done; try (cbn [length]; lia).
      intros i ev. by apply Hlast.
    + rewrite !List.filter_app, Hc, He, Hrep. cbn.
      repeat split; try done; try (cbn [length]; lia).
      intros i ev. by apply Hlast.
Qed.

(** A stream of chunks read with the signal unset is processed chunk by
    chunk; aborts after the last chunk only set the signal. *)
Lemma feed_chunks_then_aborts (env : Collaborators) (req : PartListUnion)
    (chunks : list GenerateContentResponse) (n : nat) (st : RunState) :
  aborted st = false ->
  exists st',
    feed env req ((Yields <$> chunks) ++ replicate n Aborts) st =
      Running st' /\
    turn st' =
      turn (foldl (fun st resp => process_chunk env resp st) st chunks) /\
    yielded st' =
      yielded (foldl (fun st resp => process_chunk env resp st) st chunks) /\
    reported st' = reported st /\
    aborted st' = bool_decide (n <> 0%nat).
Proof.
  revert st. induction chunks as [|resp chunks IH]; intros st Hab.
  - cbn [fmap list_fmap app foldl]. revert st Hab.
    induction n as [|n IHn]; intros st Hab.
    + exists st. cbn. rewrite Hab. repeat split.
    + cbn [replicate feed step].
      assert (forall m st0, aborted st0 = true ->
                feed env req (replicate m Aborts) st0 = Running st0) as Hrest.
      { clear. induction m as [|m IHm]; intros st0 H0; [reflexivity|].
        cbn [replicate feed step].
        replace (abort st0) with st0; [by apply IHm|].
        destruct st0; cbn in *; by subst. }
      rewrite Hrest by reflexivity.
      exists (abort st). repeat split.
  - cbn [fmap list_fmap app feed step foldl]. rewrite Hab.
    destruct (process_chunk_effect env resp st)
      as (evs & _ & _ & _ & _ & _ & Hab' & Hrep').
    destruct (IH (process_chunk env resp st)) as (st' & Hf & Ht & Hy & Hr & Ha);
      [congruence|].
    exists st'. repeat split; try assumption. congruence.
Qed.

(** X3. A signal that is set only after the last chunk has been read
    changes nothing: the run returns, every chunk is processed and
    logged, and no UserCancelled, no Error and no report is produced. *)
Theorem X3_abort_after_last_chunk_is_silent
    (env : Collaborators) (req : PartListUnion)
    (chunks : list GenerateContentResponse) (n : nat) :
  let r := run env req false ((Yields <$> chunks) ++ replicate n Aborts) in
  snd r = Returned /\
  fst (run env req false (Yields <$> chunks)) =
    {| turn := turn (fst r);
       aborted := false;
       yielded := yielded (fst r);
       reported := reported (fst r) |} /\
  Forall nonterminal (yielded (fst r)) /\
  reported (fst r) = [] /\
  getDebugResponses (turn (fst r)) = chunks.
Proof.
  cbv zeta. unfold run, run_from.
  destruct (feed_chunks_then_aborts env req chunks n (start false) eq_refl)
    as (st' & Hf & Ht & Hy & Hr & Ha).
  destruct (feed_chunks_then_aborts env req chunks 0 (start false) eq_refl)
    as (st0 & Hf0 & Ht0 & Hy0 & Hr0 & Ha0).
  cbn [replicate] in Hf0. rewrite app_nil_r in Hf0.
  rewrite Hf, Hf0. cbn [fst snd].
  destruct (feed_in_loop env req _ _ st' (start_in_loop false) Hf)
    as [Hrep Hyld].
  split; [reflexivity|]. split.
  { destruct st0 as [t0 a0 y0 r0].
    cbn [turn aborted yielded reported] in Ht0, Hy0, Hr0, Ha0.
    rewrite Ht, Hy, Hr, Ht0, Hy0, Hr0, Ha0. reflexivity. }
  split; [exact Hyld|]. split; [exact Hrep|].
  pose proof (run_from_debugResponses env req
                ((Yields <$> chunks) ++ replicate n Aborts) (start false))
    as Hdbg.
  unfold run_from in Hdbg. rewrite Hf in Hdbg. cbn [fst start] in Hdbg.
  unfold getDebugResponses. rewrite Hdbg. cbn [turn new_Turn debugResponses app].
  clear. induction chunks as [|c chunks IH]; cbn.
  - induction n; [reflexivity|]. cbn. clear IHn.
    induction n; [reflexivity|assumption].
  - f_equal. exact IH.
Qed.

Lemma process_text_only (env : Collaborators)
    (resp : GenerateContentResponse) (st : RunState) :
  text_only resp ->
  process_chunk env resp st =
  {| turn := {| pendingToolCalls := pendingToolCalls (turn st);
                debugResponses := debugResponses (turn st) ++ [resp] |};
     aborted := aborted st;
     yielded := yielded st ++ content_events env resp;
     reported := reported st |}.
Proof.
  intros [Hth Hcalls]. unfold process_chunk, content_events.
  unfold is_thought_chunk in Hth.
  destruct (thoughtPart resp) as [[[[|]|] rawText]|]; try discriminate Hth.
  all: rewrite Hcalls; cbn [foldl];
    destruct (getResponseText env resp) as [t|];
    [destruct (String.eqb t EmptyString)|];
    cbn; rewrite ?app_nil_r; reflexivity.
Qed.

Lemma text_only_fold (env : Collaborators)
    (chunks : list GenerateContentResponse) :
  Forall text_only chunks ->
  forall st,
    yielded (foldl (fun st resp => process_chunk env resp st) st chunks) =
      yielded st ++ (chunks ≫= content_events env) /\
    pendingToolCalls
      (turn (foldl (fun st resp => process_chunk env resp st) st chunks)) =
      pendingToolCalls (turn st).
Proof.
  induction 1 as [|resp chunks Hresp _ IH]; intros st.
  - cbn. by rewrite app_nil_r.
  - cbn [foldl]. destruct (IH (process_chunk env resp st)) as [IHy IHp].
    rewrite IHy, IHp, (process_text_only env resp st Hresp).
    cbn [yielded turn pendingToolCalls mbind list_bind].
    by rewrite <- app_assoc.
Qed.

(** X4. A stream of chunks that are no thoughts and carry no function
    call yields one Content event for each chunk whose text is not empty,
    in arrival order, and nothing else; no tool call is left pending. *)
Theorem X4_text_only_stream
    (env : Collaborators) (req : PartListUnion)
    (chunks : list GenerateContentResponse) :
  Forall text_only chunks ->
  let r := run env req false (Yields <$> chunks) in
  snd r = Returned /\
  yielded (fst r) = chunks ≫= content_events env /\
  pendingToolCalls (turn (fst r)) = [] /\
  List.filter is_ToolCallRequest (yielded (fst r)) = [].
Proof.
  intros Hall. cbv zeta. unfold run, run_from.
  destruct (feed_chunks_then_aborts env req chunks 0 (start false) eq_refl)
    as (st' & Hf & Ht & Hy & _ & _).
  cbn [replicate] in Hf. rewrite app_nil_r in Hf. rewrite Hf.
  cbn [fst snd]. rewrite Hy, Ht.
  pose proof (text_only_fold env chunks Hall) as Hfold.
  destruct (Hfold (start false)) as [-> ->]. cbn [start yielded app].
  repeat split.
  clear. induction chunks as [|resp chunks IH]; [reflexivity|].
  cbn [mbind list_bind]. rewrite List.filter_app, IH, app_nil_r.
  unfold content_events. destruct (getResponseText env resp) as [t|];
    [destruct (String.eqb t EmptyString)|]; reflexivity.
Qed.

Lemma X4_text_only_stream_witness :
  Forall text_only [text_chunk "Hello"; text_chunk EmptyString;
                    text_chunk " world"] /\
  yielded
    (fst (run sample_env sample_req false
            (Yields <$> [text_chunk "Hello"; text_chunk EmptyString;
                         text_chunk " world"]))) =
  [text_chunk "Hello"; text_chunk EmptyString; text_chunk " world"]
    ≫= content_events sample_env.
Proof.
  assert (Forall text_only [text_chunk "Hello"; text_chunk EmptyString;
                            text_chunk " world"]) as Hall
    by (repeat constructor).
  exact (conj Hall
           (proj1 (proj2 (X4_text_only_stream sample_env sample_req _ Hall)))).
Defined.

(** X5. A chunk whose first part is a thought gives one Thought event,
    made from that part's text, and is logged; its text gives no Content
    event and its function calls give no request, whatever they are. *)
Theorem X5_thought_chunk_drops_its_calls
    (env : Collaborators) (req : PartListUnion) (signal_aborted : bool)
    (pre : list StreamStep) (resp : GenerateContentResponse)
    (st1 : RunState) :
  feed env req pre (start signal_aborted) = Running st1 ->
  aborted st1 = false ->
  is_thought_chunk resp = true ->
  let r := run env req signal_aborted (pre ++ [Yields resp]) in
  snd r = Returned /\
  yielded (fst r) =
    yielded st1 ++ [Thought (thoughtSummary (thought_text resp))] /\
  pendingToolCalls (turn (fst r)) = pendingToolCalls (turn st1) /\
  getDebugResponses (turn (fst r)) =
    getDebugResponses (turn st1) ++ [resp].
Proof.
  intros Hfeed Hab Hth. cbv zeta. unfold run, run_from.
  rewrite feed_app, Hfeed. cbn [feed step]. rewrite Hab. cbn [fst snd].
  unfold process_chunk, thought_text. unfold is_thought_chunk in Hth.
  destruct (thoughtPart resp) as [[[[|]|] rawText]|]; try discriminate Hth.
  repeat split.
Qed.

Lemma X5_thought_chunk_drops_its_calls_witness :
  feed sample_env sample_req [] (start false) = Running (start false) /\
  aborted (start false) = false /\
  is_thought_chunk thought_with_call = true /\
  yielded (fst (run sample_env sample_req false ([] ++ [Yields thought_with_call]))) =
    yielded (start false) ++
    [Thought (thoughtSummary (thought_text thought_with_call))] /\
  pendingToolCalls
    (turn (fst (run sample_env sample_req false
                  ([] ++ [Yields thought_with_call])))) =
    pendingToolCalls (turn (start false)).
Proof.
  pose proof (X5_thought_chunk_drops_its_calls sample_env sample_req false []
                thought_with_call (start false) eq_refl eq_refl eq_refl)
    as (_ & Hy & Hp & _).
  exact (conj eq_refl (conj eq_refl (conj eq_refl (conj Hy Hp)))).
Defined.

(** X7. Every request that a run leaves in [pendingToolCalls] has a name
    that is not empty (an entry with an empty name gets the sentinel too)
    and is marked as not client initiated. *)
Theorem X7_requests_are_named
    (env : Collaborators) (req : PartListUnion) (signal_aborted : bool)
    (steps : list StreamStep) (r : ToolCallRequestInfo) :
  r ∈ pendingToolCalls (turn (fst (run env req signal_aborted steps))) ->
  rq_name r <> EmptyString /\ isClientInitiated r = false.
Proof.
  destruct (run_requests env req signal_aborted steps) as [Hp _].
  cbv zeta in Hp. rewrite Hp.
  intros (i & f & -> & _)%elem_of_lookup_imap.
  split; [|reflexivity].
  unfold toolCallRequest. cbn [rq_name].
  destruct (name f) as [n|]; [|discriminate].
  destruct (String.eqb_spec n EmptyString); [discriminate|assumption].
Qed.

Lemma X7_requests_are_named_witness :
  let r :=
    {| callId := "fc3"; rq_name := "undefined_tool_name"; rq_args := ∅;
       isClientInitiated := false |} in
  r ∈ pendingToolCalls
        (turn (fst (run sample_env sample_req false
                      [Yields same_name_chunk]))) /\
  rq_name r <> EmptyString.
Proof.
  cbv zeta.
  assert ({| callId := "fc3"; rq_name := "undefined_tool_name";
             rq_args := ∅; isClientInitiated := false |}
          ∈ pendingToolCalls
              (turn (fst (run sample_env sample_req false
                            [Yields same_name_chunk])))) as Hin.
  { apply list_elem_of_lookup. exists 2%nat. reflexivity. }
  exact (conj Hin
           (proj1 (X7_requests_are_named sample_env sample_req false _ _ Hin))).
Defined.

End TurnRunProperties.

(** ** Thought summaries *)

Section ThoughtSummaries.
Import Turn.

Lemma append_nil_r (s : string) : s +:+ EmptyString = s.
Proof.
  induction s as [|a s IH]; [reflexivity|].
  rewrite append_cons. by rewrite IH.
Qed.

Lemma length_append (a b : string) :
  String.length (a +:+ b) = (String.length a + String.length b)%nat.
Proof.
  induction a as [|x a IH]; [reflexivity|].
  rewrite append_cons. cbn [String.length]. by rewrite IH.
Qed.

Lemma substring_skip (p t : string) (n : nat) :
  substring (String.length p) n (p +:+ t) = substring 0 n t.
Proof.
  induction p as [|a p IH]; [reflexivity|].
  rewrite append_cons. cbn [String.length substring]. exact IH.
Qed.

Lemma substring_take (s t : string) :
  substring 0 (String.length s) (s +:+ t) = s.
Proof.
  induction s as [|a s IH].
  - rewrite append_nil. destruct t; reflexivity.
  - rewrite append_cons. cbn [String.length substring]. by rewrite IH.
Qed.

Lemma substring_all (t : string) : substring 0 (String.length t) t = t.
Proof.
  rewrite <- (append_nil_r t) at 2. apply substring_take.
Qed.

Lemma index_shift (p s t : string) (k : nat) :
  index (String.length p + k) s (p +:+ t) =
  (fun n => (String.length p + n)%nat) <$> index k s t.
Proof.
  induction p as [|a p IH].
  - rewrite append_nil. cbn [String.length Nat.add].
    destruct (index k s t); reflexivity.
  - rewrite append_cons. cbn [String.length Nat.add index]. rewrite IH.
    destruct (index k s t); reflexivity.
Qed.

Lemma prefix_bold (rest : string) :
  String.prefix "**" (String "*" (String "*" rest)) = true.
Proof.
  cbn [String.prefix]. destruct (ascii_dec "*" "*") as [_|Hne]; [|by destruct Hne].
  by destruct rest.
Qed.

Lemma index_bold_first (p rest : string) :
  no_asterisk p = true ->
  index 0 "**" (p +:+ "**" +:+ rest) = Some (String.length p).
Proof.
  induction p as [|a p IH]; intros Hp.
  - rewrite append_nil.
    change ("**" +:+ rest) with (String "*" (String "*" rest)).
    cbn [index String.length]. by rewrite prefix_bold.
  - cbn [no_asterisk] in Hp. apply andb_true_iff in Hp as [Ha Hp].
    rewrite append_cons. cbn [index String.length String.prefix].
    destruct (ascii_dec "*" a) as [<-|_]; [discriminate Ha|].
    by rewrite (IH Hp).
Qed.

Lemma index_bold_none (s : string) :
  no_asterisk s = true -> index 0 "**" s = None.
Proof.
  induction s as [|a s IH]; intros Hs; [reflexivity|].
  cbn [no_asterisk] in Hs. apply andb_true_iff in Hs as [Ha Hs].
  cbn [index String.prefix].
  destruct (ascii_dec "*" a) as [<-|_]; [discriminate Ha|].
  by rewrite (IH Hs).
Qed.

(** X6. For a thought text of the documented form, asterisk-free text
    [p], then the subject [s] (asterisk-free) between double asterisks,
    then any text [d], the summary's subject is [s] trimmed and its
    description is [p] followed by [d], trimmed; a text without asterisks
    has the empty subject and itself, trimmed, as description. *)
Theorem X6_thoughtSummary_of_bold_subject (p s d plain : string) :
  no_asterisk p = true -> no_asterisk s = true ->
  no_asterisk plain = true ->
  thoughtSummary (p +:+ "**" +:+ s +:+ "**" +:+ d) =
    {| subject := trim s; description := trim (p +:+ d) |} /\
  thoughtSummary plain =
    {| subject := EmptyString; description := trim plain |}.
Proof.
  intros Hp Hs Hplain. split.
  - unfold thoughtSummary, match_bold.
    rewrite (index_bold_first p _ Hp).
    assert (index (String.length p + 2) "**"
              (p +:+ "**" +:+ s +:+ "**" +:+ d) =
            Some (String.length p + 2 + String.length s)%nat) as Hj.
    { rewrite <- (string_app_assoc p "**").
      replace (String.length p + 2)%nat
        with (String.length (p +:+ "**") + 0)%nat
        by (rewrite length_append; cbn; lia).
      rewrite index_shift, (index_bold_first s d Hs).
      cbn [fmap option_fmap option_map]. f_equal.
      rewrite length_append. cbn. lia. }
    rewrite Hj. f_equal.
    + f_equal.
      replace (String.length p + 2 + String.length s - (String.length p + 2))%nat
        with (String.length s) by lia.
      rewrite <- (string_app_assoc p "**").
      replace (String.length p + 2)%nat with (String.length (p +:+ "**"))
        by (rewrite length_append; cbn; lia).
      rewrite substring_skip. apply substring_take.
    + f_equal. f_equal.
      * apply substring_take.
      * rewrite <- (string_app_assoc p "**").
        rewrite <- (string_app_assoc (p +:+ "**") s).
        rewrite <- (string_app_assoc ((p +:+ "**") +:+ s) "**").
        set (q := ((p +:+ "**") +:+ s) +:+ "**").
        assert (String.length q =
                (String.length p + 2 + String.length s + 2)%nat) as Hq.
        { unfold q. rewrite !length_append. cbn. lia. }
        rewrite length_append, <- Hq.
        replace (String.length q + String.length d - String.length q)%nat
          with (String.length d) by lia.
        rewrite substring_skip. apply substring_all.
  - unfold thoughtSummary, match_bold.
    by rewrite (index_bold_none plain Hplain).
Qed.

Lemma X6_thoughtSummary_of_bold_subject_witness :
  no_asterisk "Thinking. " = true /\
  no_asterisk " Plan " = true /\
  no_asterisk "no marker " = true /\
  thoughtSummary ("Thinking. " +:+ "**" +:+ " Plan " +:+ "**" +:+
                  " read **both** files ") =
    {| subject := trim " Plan ";
       description := trim ("Thinking. " +:+ " read **both** files ") |}.
Proof.
  exact (conj eq_refl (conj eq_refl (conj eq_refl
           (proj1 (X6_thoughtSummary_of_bold_subject
                     "Thinking. " " Plan " " read **both** files "
                     "no marker " eq_refl eq_refl eq_refl))))).
Defined.

Lemma trimStart_head (s : string) :
  match trimStart s with
  | EmptyString => True
  | String a _ => is_white_space a = false
  end.
Proof.
  induction s as [|a s IH]; [exact I|].
  cbn [trimStart]. destruct (is_white_space a) eqn:Ha; [exact IH|exact Ha].
Qed.

Lemma trimEnd_idempotent (s : string) : trimEnd (trimEnd s) = trimEnd s.
Proof.
  induction s as [|a s IH]; [reflexivity|].
  cbn [trimEnd]. destruct (trimEnd s) as [|b t] eqn:Ht.
  - destruct (is_white_space a) eqn:Ha; [reflexivity|].
    cbn [trimEnd]. by rewrite Ha.
  - cbn [trimEnd] in *. rewrite IH. reflexivity.
Qed.

Lemma trimEnd_keeps_head (a : ascii) (s : string) :
  is_white_space a = false ->
  exists t, trimEnd (String a s) = String a t.
Proof.
  intros Ha. cbn [trimEnd]. destruct (trimEnd s); [rewrite Ha|]; eauto.
Qed.

Lemma trim_trimmed (s : string) : trimmed (trim s).
Proof.
  unfold trimmed, trim. split; [|apply trimEnd_idempotent].
  pose proof (trimStart_head s) as Hhead.
  destruct (trimStart s) as [|a t]; [reflexivity|].
  destruct (trimEnd_keeps_head a t Hhead) as [u ->].
  cbn [trimStart]. by rewrite Hhead.
Qed.

(** X8. Whatever the thought text, the subject and the description of
    its summary carry no white space at either end: trimming them again
    changes nothing. *)
Theorem X8_thoughtSummary_is_trimmed (rawText : string) :
  trimmed (subject (thoughtSummary rawText)) /\
  trimmed (description (thoughtSummary rawText)) /\
  trim (subject (thoughtSummary rawText)) = subject (thoughtSummary rawText) /\
  trim (description (thoughtSummary rawText)) =
    description (thoughtSummary rawText).
Proof.
  assert (forall s, trimmed s -> trim s = s) as Hfix.
  { intros s [H1 H2]. unfold trim. by rewrite H1, H2. }
  assert (trimmed (subject (thoughtSummary rawText)) /\
          trimmed (description (thoughtSummary rawText))) as [Hs Hd].
  { unfold thoughtSummary. destruct (match_bold rawText) as [[i j]|];
      cbn [subject description]; split; try apply trim_trimmed.
    split; reflexivity. }
  auto.
Qed.

End ThoughtSummaries.

(** ** More on the Clearcut logger: what a flush keeps and gives up *)

Section ClearcutInvariants.
Import Types Clearcut.






Lemma execs_snoc (rt : Runtime) (acts : list (Z * Action))
    (a : Z * Action) (s : System) :
  execs rt (acts ++ [a]) s = exec rt a (execs rt acts s).
Proof. unfold execs. by rewrite foldl_app. Qed.



End ClearcutInvariants.

Section ClearcutFlushOutcomes.
Import Types Clearcut.

Ltac task_cases s id :=
  let b := fresh "b" in
  let q := fresh "q" in
  destruct (tasks s !! id) as [[b | b q]|] eqn:?.

(** A task that is gone stays gone, and its result is not touched. *)
Lemma exec_task_gone (rt : Runtime) (a : Z * Action) (s : System) (id : nat) :
  (id < next_task s)%nat -> tasks s !! id = None ->
  tasks (exec rt a s) !! id = None /\
  settled (exec rt a s) !! id = settled s !! id.
Proof.
  intros Hid Hnone.
  destruct a as [now [c | | id' r | id' buf | id' e]]; cbn [exec].
  - destruct (log_is_enqueue_and_flush rt now c s) as (name & data & ->).
    cbn. rewrite lookup_insert_ne by lia. auto.
  - unfold flushIfNeeded. destruct (_ <? _); [auto|].
    cbn. rewrite lookup_insert_ne by lia. auto.
  - unfold account_id_settles. task_cases s id'; try destruct r; cbn; auto.
    all: assert (id' <> id) by congruence.
    + rewrite lookup_insert_ne by done. auto.
    + rewrite lookup_delete_ne, lookup_insert_ne by done. auto.
  - unfold post_ends. task_cases s id'; cbn; auto.
    assert (id' <> id) by congruence.
    rewrite lookup_delete_ne, lookup_insert_ne by done. auto.
  - unfold post_errors. task_cases s id'; cbn; auto.
    assert (id' <> id) by congruence.
    rewrite lookup_delete_ne, lookup_insert_ne by done. auto.
Qed.

Lemma execs_task_gone (rt : Runtime) (acts : list (Z * Action))
    (s : System) (id : nat) :
  (id < next_task s)%nat -> tasks s !! id = None ->
  tasks (execs rt acts s) !! id = None /\
  settled (execs rt acts s) !! id = settled s !! id.
Proof.
  revert s. induction acts as [|a acts IH]; intros s Hid Hnone; [auto|].
  cbn [execs foldl]. fold (execs rt acts (exec rt a s)).
  destruct (exec_task_gone rt a s id Hid Hnone) as [Hnone' Hset].
  pose proof (exec_next_task rt a s) as Hmono.
  destruct (IH (exec rt a s)) as [H1 H2]; [lia|exact Hnone'|].
  split; [exact H1|congruence].
Qed.

(** A flush that got its account id is waiting for its response, with
    the batch it drained, whatever else ran in between. *)
Lemma flush_awaits_response
    (rt : Runtime) (s0 : System) (before during : list (Z * Action))
    (t_account : Z) (account : option string) :
  let id := next_task s0 in
  Forall (fun a => resumes a <> Some id) before ->
  Forall (fun a => resumes a <> Some id) during ->
  exists request,
    tasks (execs rt during
             (exec rt (t_account, AccountIdSettles id (Normal account))
                (execs rt before (flushToClearcut s0)))) !! id =
    Some (AwaitingResponse (events (logger s0)) request).
Proof.
  intros id Hbefore Hduring.
  set (s1 := flushToClearcut s0).
  assert (tasks s1 !! id = Some (AwaitingAccountId (events (logger s0))))
    as H1 by apply lookup_insert_eq.
  assert (id < next_task s1)%nat as Hlt1 by (cbn; lia).
  destruct (execs_other_task rt before s1 id Hlt1 Hbefore) as [H2 Hlt2].
  rewrite H1 in H2.
  set (s2 := execs rt before s1) in *.
  set (s3 := exec rt (t_account, AccountIdSettles id (Normal account)) s2).
  assert (exists request,
            tasks s3 !! id =
              Some (AwaitingResponse (events (logger s0)) request) /\
            next_task s3 = next_task s2) as (request & H3 & Hn3).
  { subst s3. cbn [exec]. unfold account_id_settles. rewrite H2.
    eexists. cbn. split; [apply lookup_insert_eq|reflexivity]. }
  assert (id < next_task s3)%nat as Hlt3 by (rewrite Hn3; exact Hlt2).
  destruct (execs_other_task rt during s3 id Hlt3 Hduring) as [H4 _].
  exists request. rewrite H4. exact H3.
Qed.

Lemma decodeLogResponse_returns (buf : Buffer) :
  exists ack, decodeLogResponse buf = Normal ack.
Proof.
  destruct buf as [|c buf']; [eexists; reflexivity|].
  rewrite decodeLogResponse_cons.
  destruct (negb _); [eexists; reflexivity|].
  destruct (scan buf' 1 0 true) as [ms [|]]; eexists; reflexivity.
Qed.

(** X9. When the response of a flush's POST ends, the drained batch is
    not put back into the queue, the last flush time becomes the time of
    that moment, the flush interval stays as it was, and the promise is
    fulfilled with the decoded acknowledgement, or with the empty
    response when the body does not decode; it is never rejected. *)
Theorem X9_completed_post_settles_the_flush
    (rt : Runtime) (s0 : System) (before during : list (Z * Action))
    (t_account t_end : Z) (account : option string) (buf : Buffer) :
  let id := next_task s0 in
  let s1 := flushToClearcut s0 in
  let s2 := execs rt before s1 in
  let s3 := exec rt (t_account, AccountIdSettles id (Normal account)) s2 in
  let s4 := execs rt during s3 in
  let s5 := exec rt (t_end, PostEnds id buf) s4 in
  Forall (fun a => resumes a <> Some id) before ->
  Forall (fun a => resumes a <> Some id) during ->
  events (logger s5) = events (logger s4) /\
  last_flush_time (logger s5) = t_end /\
  flush_interval_ms (logger s5) = flush_interval_ms (logger s4) /\
  tasks s5 !! id = None /\
  exists ack,
    decodeLogResponse buf = Normal ack /\
    settled s5 !! id = Some (Normal (default empty_LogResponse ack)).
Proof.
  intros id s1 s2 s3 s4 s5 Hbefore Hduring.
  destruct (flush_awaits_response rt s0 before during t_account account
              Hbefore Hduring) as (request & Htask).
  fold id s1 s2 s3 s4 in Htask.
  subst s5. cbn [exec]. unfold post_ends. rewrite Htask.
  cbn [logger tasks settled set_last_flush_time events last_flush_time
       flush_interval_ms].
  split; [reflexivity|]. split; [reflexivity|]. split; [reflexivity|].
  split; [apply lookup_delete_eq|].
  destruct (decodeLogResponse_returns buf) as (ack & Hack).
  exists ack. split; [exact Hack|].
  rewrite lookup_insert_eq, Hack. by destruct ack.
Qed.

Lemma X9_completed_post_settles_the_flush_witness :
  let s4 :=
    execs sample_runtime overlapping_failure
      (exec sample_runtime (20, AccountIdSettles 0 (Normal None))
         (execs sample_runtime [] (flushToClearcut one_waiting))) in
  let s5 :=
    exec sample_runtime (40, PostEnds 0 [Byte.x08; Byte.x96; Byte.x01]) s4 in
  Forall (fun a => resumes a <> Some (next_task one_waiting)) [] /\
  Forall (fun a => resumes a <> Some (next_task one_waiting))
    overlapping_failure /\
  events (logger s5) = events (logger s4) /\
  last_flush_time (logger s5) = 40.
Proof.
  cbv zeta.
  assert (Forall (fun a => resumes a <> Some (next_task one_waiting)) [])
    as Hbefore by constructor.
  assert (Forall (fun a => resumes a <> Some (next_task one_waiting))
            overlapping_failure) as Hduring
    by (repeat constructor; discriminate).
  pose proof (X9_completed_post_settles_the_flush sample_runtime one_waiting
                [] overlapping_failure 20 40 None
                [Byte.x08; Byte.x96; Byte.x01] Hbefore Hduring)
    as (Hqueue & Htime & _).
  exact (conj Hbefore (conj Hduring (conj Hqueue Htime))).
Defined.

(** The acknowledgement 08 96 01 fulfils the flush with a wait of 150 ms,
    and the interval of the logger stays at one minute. *)
Example completed_post_with_ack :
  let s5 :=
    exec sample_runtime (40, PostEnds 0 [Byte.x08; Byte.x96; Byte.x01])
      (exec sample_runtime (20, AccountIdSettles 0 (Normal None))
         (flushToClearcut one_waiting)) in
  settled s5 !! 0%nat =
    Some (Normal {| nextRequestWaitMs := Some (Finite 150) |}) /\
  flush_interval_ms (logger s5) = 60000 /\
  events (logger s5) = [].
Proof. vm_compute. repeat split. Qed.

(** X10. When the account lookup of a flush fails, the promise of
    [flushToClearcut] is rejected with that failure, no POST is issued,
    and the drained batch is not put back: the queue is left as it is,
    the flush is over, and nothing that happens later, a late POST
    failure for that flush included, restores the batch or changes the
    rejection. *)
Theorem X10_failed_account_lookup_drops_the_batch
    (rt : Runtime) (s0 : System) (before later : list (Z * Action))
    (t_account t_late : Z) (e e_late : Thrown) :
  let id := next_task s0 in
  let s1 := flushToClearcut s0 in
  let s2 := execs rt before s1 in
  let s3 := exec rt (t_account, AccountIdSettles id (Abrupt e)) s2 in
  let s4 := execs rt later s3 in
  Forall (fun a => resumes a <> Some id) before ->
  settled s3 !! id = Some (Abrupt e) /\
  posted s3 = posted s2 /\
  events (logger s3) = events (logger s2) /\
  tasks s4 !! id = None /\
  settled s4 !! id = Some (Abrupt e) /\
  exec rt (t_late, PostErrors id e_late) s4 = s4.
Proof.
  intros id s1 s2 s3 s4 Hbefore.
  assert (tasks s1 !! id = Some (AwaitingAccountId (events (logger s0))))
    as H1 by apply lookup_insert_eq.
  assert (id < next_task s1)%nat as Hlt1 by (cbn; lia).
  destruct (execs_other_task rt before s1 id Hlt1 Hbefore) as [H2 Hlt2].
  fold s2 in H2, Hlt2. rewrite H1 in H2.
  assert (s3 =
          {| logger := logger s2;
             tasks := delete id (tasks s2);
             settled := <[ id := Abrupt e ]> (settled s2);
             next_task := next_task s2;
             posted := posted s2 |}) as Hs3.
  { subst s3. cbn [exec]. unfold account_id_settles. by rewrite H2. }
  assert (tasks s3 !! id = None) as H3
    by (rewrite Hs3; apply lookup_delete_eq).
  assert (settled s3 !! id = Some (Abrupt e)) as Hset3
    by (rewrite Hs3; apply lookup_insert_eq).
  assert (id < next_task s3)%nat as Hlt3 by (rewrite Hs3; exact Hlt2).
  destruct (execs_task_gone rt later s3 id Hlt3 H3) as [H4 Hset4].
  fold s4 in H4, Hset4.
  split; [exact Hset3|]. split; [by rewrite Hs3|]. split; [by rewrite Hs3|].
  split; [exact H4|]. split; [congruence|].
  cbn [exec]. unfold post_errors. by rewrite H4.
Qed.

Lemma X10_failed_account_lookup_drops_the_batch_witness :
  let s3 :=
    exec sample_runtime
      (20, AccountIdSettles (next_task one_waiting)
             (Abrupt (new_Error "Error" "no account")))
      (execs sample_runtime [] (flushToClearcut one_waiting)) in
  Forall (fun a => resumes a <> Some (next_task one_waiting)) [] /\
  settled s3 !! next_task one_waiting =
    Some (Abrupt (new_Error "Error" "no account")) /\
  events (logger s3) = [] /\
  posted s3 = [].
Proof.
  cbv zeta.
  assert (Forall (fun a => resumes a <> Some (next_task one_waiting)) [])
    as Hbefore by constructor.
  pose proof (X10_failed_account_lookup_drops_the_batch sample_runtime
                one_waiting [] [] 20 30 (new_Error "Error" "no account")
                (new_Error "Error" "late") Hbefore)
    as (Hset & Hposted & Hqueue & _).
  exact (conj Hbefore (conj Hset (conj Hqueue Hposted))).
Defined.

Lemma exec_flush_interval (rt : Runtime) (a : Z * Action) (s : System) :
  flush_interval_ms (logger (exec rt a s)) = flush_interval_ms (logger s) /\
  ((forall id buf, snd a <> PostEnds id buf) ->
   last_flush_time (logger (exec rt a s)) = last_flush_time (logger s)).
Proof.
  destruct a as [now [c | | id r | id buf | id e]]; cbn [exec snd].
  - destruct (log_is_enqueue_and_flush rt now c s) as (name & data & ->).
    split; reflexivity.
  - unfold flushIfNeeded. destruct (_ <? _); split; reflexivity.
  - unfold account_id_settles. task_cases s id; try destruct r;
      split; reflexivity.
  - unfold post_ends. task_cases s id; (split; [reflexivity|]);
      intros Hno; try reflexivity.
    exfalso. exact (Hno id buf eq_refl).
  - unfold post_errors. task_cases s id; split; reflexivity.
Qed.

(** X12. In every state that a logger can reach the flush interval is
    one minute: the wait that an acknowledgement suggests is never
    applied.  The last flush time moves only when the response of a POST
    ends: a log call, a started flush, a failed POST and a failed account
    lookup leave it where it was. *)
Theorem X12_interval_is_never_adapted
    (rt : Runtime) (t0 : Z) (debug : bool) (history : list (Z * Action))
    (a : Z * Action) :
  let s := execs rt history (new_System t0 debug) in
  flush_interval_ms (logger s) = 60000 /\
  ((forall id buf, snd a <> PostEnds id buf) ->
   last_flush_time (logger (exec rt a s)) = last_flush_time (logger s)) /\
  (history = [] -> last_flush_time (logger s) = t0).
Proof.
  cbv zeta. split; [|split].
  - induction history as [|b history IH] using rev_ind; [reflexivity|].
    rewrite execs_snoc. by rewrite (proj1 (exec_flush_interval rt b _)).
  - apply exec_flush_interval.
  - intros ->. reflexivity.
Qed.

End ClearcutFlushOutcomes.

(** ** createContentGeneratorConfig and createContentGenerator *)

Section GeneratorProperties.
Import ModelCheck ContentGenerator.


(** The branch taken by [createContentGeneratorConfig]: without
    credentials the config is returned as it is; with them the key is
    set and the model is checked once. *)
Lemma createContentGeneratorConfig_cases (net : Network) (env : ProcessEnv)
    (model : option string) (authType : option AuthType)
    (config_model : option string) :
  let base :=
    {| ContentGenerator.model := effective_model config_model model;
       apiKey := None; baseURL := None; vertexai := None;
       authType := authType |} in
  (createContentGeneratorConfig net env model authType config_model =
     (Normal base, []) /\
   forall a, authType = Some a -> credentials_present env a = false) \/
  exists a c,
    authType = Some a /\ credentials_present env a = true /\
    ContentGenerator.model c = effective_model config_model model /\
    apiKey c = key_of_authType env a /\
    ContentGenerator.authType c = Some a /\
    baseURL c =
      (if is_authType (Some a) USE_CUSTOM_API then CUSTOM_API_BASE_URL env
       else None) /\
    vertexai c =
      (if is_authType (Some a) USE_VERTEX_AI then Some true else None) /\
    createContentGeneratorConfig net env model authType config_model =
      await_effective_model c
        (getEffectiveModel net (default EmptyString (key_of_authType env a))
           (effective_model config_model model) a (baseURL c)).
Proof.
  cbv zeta. unfold createContentGeneratorConfig. fold (effective_model config_model model).
  destruct authType as [[| | | |]|]; cbn [is_authType AuthType_value String.eqb
    Ascii.eqb Bool.eqb andb].
  - left. split; [reflexivity|]. intros a [= <-]. reflexivity.
  - destruct (truthy (AGENT_API_KEY env)) eqn:Hk; cbn [andb].
    + right.
      exists USE_AGENT,
        (Build_ContentGeneratorConfig (effective_model config_model model)
         (AGENT_API_KEY env) None None (Some USE_AGENT)).
      repeat split; try reflexivity; exact Hk.
    + left. split; [reflexivity|]. intros a [= <-]. exact Hk.
  - destruct (truthy (GOOGLE_API_KEY env) && truthy (GOOGLE_CLOUD_PROJECT env)
              && truthy (GOOGLE_CLOUD_LOCATION env)) eqn:Hk.
    + right.
      exists USE_VERTEX_AI,
        (Build_ContentGeneratorConfig (effective_model config_model model)
         (GOOGLE_API_KEY env) None (Some true) (Some USE_VERTEX_AI)).
      repeat split; try reflexivity; exact Hk.
    + left. split; [reflexivity|]. intros a [= <-]. exact Hk.
  - destruct (truthy (OPENAI_API_KEY env)) eqn:Hk; cbn [andb].
    + right.
      exists USE_OPENAI,
        (Build_ContentGeneratorConfig (effective_model config_model model)
         (OPENAI_API_KEY env) None None (Some USE_OPENAI)).
      repeat split; try reflexivity; exact Hk.
    + left. split; [reflexivity|]. intros a [= <-]. exact Hk.
  - destruct (truthy (CUSTOM_API_KEY env)) eqn:Hk; cbn [andb].
    + right.
      exists USE_CUSTOM_API,
        (Build_ContentGeneratorConfig (effective_model config_model model)
         (CUSTOM_API_KEY env) (CUSTOM_API_BASE_URL env) None (Some USE_CUSTOM_API)).
      repeat split; try reflexivity; exact Hk.
    + left. split; [reflexivity|]. intros a [= <-]. exact Hk.
  - left. split; [reflexivity|]. discriminate.
Qed.

Lemma truthy_Some (o : option string) :
  truthy o = true -> exists k, o = Some k /\ k <> EmptyString.
Proof.
  destruct o as [k|]; [|discriminate]. cbn.
  destruct (String.eqb_spec k EmptyString); [discriminate|eauto].
Qed.

Lemma credentials_key (env : ProcessEnv) (a : AuthType) :
  credentials_present env a = true -> truthy (key_of_authType env a) = true.
Proof.
  destruct a; cbn; try done.
  intros [[H _]%andb_true_iff _]%andb_true_iff. exact H.
Qed.

(** X14. [createContentGeneratorConfig] never throws and keeps the auth
    type it was given; the key of the config it returns, when there is
    one, is the non-empty value of the environment variable of that auth
    type, never another provider's; and when the credentials of the auth
    type are not all present (always so for the Google login and without
    auth type) the config has no key, no request is sent and the model is
    the effective model. *)
Theorem X14_config_key_is_the_auth_types
    (net : Network) (env : ProcessEnv) (model : option string)
    (authType : option AuthType) (config_model : option string) :
  let r := createContentGeneratorConfig net env model authType config_model in
  exists c,
    fst r = Normal c /\
    ContentGenerator.authType c = authType /\
    (forall k,
       apiKey c = Some k ->
       k <> EmptyString /\
       exists a, authType = Some a /\ key_of_authType env a = Some k) /\
    ((forall a, authType = Some a -> credentials_present env a = false) ->
     apiKey c = None /\ snd r = [] /\
     ContentGenerator.model c = effective_model config_model model) /\
    (forall a,
       authType = Some a -> credentials_present env a = true ->
       apiKey c = key_of_authType env a).
Proof.
  cbv zeta.
  destruct (createContentGeneratorConfig_cases net env model authType
              config_model)
    as [[-> Hnone] | (a & c & -> & Hcred & Hm & Hk & Ha & Hb & Hv & ->)].
  - eexists. split; [reflexivity|]. cbn [fst snd apiKey].
    split; [reflexivity|]. split; [discriminate|].
    split; [auto|]. intros a Ha Hc. rewrite (Hnone a Ha) in Hc. discriminate.
  - unfold await_effective_model.
    destruct (getEffectiveModel_cases net
                (default EmptyString (key_of_authType env a))
                (effective_model config_model model) a (baseURL c))
      as [-> | (request & _ & ->)]; cbn [fst snd];
      eexists; (split; [reflexivity|]);
      cbn [set_model apiKey ContentGenerator.authType ContentGenerator.model].
    all: split; [exact Ha|].
    all: split;
      [intros k Hkey; rewrite Hk in Hkey;
       destruct (truthy_Some _ (credentials_key env a Hcred)) as (k' & Hk' & Hne);
       rewrite Hk' in Hkey; injection Hkey as <-; split; [exact Hne|eauto]|].
    all: split;
      [intros Hnone; rewrite (Hnone a eq_refl) in Hcred; discriminate|].
    all: intros a' [= <-] _; exact Hk.
Qed.

(** X15. The model of the config that [createContentGeneratorConfig]
    returns is the effective model (the runtime model of the config, else
    the parameter, else the default agent model) or the fast model of the
    auth type; at most one request is sent; the model differs from the
    effective model only if a probe was answered with status 429; and an
    effective model that is not the default of the auth type is never
    probed. *)
Theorem X15_config_model_is_effective_or_fast
    (net : Network) (env : ProcessEnv) (model : option string)
    (authType : option AuthType) (config_model : option string) :
  let r := createContentGeneratorConfig net env model authType config_model in
  let effective := effective_model config_model model in
  exists c,
    fst r = Normal c /\
    (length (snd r) <= 1)%nat /\
    (snd r = [] -> ContentGenerator.model c = effective) /\
    (ContentGenerator.model c <> effective ->
     exists a request response,
       authType = Some a /\ snd r = [request] /\
       net request = Normal response /\ status response = 429 /\
       effective = getDefaultModelForAuthType (AuthType_value a) /\
       ContentGenerator.model c =
         getFastModelForAuthType (AuthType_value a)) /\
    (forall a,
       authType = Some a ->
       effective <> getDefaultModelForAuthType (AuthType_value a) ->
       snd r = [] /\ ContentGenerator.model c = effective).
Proof.
  cbv zeta.
  destruct (createContentGeneratorConfig_cases net env model authType
              config_model)
    as [[-> Hnone] | (a & c & -> & Hcred & Hm & Hk & Ha & Hb & Hv & ->)].
  - eexists. split; [reflexivity|].
    cbn [fst snd length ContentGenerator.model].
    split; [lia|]. split; [reflexivity|]. split; [congruence|]. auto.
  - unfold await_effective_model.
    destruct (getEffectiveModel_cases net
                (default EmptyString (key_of_authType env a))
                (effective_model config_model model) a (baseURL c))
      as [-> | (request & Hdef & ->)]; cbn [fst snd length];
      eexists; (split; [reflexivity|]); cbn [set_model ContentGenerator.model].
    + split; [lia|]. split; [reflexivity|]. split; [congruence|]. auto.
    + split; [lia|]. split; [discriminate|]. split.
      * intros Hne. destruct (net request) as [response|e] eqn:Hnet;
          [|congruence].
        destruct (Z.eqb_spec (status response) 429) as [H429|]; [|congruence].
        exists a, request, response. repeat split; assumption.
      * intros a' [= <-] Hnd. contradiction.
Qed.

(** X16. [createContentGenerator] on the config that
    [createContentGeneratorConfig] made from the same environment: it
    throws for a missing auth type, for the OpenAI auth type without an
    OpenAI key, and for the custom API auth type without its key or
    without a base URL; a Google client is made even without a key; and
    an OpenAI-compatible generator gets the environment's key, the
    config's checked model, and the default or the custom base URL. *)
Theorem X16_generator_of_created_config
    (net : Network) (proc : Process) (env : ProcessEnv)
    (model : option string) (authType : option AuthType)
    (config_model sessionId : option string) :
  exists c,
    fst (createContentGeneratorConfig net env model authType config_model) =
      Normal c /\
    createContentGenerator proc env c sessionId =
    match authType with
    | None =>
        Abrupt (new_Error "Error"
          "Error creating contentGenerator: Unsupported authType: undefined")
    | Some LOGIN_WITH_GOOGLE =>
        Normal (CodeAssistContentGenerator (user_agent proc env)
                  LOGIN_WITH_GOOGLE sessionId)
    | Some USE_AGENT =>
        Normal (GoogleGenAIModels
                  (if truthy (AGENT_API_KEY env) then AGENT_API_KEY env
                   else None)
                  None (user_agent proc env))
    | Some USE_VERTEX_AI =>
        Normal (GoogleGenAIModels
                  (if credentials_present env USE_VERTEX_AI
                   then GOOGLE_API_KEY env else None)
                  (if credentials_present env USE_VERTEX_AI
                   then Some true else None)
                  (user_agent proc env))
    | Some USE_OPENAI =>
        if truthy (OPENAI_API_KEY env) then
          Normal (OpenAIContentGenerator
                    (default EmptyString (OPENAI_API_KEY env))
                    "https://api.openai.com/v1" (ContentGenerator.model c))
        else Abrupt (new_Error "Error" "OpenAI API key is required")
    | Some USE_CUSTOM_API =>
        if truthy (CUSTOM_API_KEY env) then
          if truthy (CUSTOM_API_BASE_URL env) then
            Normal (OpenAIContentGenerator
                      (default EmptyString (CUSTOM_API_KEY env))
                      (default EmptyString (CUSTOM_API_BASE_URL env))
                      (ContentGenerator.model c))
          else
            Abrupt (new_Error "Error"
                      "CUSTOM_API_BASE_URL environment variable is required")
        else Abrupt (new_Error "Error" "Custom API key is required")
    end.
Proof.
  destruct (createContentGeneratorConfig_cases net env model authType
              config_model)
    as [[-> Hnone] | (a & c & -> & Hcred & Hm & Hk & Ha & Hb & Hv & ->)].
  - eexists. split; [reflexivity|].
    unfold createContentGenerator. fold (user_agent proc env).
    destruct authType as [[| | | |]|]; cbn; try reflexivity.
    all: try (rewrite (Hnone _ eq_refl); reflexivity).
    all: pose proof (Hnone _ eq_refl) as Hc; cbn in Hc; rewrite Hc;
      reflexivity.
  - unfold await_effective_model.
    destruct (getEffectiveModel_cases net
                (default EmptyString (key_of_authType env a))
                (effective_model config_model model) a (baseURL c))
      as [-> | (request & _ & ->)]; cbn [fst snd];
      eexists; (split; [reflexivity|]);
      unfold createContentGenerator; fold (user_agent proc env);
      cbn [set_model apiKey ContentGenerator.authType ContentGenerator.model
           vertexai baseURL]; rewrite Ha, Hk, ?Hv;
      destruct (truthy_Some _ (credentials_key env a Hcred))
        as (k & Hkey & Hne);
      destruct a; cbn in Hcred, Hkey |- *; try discriminate Hcred;
      rewrite ?Hcred, ?Hkey; cbn.
    all: try (destruct (String.eqb_spec k EmptyString); [contradiction|]).
    all: try reflexivity.
    all: unfold new_OpenAIContentGenerator;
      destruct (truthy (CUSTOM_API_BASE_URL env)) eqn:Hbase; cbn;
      rewrite ?Hbase; reflexivity.
Qed.

End GeneratorProperties.

(** ** The logger's singleton and the start-session event *)

Section SessionProperties.
Import Types Clearcut ModelCheck Session.

Lemma after_calls_keeps (calls : list (Z * option Config)) (i : Instance) :
  after_calls calls (Some i) = Some i.
Proof.
  induction calls as [|[now c] calls IH]; [reflexivity|].
  unfold after_calls in *. cbn [foldl fst snd].
  replace (snd (getInstance now c (Some i))) with (Some i); [exact IH|].
  unfold getInstance. destruct c as [c|]; [|reflexivity].
  destruct (getUsageStatisticsEnabled c); reflexivity.
Qed.

(** X13. The logger is a singleton made by the first [getInstance] call
    whose config has usage statistics enabled, at the time and with the
    config of that call, and never replaced: later calls with another
    config get that same logger; a call without config or with
    statistics disabled gets no logger and neither makes nor removes the
    instance. *)
Theorem X13_getInstance_is_a_singleton
    (calls : list (Z * option Config)) (now : Z) (c : option Config)
    (instance : option Instance) :
  after_calls calls None =
    (fun call =>
       {| config := snd call;
          system := new_System (fst call) (getDebugMode (snd call)) |})
    <$> first_enabled calls /\
  fst (getInstance now c instance) =
    (if statistics_enabled c then snd (getInstance now c instance)
     else None) /\
  (statistics_enabled c = false -> snd (getInstance now c instance) = instance) /\
  (forall i, instance = Some i -> snd (getInstance now c instance) = Some i) /\
  (statistics_enabled c = true ->
   exists i, snd (getInstance now c instance) = Some i).
Proof.
  split.
  { induction calls as [|[t [cfg|]] calls IH]; [reflexivity| |].
    - unfold after_calls in *. cbn [foldl fst snd first_enabled getInstance].
      destruct (getUsageStatisticsEnabled cfg); cbn [negb].
      + apply after_calls_keeps.
      + exact IH.
    - exact IH. }
  unfold getInstance, statistics_enabled.
  destruct c as [cfg|]; [destruct (getUsageStatisticsEnabled cfg)|];
    destruct instance as [i|]; cbn; repeat split; try done; eauto.
  all: by intros ? [= ->].
Qed.


End SessionProperties.

(** ** More on the model check: where a probe goes, and when none is sent *)

Section ModelCheckMore.
Import ModelCheck.

Lemma endsWith_append (p t : string) : endsWith (p +:+ t) t = true.
Proof.
  unfold endsWith. rewrite length_append.
  replace (String.length p + String.length t - String.length t)%nat
    with (String.length p) by lia.
  rewrite substring_skip, substring_all, String.eqb_refl.
  apply andb_true_iff. split; [|reflexivity].
  apply Nat.leb_le. lia.
Qed.

Lemma substring_split (s : string) (i : nat) :
  (i <= String.length s)%nat ->
  substring 0 i s +:+ substring i (String.length s - i) s = s.
Proof.
  revert i. induction s as [|a s IH]; intros [|i] Hi; cbn in Hi; try lia.
  - reflexivity.
  - cbn [substring String.length Nat.sub]. rewrite append_nil.
    f_equal. apply substring_all.
  - cbn [substring String.length Nat.sub]. rewrite append_cons.
    f_equal. apply IH. lia.
Qed.

Lemma endsWith_split (s t : string) :
  endsWith s t = true -> exists p, s = p +:+ t.
Proof.
  unfold endsWith. intros [Hle Heq]%andb_true_iff.
  apply Nat.leb_le in Hle. apply String.eqb_eq in Heq.
  exists (substring 0 (String.length s - String.length t) s).
  pose proof (substring_split s (String.length s - String.length t)) as H.
  replace (String.length s - (String.length s - String.length t))%nat
    with (String.length t) in H by lia.
  rewrite Heq in H. symmetry. apply H. lia.
Qed.

(** X18. For a base URL that is not empty, [checkCustomAPIModel] sends
    one POST whose endpoint ends with /v1/chat/completions: the base URL
    followed by /chat/completions when the base URL already ends with
    /v1, and by /v1/chat/completions otherwise; the key travels in the
    Authorization header.  Without a base URL, or with the empty one, it
    sends nothing and returns the model it was given. *)
Theorem X18_custom_probe_endpoint
    (net : Network) (apiKey modelToTest fallbackModel baseUrl : string) :
  baseUrl <> EmptyString ->
  (exists request,
     snd (checkCustomAPIModel net apiKey modelToTest fallbackModel
            (Some baseUrl)) = [request] /\
     endsWith (endpoint request) "/v1/chat/completions" = true /\
     endpoint request =
       (if endsWith baseUrl "/v1" then baseUrl +:+ "/chat/completions"
        else baseUrl +:+ "/v1/chat/completions") /\
     method request = "POST" /\
     In ("Authorization", "Bearer " +:+ apiKey) (headers request)) /\
  checkCustomAPIModel net apiKey modelToTest fallbackModel None =
    (Normal modelToTest, []) /\
  checkCustomAPIModel net apiKey modelToTest fallbackModel
    (Some EmptyString) = (Normal modelToTest, []).
Proof.
  intros Hne. split; [|split; reflexivity].
  unfold checkCustomAPIModel.
  destruct (String.eqb_spec baseUrl EmptyString) as [|_]; [contradiction|].
  rewrite try_fetch_result. eexists. split; [reflexivity|].
  cbn [endpoint method headers].
  split; [|split; [|split; [reflexivity|right; left; reflexivity]]].
  - destruct (endsWith baseUrl "/v1") eqn:Hv1.
    + destruct (endsWith_split _ _ Hv1) as [p ->].
      rewrite string_app_assoc.
      change ("/v1" +:+ "/chat/completions") with "/v1/chat/completions".
      apply endsWith_append.
    + rewrite string_app_assoc.
      change ("/v1" +:+ "/chat/completions") with "/v1/chat/completions".
      apply endsWith_append.
  - destruct (endsWith baseUrl "/v1"); [reflexivity|].
    by rewrite string_app_assoc.
Qed.

Lemma X18_custom_probe_endpoint_witness :
  "http://localhost:8080/v1" <> EmptyString /\
  exists request,
    snd (checkCustomAPIModel busy_network "key" "gpt-4o" "gpt-4o-mini"
           (Some "http://localhost:8080/v1")) = [request] /\
    endsWith (endpoint request) "/v1/chat/completions" = true.
Proof.
  assert ("http://localhost:8080/v1" <> EmptyString) as Hne by discriminate.
  destruct (X18_custom_probe_endpoint busy_network "key" "gpt-4o"
              "gpt-4o-mini" "http://localhost:8080/v1" Hne)
    as ((request & Hreq & Hend & _) & _).
  exact (conj Hne (ex_intro _ request (conj Hreq Hend))).
Defined.

(** X19. [getEffectiveModel] returns the configured model or the fast
    model of the auth type, nothing else; for the Google login, and for
    the custom API without a base URL, it sends no request and returns
    the configured model even when that is the default model. *)
Theorem X19_result_and_silent_auth_types
    (net : Network) (apiKey configured : string) (authType : AuthType)
    (baseUrl : option string) :
  let result := getEffectiveModel net apiKey configured authType baseUrl in
  (fst result = Normal configured \/
   fst result = Normal (getFastModelForAuthType (AuthType_value authType))) /\
  (authType = LOGIN_WITH_GOOGLE -> result = (Normal configured, [])) /\
  (authType = USE_CUSTOM_API ->
   baseUrl = None \/ baseUrl = Some EmptyString ->
   result = (Normal configured, [])) /\
  (forall request,
     In request (snd result) ->
     method request = "POST" /\
     match authType with
     | USE_AGENT | USE_VERTEX_AI =>
         endpoint request =
           "https://generativelanguage.googleapis.com/v1beta/models/" +:+
           configured +:+ ":generateContent?key=" +:+ apiKey
     | USE_OPENAI =>
         endpoint request = "https://api.openai.com/v1/chat/completions"
     | USE_CUSTOM_API =>
         exists url, baseUrl = Some url /\ url <> EmptyString
     | LOGIN_WITH_GOOGLE => False
     end).
Proof.
  cbv zeta. split; [|split; [|split]].
  - destruct (getEffectiveModel_cases net apiKey configured authType baseUrl)
      as [-> | (request & _ & ->)]; cbn [fst]; [by left|].
    destruct (net request) as [response|e]; [|by left].
    destruct (status response =? 429); [by right|by left].
  - intros ->. unfold getEffectiveModel.
    by destruct (negb _).
  - intros -> Hbase. unfold getEffectiveModel.
    destruct (negb _); [reflexivity|].
    by destruct Hbase as [-> | ->].
  - intros request. unfold getEffectiveModel.
    destruct (negb _); [intros []|].
    destruct authType; cbn match.
    + intros [].
    + unfold checkGeminiModel. rewrite try_fetch_result.
      intros [<- | []]. split; reflexivity.
    + unfold checkGeminiModel. rewrite try_fetch_result.
      intros [<- | []]. split; reflexivity.
    + unfold checkOpenAIModel. rewrite try_fetch_result.
      intros [<- | []]. split; reflexivity.
    + unfold checkCustomAPIModel. destruct baseUrl as [url|]; [|intros []].
      destruct (String.eqb_spec url EmptyString) as [|Hne]; [intros []|].
      rewrite try_fetch_result. intros [<- | []].
      split; [reflexivity|eauto].
Qed.

End ModelCheckMore.

(** ** Short acknowledgements *)

Section ShortVarints.
Import Clearcut Byte.

Lemma lor_below_pow2 (a b n : Z) :
  0 <= a < 2 ^ n -> 0 <= b < 2 ^ n -> Z.lor a b < 2 ^ n.
Proof.
  intros [Ha0 Han] [Hb0 Hbn].
  destruct (Z.eq_dec a 0) as [->|Hna]; [by rewrite Z.lor_0_l|].
  destruct (Z.eq_dec b 0) as [->|Hb]; [by rewrite Z.lor_0_r|].
  assert (0 < Z.lor a b) as Hpos.
  { assert (0 <= Z.lor a b) by (apply Z.lor_nonneg; lia).
    assert (Z.lor a b <> 0) by (rewrite Z.lor_eq_0_iff; lia). lia. }
  apply Z.log2_lt_pow2; [exact Hpos|].
  rewrite Z.log2_lor by lia.
  apply Z.max_lub_lt; apply Z.log2_lt_pow2; lia.
Qed.

Lemma varint_value_bound (v : list byte) :
  0 <= varint_value v < 2 ^ (7 * Z.of_nat (length v)).
Proof.
  split; [apply varint_value_nonneg|].
  induction v as [|b v IH]; [cbn; lia|].
  cbn [varint_value length].
  replace (7 * Z.of_nat (S (length v))) with (7 * Z.of_nat (length v) + 7)
    by lia.
  pose proof (varint_value_nonneg v) as Hv.
  assert (0 < 2 ^ (7 * Z.of_nat (length v))) as Hpos
    by (apply Z.pow_pos_nonneg; lia).
  apply lor_below_pow2.
  - assert (0 <= Z.land (Z.of_N (to_N b)) 127 < 2 ^ 7) as H7.
    { change (2 ^ 7) with 128. change 127 with (Z.ones 7).
      rewrite Z.land_ones by lia. apply Z.mod_pos_bound. lia. }
    rewrite Z.pow_add_r by lia. change (2 ^ 7) with 128 in *. nia.
  - rewrite Z.shiftl_mul_pow2 by lia. rewrite Z.pow_add_r by lia. nia.
Qed.

(** X20. The integer spelled by [n] varint bytes is below 2^(7n); so an
    acknowledgement whose varint has at most seven bytes is decoded
    exactly, to a wait that is not negative and below 2^49. *)
Theorem X20_short_varint_is_exact (v trailing : list byte) :
  terminated_varint v = true ->
  (length v <= 7)%nat ->
  0 <= varint_value v < 2 ^ (7 * Z.of_nat (length v)) /\
  varint_value v < 2 ^ 49 /\
  decodeLogResponse (x08 :: v ++ trailing) =
    Normal (Some {| nextRequestWaitMs := Some (Finite (varint_value v)) |}).
Proof.
  intros Hv Hlen.
  pose proof (varint_value_bound v) as [H0 Hb].
  assert (varint_value v < 2 ^ 49) as H49.
  { eapply Z.lt_le_trans; [exact Hb|].
    apply Z.pow_le_mono_r; lia. }
  split; [split; assumption|]. split; [exact H49|].
  rewrite decodeLogResponse_cons.
  change (negb (Z.of_N (to_N x08) =? 8)) with false. cbv iota.
  rewrite scan_terminated by (lia || exact Hv).
  cbn [Z.sub Z.mul Z.add Z.opp Z.pos_sub].
  rewrite Z.shiftl_0_r, Z.lor_0_l.
  rewrite Number_of_BigInt_safe; [reflexivity|].
  split; [exact H0|]. eapply Z.lt_trans; [exact H49|]. reflexivity.
Qed.

Lemma X20_short_varint_is_exact_witness :
  terminated_varint [xff; xff; x03] = true /\
  (length [xff; xff; x03] <= 7)%nat /\
  decodeLogResponse (x08 :: [xff; xff; x03] ++ [x00]) =
    Normal (Some {| nextRequestWaitMs :=
                      Some (Finite (varint_value [xff; xff; x03])) |}).
Proof.
  assert (terminated_varint [xff; xff; x03] = true) as Hv by reflexivity.
  assert (length [xff; xff; x03] <= 7)%nat as Hlen by (cbn; lia).
  exact (conj Hv (conj Hlen
           (proj2 (proj2 (X20_short_varint_is_exact [xff; xff; x03] [x00]
                            Hv Hlen))))).
Defined.

End ShortVarints.

(** ** The OpenAI adapter: streamed tool calls *)

Section OpenAIStream.
Import OpenAI.

Variable rt : Runtime.

Lemma entry_at_array_set {A : Type} (a : list (option A)) (i j : nat) (x : A) :
  entry_at (array_set i x a) j =
  if decide (i = j) then Some x else entry_at a j.
Proof.
  unfold entry_at, array_set.
  destruct (decide (i < length a)%nat) as [Hin|Hout].
  - destruct (decide (i = j)) as [<-|Hne].
    + by rewrite list_lookup_insert_eq.
    + by rewrite list_lookup_insert_ne.
  - destruct (decide (j < length a)%nat) as [Hj|Hj].
    + rewrite lookup_app_l by exact Hj.
      destruct (decide (i = j)); [lia|reflexivity].
    + rewrite lookup_app_r by lia.
      rewrite (lookup_ge_None_2 a j) by lia.
      destruct (decide (j - length a < i - length a)%nat) as [Hlt|Hge].
      * rewrite lookup_app_l by (rewrite length_replicate; exact Hlt).
        rewrite lookup_replicate_2 by exact Hlt.
        destruct (decide (i = j)); [lia|reflexivity].
      * rewrite lookup_app_r by (rewrite length_replicate; lia).
        rewrite length_replicate.
        destruct (decide (i = j)) as [->|Hne].
        -- by rewrite Nat.sub_diag.
        -- destruct (j - length a - (i - length a))%nat as [|k] eqn:Hk;
             [lia|reflexivity].
Qed.

Lemma entry_at_insert {A : Type} (a : list (option A)) (i j : nat) (x : A) :
  is_Some (entry_at a i) ->
  entry_at (<[ i := Some x ]> a) j =
  if decide (i = j) then Some x else entry_at a j.
Proof.
  unfold entry_at. intros [e He].
  assert (i < length a)%nat as Hin.
  { apply lookup_lt_is_Some. destruct (a !! i); [eauto|discriminate]. }
  destruct (decide (i = j)) as [<-|Hne].
  - by rewrite list_lookup_insert_eq.
  - by rewrite list_lookup_insert_ne.
Qed.

(** What one delta does to the entry at an index. *)
Lemma accumulate_entry (d : ToolCallDelta) (acc : list (option ToolCall))
    (st : State) (j : nat) :
  let acc' := (accumulate rt d acc st).1 in
  if decide (call_index d = j) then
    exists tc, entry_at acc' j = Some tc /\
      match entry_at acc j with
      | Some e =>
          tc_id tc = tc_id e /\
          tc_arguments tc =
            tc_arguments e +:+ default EmptyString (d_arguments d) /\
          tc_name tc = (if truthy (d_name d) then d_name d else tc_name e)
      | None =>
          (if truthy (d_id d) then Some (tc_id tc) = d_id d
           else tc_id tc =
                  "call_" +:+ nat_to_string j +:+ "_" +:+
                  Z_to_string (Date_now rt (clock_reads st))) /\
          tc_arguments tc = default EmptyString (d_arguments d) /\
          tc_name tc =
            (if truthy (d_name d) then d_name d else Some EmptyString)
      end
  else entry_at acc' j = entry_at acc j.
Proof.
  cbv zeta. unfold accumulate. fold (call_index d).
  fold (entry_at acc (call_index d)).
  destruct (entry_at acc (call_index d)) as [e|] eqn:He.
  - cbn [fst]. rewrite entry_at_insert by (rewrite He; eauto).
    destruct (decide (call_index d = j)) as [<-|Hne]; [|reflexivity].
    rewrite He. eexists. split; [reflexivity|].
    destruct (d_arguments d) as [a|] eqn:Ha, (d_name d) as [n|] eqn:Hn; cbn;
      repeat match goal with
             | |- context [String.eqb ?s EmptyString] =>
                 let E := fresh in
                 destruct (String.eqb s EmptyString) eqn:E;
                 [apply String.eqb_eq in E; subst|]
             end; cbn; rewrite ?append_nil_r; auto.
  - destruct (truthy (d_id d)) eqn:Hid.
    + cbn [fst]. rewrite entry_at_array_set.
      destruct (decide (call_index d = j)) as [<-|Hne]; [|reflexivity].
      rewrite He. eexists. split; [reflexivity|]. cbn.
      destruct (d_id d) as [i|]; [|discriminate]. cbn.
      split; [reflexivity|].
      destruct (d_arguments d) as [a|], (d_name d) as [n|]; cbn;
        repeat match goal with
               | |- context [String.eqb ?s EmptyString] =>
                   let E := fresh in
                   destruct (String.eqb s EmptyString) eqn:E;
                   [apply String.eqb_eq in E; subst|]
               end; cbn; auto.
    + cbn [fst read_clock]. rewrite entry_at_array_set.
      destruct (decide (call_index d = j)) as [<-|Hne]; [|reflexivity].
      rewrite He. eexists. split; [reflexivity|]. cbn.
      split; [reflexivity|].
      destruct (d_arguments d) as [a|], (d_name d) as [n|]; cbn;
        repeat match goal with
               | |- context [String.eqb ?s EmptyString] =>
                   let E := fresh in
                   destruct (String.eqb s EmptyString) eqn:E;
                   [apply String.eqb_eq in E; subst|]
               end; cbn; auto.
Qed.

Lemma accumulate_all_cons (d : ToolCallDelta) (ds : list ToolCallDelta)
    (acc : list (option ToolCall)) (st : State) :
  accumulate_all rt (d :: ds) acc st =
  accumulate_all rt ds (accumulate rt d acc st).1 (accumulate rt d acc st).2.
Proof. cbn. by destruct (accumulate rt d acc st). Qed.

Lemma deltas_at_cons (i : nat) (d : ToolCallDelta) (ds : list ToolCallDelta) :
  deltas_at i (d :: ds) =
  if decide (call_index d = i) then d :: deltas_at i ds else deltas_at i ds.
Proof. unfold deltas_at. by rewrite filter_cons. Qed.

(** From an entry that is there: the id stays, the fragments are
    appended, the last name wins. *)
Lemma accumulate_all_entry_some (ds : list ToolCallDelta) :
  forall (acc : list (option ToolCall)) (st : State) (i : nat) (e : ToolCall),
  entry_at acc i = Some e ->
  exists tc,
    entry_at (accumulate_all rt ds acc st).1 i = Some tc /\
    tc_id tc = tc_id e /\
    tc_arguments tc = tc_arguments e +:+ fragments (deltas_at i ds) /\
    tc_name tc = last_name (tc_name e) (deltas_at i ds).
Proof.
  induction ds as [|d ds IH]; intros acc st i e He.
  - exists e. cbn. by rewrite append_nil_r.
  - rewrite accumulate_all_cons, deltas_at_cons.
    pose proof (accumulate_entry d acc st i) as Hd. cbv zeta in Hd.
    destruct (decide (call_index d = i)) as [Hi|Hi].
    + destruct Hd as (tc1 & H1 & Hrest). rewrite He in Hrest.
      destruct Hrest as (Hid & Hargs & Hname).
      destruct (IH _ (accumulate rt d acc st).2 _ _ H1)
        as (tc & Htc & Hid' & Hargs' & Hname').
      exists tc. split; [exact Htc|]. split; [congruence|]. split.
      * rewrite Hargs', Hargs. cbn [fragments foldr].
        by rewrite string_app_assoc.
      * rewrite Hname', Hname. reflexivity.
    + rewrite He in Hd.
      destruct (IH _ (accumulate rt d acc st).2 _ _ Hd) as (tc & Htc & Hrest).
      exists tc. split; [exact Htc|exact Hrest].
Qed.

Lemma accumulate_clock (d : ToolCallDelta) (acc : list (option ToolCall))
    (st : State) :
  (clock_reads st <= clock_reads (accumulate rt d acc st).2)%nat /\
  toolCallIdMap (accumulate rt d acc st).2 = toolCallIdMap st.
Proof.
  unfold accumulate.
  destruct (mjoin (acc !! default 0%nat (index d))); [cbn; split; [lia|done]|].
  destruct (truthy (d_id d)); cbn; split; (lia || done).
Qed.

Lemma accumulate_all_clock (ds : list ToolCallDelta) :
  forall (acc : list (option ToolCall)) (st : State),
  (clock_reads st <= clock_reads (accumulate_all rt ds acc st).2)%nat /\
  toolCallIdMap (accumulate_all rt ds acc st).2 = toolCallIdMap st.
Proof.
  induction ds as [|d ds IH]; intros acc st; [cbn; split; [lia|done]|].
  rewrite accumulate_all_cons.
  destruct (IH (accumulate rt d acc st).1 (accumulate rt d acc st).2) as [H1 H2].
  destruct (accumulate_clock d acc st) as [H3 H4].
  split; [lia|congruence].
Qed.

(** From an index that holds nothing. *)
Lemma accumulate_all_entry_none (ds : list ToolCallDelta) :
  forall (acc : list (option ToolCall)) (st : State) (i : nat),
  entry_at acc i = None ->
  match deltas_at i ds with
  | [] => entry_at (accumulate_all rt ds acc st).1 i = None
  | d :: rest =>
      exists tc,
        entry_at (accumulate_all rt ds acc st).1 i = Some tc /\
        (if truthy (d_id d) then Some (tc_id tc) = d_id d
         else exists k, (clock_reads st <= k)%nat /\
                tc_id tc =
                  "call_" +:+ nat_to_string i +:+ "_" +:+
                  Z_to_string (Date_now rt k)) /\
        tc_arguments tc = fragments (d :: rest) /\
        tc_name tc = last_name (Some EmptyString) (d :: rest)
  end.
Proof.
  induction ds as [|d ds IH]; intros acc st i He; [exact He|].
  rewrite accumulate_all_cons, deltas_at_cons.
  pose proof (accumulate_entry d acc st i) as Hd. cbv zeta in Hd.
  destruct (decide (call_index d = i)) as [Hi|Hi].
  - destruct Hd as (tc1 & H1 & Hrest). rewrite He in Hrest.
    destruct Hrest as (Hid & Hargs & Hname).
    destruct (accumulate_all_entry_some ds _ (accumulate rt d acc st).2 _ _ H1)
      as (tc & Htc & Hid' & Hargs' & Hname').
    exists tc. split; [exact Htc|]. split; [|split].
    + rewrite Hid'. destruct (truthy (d_id d)); [exact Hid|].
      exists (clock_reads st). split; [lia|]. exact Hid.
    + rewrite Hargs', Hargs. reflexivity.
    + rewrite Hname', Hname. reflexivity.
  - rewrite He in Hd.
    specialize (IH _ (accumulate rt d acc st).2 _ Hd).
    destruct (deltas_at i ds) as [|d' rest]; [exact IH|].
    destruct IH as (tc & Htc & Hid & Hrest).
    exists tc. split; [exact Htc|]. split; [|exact Hrest].
    destruct (truthy (d_id d')); [exact Hid|].
    destruct Hid as (k & Hk & Hid). exists k. split; [|exact Hid].
    pose proof (accumulate_clock d acc st) as [Hc _]. lia.
Qed.

(** X21.  Streamed tool calls are assembled per index.  After any
    sequence of tool call deltas, taken from an empty array, the entry at
    an index that no delta names is a hole or past the end; the entry at
    an index that deltas name has the id of the first of them (or, when
    that delta has none, an id made of the index and a clock reading),
    the argument fragments of all of them joined in order, and the last
    name that any of them carries (the empty string when none does). *)
Theorem X21_streamed_calls_are_assembled_by_index
    (ds : list ToolCallDelta) (st : State) (i : nat) :
  let acc := (accumulate_all rt ds [] st).1 in
  match deltas_at i ds with
  | [] => entry_at acc i = None
  | d :: rest =>
      exists tc,
        entry_at acc i = Some tc /\
        (if truthy (d_id d) then Some (tc_id tc) = d_id d
         else exists k,
                tc_id tc =
                  "call_" +:+ nat_to_string i +:+ "_" +:+
                  Z_to_string (Date_now rt k)) /\
        tc_arguments tc = fragments (d :: rest) /\
        tc_name tc = last_name (Some EmptyString) (d :: rest)
  end.
Proof.
  cbv zeta.
  pose proof (accumulate_all_entry_none ds [] st i) as H.
  specialize (H ltac:(unfold entry_at; by rewrite lookup_nil)).
  destruct (deltas_at i ds) as [|d rest]; [exact H|].
  destruct H as (tc & Htc & Hid & Hrest).
  exists tc. split; [exact Htc|]. split; [|exact Hrest].
  destruct (truthy (d_id d)); [exact Hid|].
  destruct Hid as (k & _ & Hid). by exists k.
Qed.

(** *** The loop of the generator *)

Lemma concat_nosep_cons (x : string) (xs : list string) :
  String.concat EmptyString (x :: xs) = x +:+ String.concat EmptyString xs.
Proof.
  destruct xs as [|y ys]; [cbn; by rewrite append_nil_r|reflexivity].
Qed.

Lemma concat_nosep_app (xs ys : list string) :
  String.concat EmptyString (xs ++ ys) =
  String.concat EmptyString xs +:+ String.concat EmptyString ys.
Proof.
  induction xs as [|x xs IH]; [reflexivity|].
  rewrite <- app_comm_cons, !concat_nosep_cons, IH.
  by rewrite string_app_assoc.
Qed.

Lemma extractTextFromParts_app (ps qs : list Part) :
  extractTextFromParts (ps ++ qs) =
  extractTextFromParts ps +:+ extractTextFromParts qs.
Proof.
  unfold extractTextFromParts. by rewrite omap_app, concat_nosep_app.
Qed.

Lemma extractTextFromParts_calls (fcs : list FunctionCall) :
  extractTextFromParts (map function_call_part fcs) = EmptyString.
Proof.
  unfold extractTextFromParts. induction fcs as [|fc fcs IH]; [reflexivity|].
  exact IH.
Qed.

Lemma truthy_string_or (s : option string) :
  truthy s = negb (String.eqb (string_or s EmptyString) EmptyString).
Proof.
  destruct s as [s|]; [|reflexivity]. cbn.
  destruct (String.eqb s EmptyString) eqn:E; [reflexivity|]. by rewrite E.
Qed.

Lemma truthy_default (s : option string) :
  truthy s = true -> default EmptyString s = string_or s EmptyString.
Proof.
  destruct s as [s|]; [|discriminate]. cbn.
  by destruct (String.eqb s EmptyString).
Qed.

(** The loop over the tool calls of a message: it goes through when
    every entry is there and parses, and then adds one part and one
    call per entry, in order, and files each call's id under its name. *)
Lemma convert_tool_calls_normal (tcs : list (option ToolCall)) :
  forall (st st' : State) (ps0 ps : list Part) (fcs0 fcs : list FunctionCall),
  convert_tool_calls rt tcs st ps0 fcs0 = (Normal (ps, fcs), st') ->
  exists calls,
    ps = ps0 ++ map function_call_part calls /\
    fcs = fcs0 ++ calls /\
    Forall2 (fun entry fc =>
               exists tc, entry = Some tc /\
                 id fc = Some (tc_id tc) /\ name fc = tc_name tc /\
                 JSON_parse rt (string_or (Some (tc_arguments tc)) "{}") =
                   Normal (default JNull (args fc)) /\
                 is_Some (args fc))
      tcs calls /\
    forall key,
      toolCallIdMap st' !! key =
      lookup_after (toolCallIdMap st) (filed_by_response calls) key.
Proof.
  induction tcs as [|[tc|] tcs IH]; intros st st' ps0 ps fcs0 fcs H; cbn in H.
  - injection H as <- <- <-. exists []. by rewrite !app_nil_r.
  - destruct (JSON_parse rt _) as [a|e] eqn:Hparse; [|discriminate].
    apply IH in H as (calls & -> & -> & Hall & Hmap).
    eexists (_ :: calls). rewrite <- !app_assoc.
    split; [reflexivity|]. split; [reflexivity|]. split.
    + constructor; [|exact Hall]. exists tc. cbn. rewrite Hparse. eauto.
    + intros key. rewrite Hmap. unfold lookup_after, filed_by_response. cbn.
      destruct (last_id key (map _ calls)); [reflexivity|].
      destruct (decide (tc_name tc = key)) as [->|Hne].
      * by rewrite lookup_insert_eq.
      * by rewrite lookup_insert_ne.
  - discriminate.
Qed.

Lemma convert_tool_calls_hole (tcs : list (option ToolCall)) :
  forall (st : State) (ps0 : list Part) (fcs0 : list FunctionCall),
  In None tcs ->
  exists e st', convert_tool_calls rt tcs st ps0 fcs0 = (Abrupt e, st').
Proof.
  induction tcs as [|[tc|] tcs IH]; intros st ps0 fcs0 Hin; cbn.
  - destruct Hin.
  - destruct Hin as [Hin|Hin]; [discriminate|].
    destruct (JSON_parse rt _); [by apply IH|eauto].
  - eauto.
Qed.

(** The map after the loop: the clock is not read. *)
Lemma convert_tool_calls_clock (tcs : list (option ToolCall)) :
  forall (st : State) (ps0 : list Part) (fcs0 : list FunctionCall),
  clock_reads (convert_tool_calls rt tcs st ps0 fcs0).2 = clock_reads st.
Proof.
  induction tcs as [|[tc|] tcs IH]; intros st ps0 fcs0; cbn; [done| |done].
  destruct (JSON_parse rt _); [by rewrite IH|done].
Qed.

Lemma response_text_chunk (chunk : Chunk) :
  response_text (convertFromOpenAIStreamChunk chunk) =
  step_text (Delivers chunk).
Proof.
  unfold response_text, convertFromOpenAIStreamChunk, step_text. cbn.
  destruct (first_stream_choice chunk) as [choice|]; cbn.
  - destruct (String.eqb (string_or (delta_content choice) EmptyString)
                EmptyString) eqn:E.
    + apply String.eqb_eq in E. by rewrite E.
    + unfold extractTextFromParts. cbn. rewrite E. cbn.
      by rewrite append_nil_r.
  - reflexivity.
Qed.

Lemma yielded_text_app (rs rs' : list GenerateContentResponse) :
  yielded_text (rs ++ rs') = yielded_text rs +:+ yielded_text rs'.
Proof.
  induction rs as [|r rs IH]; [reflexivity|].
  change (yielded_text ((r :: rs) ++ rs')) with
    (response_text r +:+ yielded_text (rs ++ rs')).
  change (yielded_text (r :: rs)) with (response_text r +:+ yielded_text rs).
  rewrite IH. by rewrite string_app_assoc.
Qed.

Lemma yielded_text_one (r : GenerateContentResponse) :
  yielded_text [r] = response_text r.
Proof. unfold yielded_text. cbn [foldr]. by rewrite append_nil_r. Qed.

Lemma response_text_converted (response : ChatCompletion) (st st' : State)
    (r : GenerateContentResponse) :
  convertFromOpenAIResponse rt response st = (Normal r, st') ->
  response_text r =
  match first_choice response with
  | Some choice => string_or (message_content choice) EmptyString
  | None => EmptyString
  end.
Proof.
  unfold convertFromOpenAIResponse.
  destruct (first_choice response) as [choice|]; [|discriminate].
  destruct (convert_tool_calls rt _ st _ _) as [[[ps fcs]|e] st1] eqn:Hc;
    [|discriminate].
  intros [= <- <-].
  apply convert_tool_calls_normal in Hc as (calls & -> & _ & _ & _).
  unfold response_text, model_content.
  cbn [candidates foldr content parts].
  match goal with
  | |- context [default [] (Some ?l)] => change (default [] (Some l)) with l
  end.
  rewrite extractTextFromParts_app, extractTextFromParts_calls.
  rewrite !append_nil_r.
  destruct (truthy (message_content choice)) eqn:Ht.
  - rewrite (truthy_default _ Ht).
    rewrite truthy_string_or in Ht. apply negb_true_iff in Ht.
    unfold extractTextFromParts, text_part. cbn. rewrite Ht. cbn. reflexivity.
  - rewrite truthy_string_or in Ht. apply negb_false_iff in Ht.
    apply String.eqb_eq in Ht. by rewrite Ht.
Qed.

(** What one turn of the loop adds. *)
Lemma stream_chunk_text (chunk : Chunk) (g : Generation) :
  let g' := (stream_chunk rt chunk g).1 in
  accumulatedContent g' =
    accumulatedContent g +:+ step_text (Delivers chunk) /\
  yielded_text (g_yielded g') =
    yielded_text (g_yielded g) +:+ step_text (Delivers chunk).
Proof.
  cbv zeta. unfold stream_chunk, step_text.
  destruct (first_stream_choice chunk) as [choice|] eqn:Hch;
    [|cbn; by rewrite !append_nil_r].
  set (g1 := if truthy (delta_content choice) then _ else g).
  assert (accumulatedContent g1 =
            accumulatedContent g +:+ string_or (delta_content choice) EmptyString
          /\ yielded_text (g_yielded g1) =
            yielded_text (g_yielded g) +:+
            string_or (delta_content choice) EmptyString) as [Hc Hy].
  { subst g1. destruct (truthy (delta_content choice)) eqn:Ht.
    - cbn [accumulatedContent g_yielded].
      rewrite yielded_text_app, yielded_text_one, response_text_chunk.
      unfold step_text. rewrite Hch.
      by rewrite (truthy_default _ Ht).
    - rewrite truthy_string_or in Ht. apply negb_false_iff in Ht.
      apply String.eqb_eq in Ht. rewrite Ht. by rewrite !append_nil_r. }
  destruct (accumulate_all rt _ (accumulatedToolCalls g1) (g_state g1))
    as [acc st2].
  destruct (truthy (s_finish_reason choice) && negb (Nat.eqb (length acc) O));
    [|cbn; by split].
  destruct (convertFromOpenAIResponse rt _ st2) as [[r|e] st3] eqn:Hconv;
    cbn [fst accumulatedContent g_yielded]; [|by split].
  split; [exact Hc|].
  rewrite yielded_text_app, Hy, yielded_text_one.
  rewrite (response_text_converted _ _ _ _ Hconv). cbn.
  by rewrite !append_nil_r.
Qed.

Lemma stream_from_text (steps : list StreamStep) :
  forall g : Generation,
  let g' := (stream_from rt steps g).1 in
  exists seen,
    accumulatedContent g' = accumulatedContent g +:+ seen /\
    yielded_text (g_yielded g') = yielded_text (g_yielded g) +:+ seen /\
    ((stream_from rt steps g).2 = Returned -> seen = stream_text steps).
Proof.
  induction steps as [|[chunk|e] steps IH]; intros g; cbv zeta.
  - exists EmptyString. cbn. by rewrite !append_nil_r.
  - cbn [stream_from].
    pose proof (stream_chunk_text chunk g) as [Hc Hy].
    destruct (stream_chunk rt chunk g) as [g1 [e|]] eqn:Hs; cbn [fst snd] in *.
    + exists (step_text (Delivers chunk)). repeat split; [done|done|discriminate].
    + destruct (IH g1) as (seen & Hc' & Hy' & Hret).
      exists (step_text (Delivers chunk) +:+ seen).
      rewrite Hc', Hy', Hc, Hy, !string_app_assoc.
      repeat split. intros H. by rewrite (Hret H).
  - exists EmptyString. cbn. rewrite !append_nil_r. repeat split. discriminate.
Qed.

(** X22.  A streamed answer keeps its text.  Whatever the stream does,
    the texts of the responses the generator has yielded, joined in
    order, are the text it has accumulated; and when the generator
    returns, that is the text of all the chunks of the stream (of the
    first choice of each), so nothing is lost, merged out of order or
    yielded twice. *)
Theorem X22_streamed_text_is_kept (steps : list StreamStep) (st : State) :
  let run := stream_from rt steps (new_Generation st) in
  yielded_text (g_yielded run.1) = accumulatedContent run.1 /\
  (run.2 = Returned -> yielded_text (g_yielded run.1) = stream_text steps).
Proof.
  cbv zeta.
  destruct (stream_from_text steps (new_Generation st)) as (seen & Hc & Hy & Hr).
  cbn in Hc, Hy. rewrite Hc, Hy. split; [reflexivity|].
  intros H. by rewrite (Hr H).
Qed.

Lemma accumulate_all_app (ds ds' : list ToolCallDelta) :
  forall (acc : list (option ToolCall)) (st : State),
  accumulate_all rt (ds ++ ds') acc st =
  accumulate_all rt ds' (accumulate_all rt ds acc st).1
    (accumulate_all rt ds acc st).2.
Proof.
  induction ds as [|d ds IH]; intros acc st; [reflexivity|].
  rewrite <- app_comm_cons, !accumulate_all_cons. apply IH.
Qed.

(** A chunk without a finish reason: its text is yielded, its deltas are
    filed, nothing else happens. *)
Lemma stream_chunk_quiet (chunk : Chunk) (g : Generation) :
  quiet (Delivers chunk) = true ->
  let filed :=
    accumulate_all rt (chunk_deltas chunk) (accumulatedToolCalls g)
      (g_state g) in
  stream_chunk rt chunk g =
  ({| g_state := filed.2;
      accumulatedContent := accumulatedContent g +:+ step_text (Delivers chunk);
      accumulatedToolCalls := filed.1;
      g_yielded := g_yielded g ++ text_responses [Delivers chunk] |}, None).
Proof.
  unfold quiet, finishes, stream_chunk, chunk_deltas, text_responses, step_text.
  cbn [flat_map]. rewrite app_nil_r.
  destruct (first_stream_choice chunk) as [choice|].
  - intros Hq. apply negb_true_iff in Hq. cbv zeta.
    pose proof (truthy_string_or (delta_content choice)) as Hts.
    destruct (truthy (delta_content choice)) eqn:Ht;
      cbn [negb accumulatedToolCalls g_state accumulatedContent g_yielded].
    + rewrite <- (truthy_default _ Ht) in *.
      symmetry in Hts. apply negb_true_iff in Hts. rewrite Hts.
      destruct (accumulate_all rt _ _ _) as [acc st2]. by rewrite Hq.
    + symmetry in Hts. apply negb_false_iff in Hts. rewrite Hts.
      apply String.eqb_eq in Hts. rewrite Hts, append_nil_r, app_nil_r.
      destruct (accumulate_all rt _ _ _) as [acc st2]. by rewrite Hq.
  - intros _. cbn. rewrite append_nil_r, app_nil_r. by destruct g.
Qed.

Lemma text_responses_app (steps steps' : list StreamStep) :
  text_responses (steps ++ steps') =
  text_responses steps ++ text_responses steps'.
Proof. unfold text_responses. by rewrite flat_map_app. Qed.

Lemma stream_deltas_app (steps steps' : list StreamStep) :
  stream_deltas (steps ++ steps') = stream_deltas steps ++ stream_deltas steps'.
Proof. unfold stream_deltas. by rewrite flat_map_app. Qed.

(** A run of chunks without a finish reason. *)
Lemma stream_from_quiet (steps : list StreamStep) :
  forall g : Generation,
  forallb quiet steps = true ->
  exists g',
    (forall more, stream_from rt (steps ++ more) g = stream_from rt more g') /\
    accumulate_all rt (stream_deltas steps) (accumulatedToolCalls g)
      (g_state g) = (accumulatedToolCalls g', g_state g') /\
    g_yielded g' = g_yielded g ++ text_responses steps.
Proof.
  induction steps as [|step steps IH]; intros g Hq.
  - exists g. cbn. by rewrite app_nil_r.
  - cbn [forallb] in Hq. apply andb_true_iff in Hq as [Hstep Hq].
    destruct step as [chunk|e]; [|discriminate].
    pose proof (stream_chunk_quiet chunk g Hstep) as Hc. cbv zeta in Hc.
    destruct (IH (stream_chunk rt chunk g).1 Hq) as (g' & Hrun & Hacc & Hy).
    rewrite Hc in Hrun, Hacc, Hy.
    cbn [fst accumulatedToolCalls g_state g_yielded] in Hrun, Hacc, Hy.
    exists g'. split; [|split].
    + intros more. rewrite <- app_comm_cons. cbn [stream_from].
      rewrite Hc. apply Hrun.
    + change (stream_deltas (Delivers chunk :: steps)) with
        (chunk_deltas chunk ++ stream_deltas steps).
      rewrite accumulate_all_app. exact Hacc.
    + rewrite Hy.
      change (Delivers chunk :: steps) with ([Delivers chunk] ++ steps).
      by rewrite text_responses_app, app_assoc.
Qed.

(** The chunk with the finish reason, after anything. *)
Lemma stream_chunk_finish (chunk : Chunk) (choice : StreamChoice)
    (g : Generation) :
  first_stream_choice chunk = Some choice ->
  truthy (s_finish_reason choice) = true ->
  let filed :=
    accumulate_all rt (chunk_deltas chunk) (accumulatedToolCalls g)
      (g_state g) in
  let texts := g_yielded g ++ text_responses [Delivers chunk] in
  let content := accumulatedContent g +:+ step_text (Delivers chunk) in
  stream_chunk rt chunk g =
  match filed.1 with
  | [] =>
      ({| g_state := filed.2; accumulatedContent := content;
          accumulatedToolCalls := []; g_yielded := texts |}, None)
  | _ :: _ =>
      match
        convertFromOpenAIResponse rt
          (mockResponse filed.1 (s_finish_reason choice) (s_usage chunk))
          filed.2
      with
      | (Normal r, st') =>
          ({| g_state := st'; accumulatedContent := content;
              accumulatedToolCalls := filed.1;
              g_yielded := texts ++ [r] |}, None)
      | (Abrupt e, st') =>
          ({| g_state := st'; accumulatedContent := content;
              accumulatedToolCalls := filed.1;
              g_yielded := texts |}, Some e)
      end
  end.
Proof.
  intros Hch Hfin. cbv zeta.
  unfold stream_chunk, chunk_deltas, text_responses, step_text.
  cbn [flat_map]. rewrite app_nil_r, Hch, Hfin.
  pose proof (truthy_string_or (delta_content choice)) as Hts.
  destruct (truthy (delta_content choice)) eqn:Ht; cbn [negb].
  - rewrite <- (truthy_default _ Ht) in *.
    symmetry in Hts. apply negb_true_iff in Hts. rewrite Hts.
    cbn [accumulatedToolCalls g_state accumulatedContent g_yielded].
    destruct (accumulate_all rt _ _ _) as [[|entry acc] st2];
      cbn [fst snd length Nat.eqb negb andb]; [reflexivity|].
    by destruct (convertFromOpenAIResponse rt _ st2) as [[r|e] st3].
  - symmetry in Hts. apply negb_false_iff in Hts. rewrite Hts.
    apply String.eqb_eq in Hts. rewrite Hts, append_nil_r, app_nil_r.
    destruct (accumulate_all rt _ _ _) as [[|entry acc] st2];
      cbn [fst snd length Nat.eqb negb andb]; [reflexivity|].
    by destruct (convertFromOpenAIResponse rt _ st2) as [[r|e] st3].
Qed.

(** X28.  Streamed tool calls are yielded at the chunk that carries the
    finish reason.  For a stream of chunks without a finish reason
    followed by a chunk with one, run from a new generator: the
    responses yielded are the texts of the chunks, one response per
    chunk that has text, followed, when any tool call was filed, by one
    response: the conversion of all the filed calls, with the finish
    reason and the usage of that chunk.  When that conversion throws,
    the generator throws the wrapped error instead and yields the texts
    only. *)
Theorem X28_tool_calls_are_yielded_at_the_finish_chunk
    (steps : list StreamStep) (chunk : Chunk) (choice : StreamChoice)
    (st : State)
    (Hquiet : forallb quiet steps = true)
    (Hchoice : first_stream_choice chunk = Some choice)
    (Hfinish : truthy (s_finish_reason choice) = true) :
  let all := steps ++ [Delivers chunk] in
  let filed := accumulate_all rt (stream_deltas all) [] st in
  let run := stream_from rt all (new_Generation st) in
  accumulatedToolCalls run.1 = filed.1 /\
  match filed.1 with
  | [] => g_yielded run.1 = text_responses all /\ run.2 = Returned
  | _ :: _ =>
      match
        convertFromOpenAIResponse rt
          (mockResponse filed.1 (s_finish_reason choice) (s_usage chunk))
          filed.2
      with
      | (Normal r, _) =>
          g_yielded run.1 = text_responses all ++ [r] /\ run.2 = Returned
      | (Abrupt e, _) =>
          g_yielded run.1 = text_responses all /\
          run.2 = Threw (streaming_api_error rt e)
      end
  end.
Proof.
  cbv zeta.
  destruct (stream_from_quiet steps (new_Generation st) Hquiet)
    as (g' & Hrun & Hacc & Hy).
  rewrite Hrun. cbn [stream_from].
  rewrite stream_deltas_app, accumulate_all_app.
  cbn [new_Generation accumulatedToolCalls g_state g_yielded] in Hacc, Hy.
  rewrite Hacc. cbn [fst snd].
  change (stream_deltas [Delivers chunk]) with (chunk_deltas chunk ++ []).
  rewrite app_nil_r, text_responses_app.
  rewrite (stream_chunk_finish chunk choice g' Hchoice Hfinish).
  cbv zeta. rewrite Hy. cbn [app].
  destruct (accumulate_all rt (chunk_deltas chunk) _ _) as [[|entry acc] st2];
    cbn [fst snd]; [done|].
  destruct (convertFromOpenAIResponse rt _ st2) as [[r|e] st3];
    cbn [fst snd accumulatedToolCalls g_yielded]; done.
Qed.


Lemma entry_hole_in {A : Type} (a : list (option A)) (i j : nat) :
  (j < i)%nat -> entry_at a j = None -> is_Some (entry_at a i) -> In None a.
Proof.
  unfold entry_at. intros Hlt Hj [x Hi].
  assert (i < length a)%nat as Hlen.
  { apply lookup_lt_is_Some. destruct (a !! i); [eauto|discriminate]. }
  destruct (a !! j) as [[y|]|] eqn:Hlook; [discriminate| |].
  - apply list_elem_of_In. by apply list_elem_of_lookup_2 in Hlook.
  - apply lookup_ge_None_1 in Hlook. lia.
Qed.

Lemma mock_with_hole_throws (acc : list (option ToolCall))
    (reason : option string) (u : option Usage) (st : State) :
  In None acc ->
  exists e st',
    convertFromOpenAIResponse rt (mockResponse acc reason u) st =
    (Abrupt e, st').
Proof.
  intros Hin. unfold convertFromOpenAIResponse, mockResponse. cbn.
  destruct (convert_tool_calls_hole acc st [] [] Hin) as (e & st' & ->).
  eauto.
Qed.

(** X23.  A gap in the indices of streamed tool calls fails the stream.
    If the tool call deltas of a stream name an index but none names
    some smaller index, the array of filed calls has a hole there, and
    at the chunk with the finish reason the generator throws the wrapped
    error: no response with function calls is yielded, only the texts. *)
Theorem X23_gap_in_tool_call_indices_fails_the_stream
    (steps : list StreamStep) (chunk : Chunk) (choice : StreamChoice)
    (st : State) (i j : nat)
    (Hquiet : forallb quiet steps = true)
    (Hchoice : first_stream_choice chunk = Some choice)
    (Hfinish : truthy (s_finish_reason choice) = true) :
  let all := steps ++ [Delivers chunk] in
  let run := stream_from rt all (new_Generation st) in
  (j < i)%nat ->
  deltas_at j (stream_deltas all) = [] ->
  deltas_at i (stream_deltas all) <> [] ->
  g_yielded run.1 = text_responses all /\
  exists cause, run.2 = Threw (streaming_api_error rt cause).
Proof.
  cbv zeta. intros Hlt Hj Hi.
  destruct (stream_from_quiet steps (new_Generation st) Hquiet)
    as (g' & Hrun & Hacc & Hy).
  cbn [new_Generation accumulatedToolCalls g_state g_yielded app] in Hacc, Hy.
  rewrite Hrun. cbn [stream_from].
  rewrite (stream_chunk_finish chunk choice g' Hchoice Hfinish). cbv zeta.
  rewrite text_responses_app, Hy.
  set (ds := stream_deltas (steps ++ [Delivers chunk])) in *.
  assert (accumulate_all rt (chunk_deltas chunk) (accumulatedToolCalls g')
            (g_state g') = accumulate_all rt ds [] st) as ->.
  { subst ds. rewrite stream_deltas_app, accumulate_all_app, Hacc.
    change (stream_deltas [Delivers chunk]) with (chunk_deltas chunk ++ []).
    by rewrite app_nil_r. }
  assert (entry_at [] j = (None : option ToolCall)) as Hnil_j
    by (unfold entry_at; by rewrite lookup_nil).
  assert (entry_at [] i = (None : option ToolCall)) as Hnil_i
    by (unfold entry_at; by rewrite lookup_nil).
  pose proof (accumulate_all_entry_none ds [] st j Hnil_j) as Hej.
  pose proof (accumulate_all_entry_none ds [] st i Hnil_i) as Hei.
  rewrite Hj in Hej.
  destruct (deltas_at i ds) as [|d rest]; [done|].
  destruct Hei as (tc & Htc & _).
  assert (In None (accumulate_all rt ds [] st).1) as Hhole
    by (eapply entry_hole_in; [exact Hlt|exact Hej|rewrite Htc; eauto]).
  destruct (accumulate_all rt ds [] st) as [[|entry acc] st2]; cbn [fst snd] in *;
    [destruct Hhole|].
  destruct (mock_with_hole_throws (entry :: acc) (s_finish_reason choice)
              (s_usage chunk) st2 Hhole) as (e & st' & ->).
  cbn [fst snd g_yielded]. split; [reflexivity|eauto].
Qed.

Lemma stream_chunk_no_finish (chunk : Chunk) (g : Generation) :
  finishes (Delivers chunk) = false ->
  let g' := (stream_chunk rt chunk g).1 in
  (stream_chunk rt chunk g).2 = None /\
  toolCallIdMap (g_state g') = toolCallIdMap (g_state g) /\
  exists new, g_yielded g' = g_yielded g ++ new /\
    Forall (fun r => functionCalls r = None) new.
Proof.
  intros Hf. cbv zeta.
  rewrite (stream_chunk_quiet chunk g) by (cbn [quiet]; by rewrite Hf).
  cbv zeta. cbn [fst snd g_state g_yielded]. split; [reflexivity|].
  split; [apply accumulate_all_clock|].
  eexists. split; [reflexivity|].
  unfold text_responses. cbn [flat_map]. rewrite app_nil_r.
  destruct (String.eqb _ _); repeat constructor.
Qed.

Lemma stream_from_no_finish (steps : list StreamStep) :
  forall g : Generation,
  Forall (fun step => finishes step = false) steps ->
  let g' := (stream_from rt steps g).1 in
  toolCallIdMap (g_state g') = toolCallIdMap (g_state g) /\
  exists new, g_yielded g' = g_yielded g ++ new /\
    Forall (fun r => functionCalls r = None) new.
Proof.
  induction steps as [|[chunk|e] steps IH]; intros g Hall; cbv zeta.
  - cbn. split; [reflexivity|]. exists []. by rewrite app_nil_r.
  - inversion Hall as [|? ? Hstep Hrest]; subst.
    destruct (stream_chunk_no_finish chunk g Hstep) as (Hnone & Hmap & new & Hy & Hnew).
    cbn [stream_from].
    destruct (stream_chunk rt chunk g) as [g1 oe]; cbn [fst snd] in *. subst oe.
    destruct (IH g1 Hrest) as (Hmap' & new' & Hy' & Hnew').
    split; [congruence|].
    exists (new ++ new'). rewrite Hy', Hy, app_assoc. split; [reflexivity|].
    by apply Forall_app.
  - cbn. split; [reflexivity|]. exists []. by rewrite app_nil_r.
Qed.

(** X29.  Without a finish reason, streamed tool calls are never
    yielded.  If no chunk of the stream has a finish reason in its first
    choice, then whatever tool call deltas the chunks carry, however the
    stream ends, no yielded response has function calls and the id map
    of the generator is what it was. *)
Theorem X29_no_finish_reason_no_function_calls
    (steps : list StreamStep) (st : State)
    (Hnone : Forall (fun step => finishes step = false) steps) :
  let run := stream_from rt steps (new_Generation st) in
  Forall (fun r => functionCalls r = None) (g_yielded run.1) /\
  toolCallIdMap (g_state run.1) = toolCallIdMap st.
Proof.
  cbv zeta.
  destruct (stream_from_no_finish steps (new_Generation st) Hnone)
    as (Hmap & new & Hy & Hnew).
  rewrite Hy. cbn [new_Generation g_yielded g_state app] in *.
  split; [exact Hnew|exact Hmap].
Qed.

Lemma stream_from_returned_app (steps : list StreamStep) :
  forall (g : Generation) (more : list StreamStep),
  (stream_from rt steps g).2 = Returned ->
  stream_from rt (steps ++ more) g =
  stream_from rt more (stream_from rt steps g).1.
Proof.
  induction steps as [|[chunk|e] steps IH]; intros g more H.
  - reflexivity.
  - rewrite <- app_comm_cons. cbn [stream_from] in *.
    destruct (stream_chunk rt chunk g) as [g1 [e|]]; [discriminate|].
    by apply IH.
  - discriminate.
Qed.

Lemma stream_from_ending (steps : list StreamStep) :
  forall g : Generation,
  (stream_from rt steps g).2 = Returned \/
  exists cause, (stream_from rt steps g).2 = Threw (streaming_api_error rt cause).
Proof.
  induction steps as [|[chunk|e] steps IH]; intros g; cbn [stream_from].
  - by left.
  - destruct (stream_chunk rt chunk g) as [g1 [e|]]; [right; eauto|apply IH].
  - right; eauto.
Qed.

Lemma stream_chunk_yields (chunk : Chunk) (g : Generation) :
  exists new, g_yielded (stream_chunk rt chunk g).1 = g_yielded g ++ new.
Proof.
  unfold stream_chunk.
  destruct (first_stream_choice chunk) as [choice|];
    [|exists []; by rewrite app_nil_r].
  set (g1 := if truthy (delta_content choice) then _ else g).
  assert (exists new, g_yielded g1 = g_yielded g ++ new) as [new Hnew].
  { subst g1. destruct (truthy (delta_content choice)); cbn; eauto.
    exists []. by rewrite app_nil_r. }
  destruct (accumulate_all rt _ _ _) as [acc st2].
  destruct (truthy (s_finish_reason choice) && negb (Nat.eqb (length acc) O));
    [|cbn; eauto].
  destruct (convertFromOpenAIResponse rt _ st2) as [[r|e] st3]; cbn; eauto.
  exists (new ++ [r]). by rewrite Hnew, app_assoc.
Qed.

Lemma stream_from_yields (steps : list StreamStep) :
  forall g : Generation,
  exists new, g_yielded (stream_from rt steps g).1 = g_yielded g ++ new.
Proof.
  induction steps as [|[chunk|e] steps IH]; intros g; cbn [stream_from];
    try (exists []; cbn; by rewrite app_nil_r).
  destruct (stream_chunk_yields chunk g) as [new Hnew].
  destruct (stream_chunk rt chunk g) as [g1 [e|]]; cbn [fst] in *; [eauto|].
  destruct (IH g1) as [new' Hnew'].
  exists (new ++ new'). by rewrite Hnew', Hnew, app_assoc.
Qed.

(** X30.  The streaming generator throws wrapped errors only, and a
    failure ends it.  The generator either returns or throws an [Error]
    whose message is [OpenAI streaming API error: ] followed by the
    cause; what it had yielded stays yielded.  When the stream fails
    after chunks that went through, the generator ends there with the
    wrapped failure: its yields and state are those of the chunks
    before, and nothing after the failure is read. *)
Theorem X30_stream_failures_are_wrapped
    (steps rest : list StreamStep) (g : Generation) (e : Thrown) :
  let run := stream_from rt steps g in
  (run.2 = Returned \/
   exists cause, run.2 = Threw (streaming_api_error rt cause)) /\
  (exists new, g_yielded run.1 = g_yielded g ++ new) /\
  (run.2 = Returned ->
   stream_from rt (steps ++ Fails e :: rest) g =
   (run.1, Threw (streaming_api_error rt e))).
Proof.
  cbv zeta. split; [apply stream_from_ending|].
  split; [apply stream_from_yields|].
  intros H. by rewrite (stream_from_returned_app steps g _ H).
Qed.

End OpenAIStream.

Section OpenAIStreamExamples.
Import OpenAI.

Lemma X28_tool_calls_are_yielded_at_the_finish_chunk_witness :
  forallb quiet weather_stream = true /\
  let all := weather_stream ++ [Delivers (finish_chunk "tool_calls")] in
  let run := stream_from plain_runtime all (new_Generation new_State) in
  (exists r,
     g_yielded run.1 = text_responses all ++ [r] /\
     calls_of r =
       [ {| id := Some "call_1"; name := Some "get_weather";
            args := Some (JStr "[1,2]") |} ]) /\
  run.2 = Returned.
Proof.
  pose proof (X28_tool_calls_are_yielded_at_the_finish_chunk plain_runtime
                weather_stream (finish_chunk "tool_calls")
                (finish_choice "tool_calls") new_State
                eq_refl eq_refl eq_refl) as [_ H].
  split; [reflexivity|]. cbv zeta.
  split; [|exact (proj2 H)].
  eexists. split; [exact (proj1 H)|reflexivity].
Defined.

Lemma X23_gap_in_tool_call_indices_fails_the_stream_witness :
  forallb quiet gapped_stream = true /\
  (0 < 1)%nat /\
  let all := gapped_stream ++ [Delivers (finish_chunk "tool_calls")] in
  let run := stream_from plain_runtime all (new_Generation new_State) in
  g_yielded run.1 = text_responses all /\
  exists cause, run.2 = Threw (streaming_api_error plain_runtime cause).
Proof.
  assert (0 < 1)%nat as Hlt by exact (le_n 1).
  assert (deltas_at 1
            (stream_deltas
               (gapped_stream ++ [Delivers (finish_chunk "tool_calls")])) <> [])
    as Hne by discriminate.
  exact (conj eq_refl
           (conj Hlt
              (X23_gap_in_tool_call_indices_fails_the_stream plain_runtime
                 gapped_stream (finish_chunk "tool_calls")
                 (finish_choice "tool_calls") new_State 1%nat 0%nat
                 eq_refl eq_refl eq_refl Hlt eq_refl Hne))).
Defined.

Lemma X29_no_finish_reason_no_function_calls_witness :
  Forall (fun step => finishes step = false) weather_stream /\
  let run := stream_from plain_runtime weather_stream (new_Generation new_State) in
  Forall (fun r => functionCalls r = None) (g_yielded run.1) /\
  toolCallIdMap (g_state run.1) = toolCallIdMap new_State.
Proof.
  assert (Forall (fun step => finishes step = false) weather_stream) as Hnone
    by (repeat constructor).
  exact (conj Hnone
           (X29_no_finish_reason_no_function_calls plain_runtime
              weather_stream new_State Hnone)).
Defined.

End OpenAIStreamExamples.

(** ** The OpenAI adapter: tool call ids across requests *)

Section OpenAIToolCallIds.
Import OpenAI.

Variable rt : Runtime.

Lemma last_id_filed (key : option string)
    (filed : list (option string * string)) (j : string) :
  last_id key filed = Some j -> In (key, j) filed.
Proof.
  induction filed as [|[k i] filed IH]; [discriminate|].
  cbn [last_id]. destruct (last_id key filed) as [j'|].
  - intros [= ->]. right. by apply IH.
  - destruct (decide (k = key)) as [->|]; [|discriminate].
    intros [= ->]. by left.
Qed.

Lemma last_id_is_Some (key : option string)
    (filed : list (option string * string)) (i : string) :
  In (key, i) filed -> is_Some (last_id key filed).
Proof.
  induction filed as [|[k i'] filed IH]; [intros []|].
  cbn [last_id]. intros [[= -> ->]|Hin].
  - destruct (last_id key filed); [eauto|]. rewrite decide_True by done. eauto.
  - destruct (IH Hin) as [j ->]. eauto.
Qed.

Lemma call_prefix_truthy (rest : string) : truthy (Some ("call_" +:+ rest)) = true.
Proof. reflexivity. Qed.

(** Function responses whose names are filed with a non-empty id: one
    tool message each, under the filed id; the clock is not read. *)
Lemma tool_messages_filed (frs : list FunctionResponse) (st : State) :
  Forall (fun fr => truthy (toolCallIdMap st !! fr_name fr) = true) frs ->
  tool_messages rt (map response_part frs) st =
  (map (fun fr => tool_message_for rt (toolCallIdMap st !! fr_name fr) fr) frs,
   st).
Proof.
  induction frs as [|fr frs IH]; intros Hall; [reflexivity|].
  inversion Hall as [|? ? Hfr Hrest]; subst.
  cbn [map tool_messages response_part functionResponse].
  unfold toolCallId_of_response. rewrite Hfr, (IH Hrest). reflexivity.
Qed.

Lemma isFunctionResponseContent_responses (frs : list FunctionResponse) :
  isFunctionResponseContent (responses_content frs) = true.
Proof.
  unfold isFunctionResponseContent, responses_content. cbn.
  induction frs as [|fr frs IH]; [reflexivity|].
  cbn. exact IH.
Qed.

Lemma messages_of_responses (frs : list FunctionResponse) (st : State) :
  messages_of_content rt (responses_content frs) st =
  tool_messages rt (map response_part frs) st.
Proof.
  unfold messages_of_content.
  rewrite isFunctionResponseContent_responses. reflexivity.
Qed.

Lemma convertFromOpenAIResponse_map (response : ChatCompletion) (st st' : State)
    (r : GenerateContentResponse) :
  convertFromOpenAIResponse rt response st = (Normal r, st') ->
  clock_reads st' = clock_reads st /\
  forall key,
    toolCallIdMap st' !! key =
    lookup_after (toolCallIdMap st) (filed_by_response (calls_of r)) key.
Proof.
  unfold convertFromOpenAIResponse.
  destruct (first_choice response) as [choice|]; [|discriminate].
  destruct (convert_tool_calls rt _ st _ _) as [[[ps fcs]|e] st1] eqn:Hc;
    [|discriminate].
  intros [= <- <-].
  pose proof (convert_tool_calls_clock rt
                (default [] (message_tool_calls choice)) st
                (if truthy (message_content choice)
                 then [text_part (default EmptyString (message_content choice))]
                 else []) []) as Hclock.
  rewrite Hc in Hclock. cbn [snd] in Hclock.
  apply convert_tool_calls_normal in Hc as (calls & _ & Hfcs & _ & Hmap).
  cbn [app] in Hfcs. subst fcs. split; [exact Hclock|].
  intros key. rewrite Hmap. unfold calls_of. cbn [functionCalls].
  by destruct calls.
Qed.

(** X24.  A function response is sent back under the id of the tool
    call it answers.  After a response of the provider has been
    converted, a later user content made of function responses, each
    named like a call of that response whose id is not empty, is
    converted to one tool message per function response, in order: its
    [tool_call_id] is the id of the last call of the response that has
    the function response's name, and its content is the serialized
    response.  (Two calls of one name share the id of the later one.) *)
Theorem X24_function_response_carries_the_call_id
    (response : ChatCompletion) (st st' : State)
    (r : GenerateContentResponse) (frs : list FunctionResponse)
    (Hconverted : convertFromOpenAIResponse rt response st = (Normal r, st'))
    (Hnamed :
       Forall (fun fr =>
                 truthy (last_id (fr_name fr)
                           (filed_by_response (calls_of r))) = true) frs) :
  convertContentsToMessages rt [responses_content frs] st' =
  (map (fun fr =>
          tool_message_for rt
            (last_id (fr_name fr) (filed_by_response (calls_of r))) fr) frs,
   st').
Proof.
  destruct (convertFromOpenAIResponse_map _ _ _ _ Hconverted) as [_ Hmap].
  cbn [convertContentsToMessages]. rewrite messages_of_responses.
  rewrite tool_messages_filed.
  - rewrite app_nil_r. f_equal. apply map_ext_in. intros fr Hin.
    rewrite Forall_forall in Hnamed. specialize (Hnamed fr).
    rewrite <- list_elem_of_In in Hin. specialize (Hnamed Hin).
    rewrite Hmap. unfold lookup_after.
    destruct (last_id _ _); [reflexivity|discriminate].
  - eapply Forall_impl; [exact Hnamed|]. intros fr Hfr. cbn beta in *.
    rewrite Hmap. unfold lookup_after.
    destruct (last_id _ _); [exact Hfr|discriminate].
Qed.

(** The tool calls built from the calls of a model content. *)
Lemma tool_calls_from_spec (fcs : list FunctionCall) :
  forall (i : nat) (st : State),
  exists tcs st',
    tool_calls_from rt i fcs st = (tcs, st') /\
    Forall2 (fun fc tc =>
               tc_name tc = name fc /\
               tc_arguments tc = JSON_stringify rt (json_or_empty (args fc)) /\
               (truthy (id fc) = true -> Some (tc_id tc) = id fc) /\
               truthy (Some (tc_id tc)) = true)
      fcs tcs /\
    forall key,
      toolCallIdMap st' !! key =
      lookup_after (toolCallIdMap st) (filed_by_history tcs) key.
Proof.
  induction fcs as [|fc fcs IH]; intros i st.
  - exists [], st. repeat split; constructor.
  - cbn [tool_calls_from].
    destruct (toolCallId_of_call rt fc i st) as [toolCallId st1] eqn:Hid.
    destruct (IH (S i)
                (set_id (Some (string_or (name fc) "unknown")) toolCallId st1))
      as (tcs & st' & Hrun & Hall & Hmap).
    rewrite Hrun. eexists (_ :: tcs), st'. split; [reflexivity|].
    assert ((truthy (id fc) = true -> Some toolCallId = id fc) /\
            truthy (Some toolCallId) = true /\
            toolCallIdMap st1 = toolCallIdMap st) as (Hgiven & Htruthy & Hsame).
    { unfold toolCallId_of_call in Hid.
      destruct (truthy (id fc)) eqn:Ht.
      - injection Hid as <- <-. destruct (id fc) as [x|]; [|discriminate].
        cbn. repeat split. exact Ht.
      - cbn in Hid. injection Hid as <- <-. repeat split. discriminate. }
    split.
    + constructor; [|exact Hall]. cbn. repeat split; assumption.
    + intros key. rewrite Hmap. unfold lookup_after, filed_by_history. cbn.
      destruct (last_id key (map _ tcs)); [reflexivity|].
      destruct (decide (Some (string_or (name fc) "unknown") = key))
        as [<-|Hne].
      * by rewrite lookup_insert_eq.
      * rewrite lookup_insert_ne by exact Hne. by rewrite Hsame.
Qed.

Lemma extractFunctionCallsFromParts_calls (fcs : list FunctionCall) :
  extractFunctionCallsFromParts (map function_call_part fcs) = fcs.
Proof.
  unfold extractFunctionCallsFromParts.
  induction fcs as [|fc fcs IH]; [reflexivity|]. cbn. by rewrite IH.
Qed.

(** X25.  In a converted history the tool messages carry the ids of the
    assistant's tool calls.  A model content made of function calls,
    followed by a user content made of function responses that are each
    named like one of the calls ([unknown] for a call without a name),
    becomes one assistant message with one tool call per function call,
    then one tool message per function response.  A tool call has the
    name of its function call and the id of it when it has one; every
    tool message carries the id of the last tool call of its name,
    whether that id was given or made up. *)
Theorem X25_history_tool_messages_carry_the_call_ids
    (fcs : list FunctionCall) (frs : list FunctionResponse) (st : State)
    (Hcalls : fcs <> [])
    (Hnamed :
       Forall (fun fr => exists fc, In fc fcs /\ fr_name fr = history_key fc)
         frs) :
  exists tcs st',
    convertContentsToMessages rt [calls_content fcs; responses_content frs] st =
    (AssistantToolCalls tcs ::
     map (fun fr =>
            tool_message_for rt
              (last_id (fr_name fr) (filed_by_history tcs)) fr) frs, st') /\
    Forall2 (fun fc tc =>
               tc_name tc = name fc /\
               (truthy (id fc) = true -> Some (tc_id tc) = id fc))
      fcs tcs /\
    Forall (fun fr =>
              exists tc, In tc tcs /\
                last_id (fr_name fr) (filed_by_history tcs) = Some (tc_id tc) /\
                fr_name fr = Some (string_or (tc_name tc) "unknown"))
      frs.
Proof.
  destruct (tool_calls_from_spec fcs O st) as (tcs & st' & Hrun & Hall & Hmap).
  assert (Forall (fun fr =>
                    exists tc, In tc tcs /\
                      last_id (fr_name fr) (filed_by_history tcs) =
                        Some (tc_id tc) /\
                      fr_name fr = Some (string_or (tc_name tc) "unknown"))
            frs) as Hlast.
  { eapply Forall_impl; [exact Hnamed|]. intros fr (fc & Hin & Hname).
    cbn beta.
    assert (exists tc, In tc tcs /\ tc_name tc = name fc) as (tc0 & Hin0 & Hn0).
    { clear -Hall Hin. induction Hall as [|fc' tc' fcs' tcs' Hhead Htail IH];
        [destruct Hin|].
      destruct Hin as [->|Hin].
      - exists tc'. split; [by left|]. by destruct Hhead.
      - destruct (IH Hin) as (tc & Ht & Hn). exists tc. split; [by right|done]. }
    assert (In (fr_name fr, tc_id tc0) (filed_by_history tcs)) as Hfiled.
    { unfold filed_by_history. apply in_map_iff. exists tc0.
      split; [|exact Hin0]. rewrite Hname, Hn0. reflexivity. }
    destruct (last_id_is_Some _ _ _ Hfiled) as [j Hj].
    pose proof (last_id_filed _ _ _ Hj) as Hjin.
    unfold filed_by_history in Hjin. apply in_map_iff in Hjin
      as (tc & [= Hkey <-] & Htc).
    exists tc. split; [exact Htc|]. split; [exact Hj|]. by rewrite Hkey. }
  exists tcs, st'. split; [|split].
  - cbn [convertContentsToMessages].
    assert (messages_of_content rt (calls_content fcs) st =
            ([AssistantToolCalls tcs], st')) as ->.
    { unfold messages_of_content, calls_content.
      cbn [role parts default]. unfold Datatypes.id.
      rewrite bool_decide_false by discriminate.
      rewrite bool_decide_true by reflexivity.
      change (default [] (Some ?l)) with l.
      rewrite extractTextFromParts_calls, extractFunctionCallsFromParts_calls.
      cbn [String.eqb negb andb app].
      destruct fcs as [|fc fcs']; [done|]. by rewrite Hrun. }
    rewrite messages_of_responses, tool_messages_filed.
    + rewrite app_nil_r. cbn [app]. f_equal. f_equal.
      apply map_ext_in. intros fr Hin.
      rewrite Forall_forall in Hlast.
      rewrite <- list_elem_of_In in Hin.
      destruct (Hlast fr Hin) as (tc & _ & Hj & _).
      rewrite Hmap. unfold lookup_after. by rewrite Hj.
    + eapply Forall_impl; [exact Hlast|]. intros fr (tc & Hin & Hj & _).
      cbn beta. rewrite Hmap. unfold lookup_after. rewrite Hj.
      clear -Hall Hin. induction Hall as [|fc' tc' fcs' tcs' Hhead Htail IH];
        [destruct Hin|].
      destruct Hin as [->|Hin]; [by destruct Hhead as (_ & _ & _ & ?)|by apply IH].
  - eapply Forall2_impl; [exact Hall|]. intros fc tc (H1 & _ & H3 & _). by split.
  - exact Hlast.
Qed.

Lemma tool_messages_all (ps : list Part) :
  forall st : State,
  forallb has_response ps = true ->
  length (tool_messages rt ps st).1 = length ps /\
  Forall (fun m => is_tool_message m = true) (tool_messages rt ps st).1.
Proof.
  induction ps as [|part ps IH]; intros st Hall; [by split|].
  cbn [forallb] in Hall. apply andb_true_iff in Hall as [Hpart Hall].
  unfold has_response in Hpart. apply bool_decide_eq_true in Hpart as [fr Hfr].
  cbn [tool_messages]. rewrite Hfr.
  destruct (toolCallId_of_response rt (fr_name fr) st) as [toolCallId st1].
  destruct (IH st1 Hall) as [Hlen Htool].
  destruct (tool_messages rt ps st1) as [ms st2]. cbn [fst length] in *.
  split; [by rewrite Hlen|]. by constructor.
Qed.

(** X26.  A user content is either function responses or text, never
    both.  When every part of a user content is a function response, the
    content becomes one tool message per part.  Otherwise its function
    responses are dropped: the content becomes one user message with the
    joined text of its parts, or no message when that text is blank, and
    neither the id map nor the clock is touched.  A content without
    parts becomes no message. *)
Theorem X26_user_content_is_responses_or_text
    (content : Content) (st : State)
    (Hrole : role content = Some "user") :
  let converted := messages_of_content rt content st in
  match parts content with
  | Some ps =>
      if forallb has_response ps then
        length converted.1 = length ps /\
        Forall (fun m => is_tool_message m = true) converted.1
      else
        converted.2 = st /\
        converted.1 =
          (if is_blank (extractTextFromParts ps) then []
           else [UserMessage (extractTextFromParts ps)])
  | None => converted = ([], st)
  end.
Proof.
  cbv zeta. unfold messages_of_content, isFunctionResponseContent.
  rewrite Hrole. rewrite bool_decide_true by reflexivity.
  cbn [String.eqb Ascii.eqb Bool.eqb andb].
  destruct (parts content) as [ps|]; [|reflexivity].
  change (forallb _ ps) with (forallb has_response ps).
  change (default [] (Some ps)) with ps.
  destruct (forallb has_response ps) eqn:Hall.
  - by apply tool_messages_all.
  - by destruct (is_blank (extractTextFromParts ps)).
Qed.

Lemma convert_tool_calls_abrupt (tcs : list (option ToolCall)) :
  forall (st st' : State) (ps0 : list Part) (fcs0 : list FunctionCall)
         (e : Thrown),
  convert_tool_calls rt tcs st ps0 fcs0 = (Abrupt e, st') ->
  (In None tcs /\ e = hole_TypeError) \/
  exists tc, In (Some tc) tcs /\
    JSON_parse rt (string_or (Some (tc_arguments tc)) "{}") = Abrupt e.
Proof.
  induction tcs as [|[tc|] tcs IH]; intros st st' ps0 fcs0 e H; cbn in H.
  - discriminate.
  - destruct (JSON_parse rt _) as [a|e'] eqn:Hparse.
    + apply IH in H as [[Hin ->]|(tc' & Hin & Hp)].
      * left. split; [by right|done].
      * right. exists tc'. split; [by right|done].
    + injection H as <- <-. right. exists tc. split; [by left|exact Hparse].
  - injection H as <- <-. left. split; [by left|done].
Qed.

(** X27.  What a converted response holds.  When the conversion
    returns, the response has one candidate of role [model]: a text part
    when the message has text, then one function call part per tool call
    of the message, in order, each with the id and the name of its tool
    call and the parsed arguments (of [{}] when the arguments are
    empty); [functionCalls] lists the same calls, and is undefined when
    there is none; the usage counts are those of the response, zero when
    absent.  The conversion throws only when the response has no choice,
    when the tool calls have a hole, or when the arguments of a tool call
    do not parse, and then with that error. *)
Theorem X27_converted_response
    (response : ChatCompletion) (st : State) :
  match convertFromOpenAIResponse rt response st with
  | (Normal r, _) =>
      exists choice calls,
        first_choice response = Some choice /\
        candidates r =
          [ {| content :=
                 model_content
                   ((if truthy (message_content choice)
                     then [text_part
                             (default EmptyString (message_content choice))]
                     else []) ++ map function_call_part calls);
               finishReason := Some (mapFinishReason (finish_reason choice)) |} ]
        /\
        functionCalls r = (if decide (calls = []) then None else Some calls) /\
        usageMetadata r = Some (usage_of (usage response)) /\
        Forall2 (fun entry fc =>
                   exists tc, entry = Some tc /\
                     id fc = Some (tc_id tc) /\ name fc = tc_name tc /\
                     JSON_parse rt (string_or (Some (tc_arguments tc)) "{}") =
                       Normal (default JNull (args fc)) /\
                     is_Some (args fc))
          (default [] (message_tool_calls choice)) calls
  | (Abrupt e, st') =>
      (first_choice response = None /\ st' = st /\
       e = new_Error "Error" "No choices in OpenAI response") \/
      exists choice,
        first_choice response = Some choice /\
        let tcs := default [] (message_tool_calls choice) in
        (In None tcs /\ e = hole_TypeError) \/
        exists tc, In (Some tc) tcs /\
          JSON_parse rt (string_or (Some (tc_arguments tc)) "{}") = Abrupt e
  end.
Proof.
  unfold convertFromOpenAIResponse.
  destruct (first_choice response) as [choice|]; [|by left].
  destruct (convert_tool_calls rt _ st _ _) as [[[ps fcs]|e] st1] eqn:Hc.
  - apply convert_tool_calls_normal in Hc as (calls & -> & Hfcs & Hall & _).
    cbn [app] in Hfcs. subst fcs.
    exists choice, calls. split; [reflexivity|]. split; [reflexivity|].
    split; [by destruct calls|]. split; [reflexivity|exact Hall].
  - right. exists choice. split; [reflexivity|].
    by apply convert_tool_calls_abrupt in Hc.
Qed.

End OpenAIToolCallIds.

Section OpenAIToolCallIdExamples.
Import OpenAI.

Lemma X24_function_response_carries_the_call_id_witness :
  exists r st',
    convertFromOpenAIResponse plain_runtime weather_response new_State =
      (Normal r, st') /\
    convertContentsToMessages plain_runtime
      [responses_content [weather_result]] st' =
    ([ToolMessage "call_1" "{}"], st').
Proof.
  assert (Forall (fun fr =>
                    truthy (last_id (fr_name fr)
                              (filed_by_response
                                 [ {| id := Some "call_1";
                                      name := Some "get_weather";
                                      args := Some (JStr "[1,2]") |} ])) = true)
            [weather_result]) as Hnamed by (repeat constructor).
  eexists _, _. split; [reflexivity|].
  exact (X24_function_response_carries_the_call_id plain_runtime
           weather_response new_State _ _ [weather_result] eq_refl Hnamed).
Defined.

Lemma X25_history_tool_messages_carry_the_call_ids_witness :
  history_calls <> [] /\
  exists tcs st',
    convertContentsToMessages plain_runtime
      [calls_content history_calls;
       responses_content [time_result; weather_result]] new_State =
    (AssistantToolCalls tcs ::
     map (fun fr =>
            tool_message_for plain_runtime
              (last_id (fr_name fr) (filed_by_history tcs)) fr)
       [time_result; weather_result], st') /\
    map tc_id tcs = ["call_1"; "call_get_time_1700000000000_1"].
Proof.
  assert (history_calls <> []) as Hne by discriminate.
  assert (Forall (fun fr =>
                    exists fc, In fc history_calls /\
                      fr_name fr = history_key fc)
            [time_result; weather_result]) as Hnamed.
  { constructor; [|constructor; [|constructor]].
    - eexists. split; [right; left; reflexivity|reflexivity].
    - eexists. split; [left; reflexivity|reflexivity]. }
  destruct (X25_history_tool_messages_carry_the_call_ids plain_runtime
              history_calls [time_result; weather_result] new_State Hne Hnamed)
    as (tcs & st' & Hrun & _ & _).
  refine (conj Hne (ex_intro _ tcs (ex_intro _ st' (conj Hrun _)))).
  cbn in Hrun. injection Hrun as <- _ _. reflexivity.
Defined.

Lemma X26_user_content_is_responses_or_text_witness :
  role mixed_content = Some "user" /\
  messages_of_content plain_runtime mixed_content new_State =
  ([UserMessage "see the result"], new_State).
Proof.
  pose proof (X26_user_content_is_responses_or_text plain_runtime
                mixed_content new_State eq_refl) as H.
  cbn in H. destruct H as [Hst Hms].
  split; [reflexivity|].
  destruct (messages_of_content plain_runtime mixed_content new_State)
    as [ms st]. cbn [fst snd] in *. by rewrite Hst, Hms.
Defined.

End OpenAIToolCallIdExamples.
